(** * Azure AI FastAPI demo: a shallow embedding of the gateway's core

    The development follows the Python sources under [app/]:
    - [app/services/ai_service.py]       the text-analysis facade and its fallbacks,
    - [app/services/image_classifier.py] the image facade and its random fallback,
    - [app/services/blob_storage.py]     the blob-store facade,
    - [app/routers/auth.py], [app/auth/dependencies.py]  registration, login, identify,
    - [app/routers/ai_endpoints.py], [app/main.py]       the request pipeline,
    - [app/routers/image_endpoints.py]                   the upload route.

    Conventions.  A Python [str] is modelled by the [string] of its
    UTF-8 encoding, a [bytes] object by the [string] of its bytes;
    Python [float] is modelled by the exact rationals [Q], rounding is
    not modelled; a [dict] whose
    iteration order the code relies on is an insertion-ordered
    association list; the blob container is a finite map.  Effects
    (clock, [uuid4], [random], the module-level [USERS_DB], the blob
    container, raised exceptions) are threaded through a state-and-error
    monad over an explicit [World]. *)

From Stdlib Require Import QArith ZArith Lia Lqa List Ascii String DecimalString.
From stdpp Require Import gmap strings.
Import ListNotations.

Set Warnings "-register-all".

Local Open Scope string_scope.

(** ** Python runtime pieces *)

Module Py.

(** A byte, by its number. *)
Definition byte (n : N) : ascii := Ascii.ascii_of_N n.

Definition is_byte (c : ascii) (n : N) : bool := (Ascii.N_of_ascii c =? n)%N.

(** [len(s)]: the number of characters, that is of the bytes that do
    not continue a multi-byte character. *)
Fixpoint len (s : string) : nat :=
  match s with
  | EmptyString => O
  | String c s' =>
      let n := Ascii.N_of_ascii c in
      if ((128 <=? n) && (n <=? 191))%N then len s' else S (len s')
  end.

(** [c.lower()] on one ASCII character. *)
Definition lower_ascii (c : ascii) : ascii :=
  let n := Ascii.N_of_ascii c in
  if ((65 <=? n) && (n <=? 90))%N then Ascii.ascii_of_N (n + 32) else c.

(** [s.lower()].  ASCII capitals are lowered; of the other characters,
    the two whose lower-case form contains an ASCII letter are mapped
    as Python maps them: U+0130 (bytes C4 B0) to [i] followed by U+0307
    (bytes CC 87), and U+212A, the Kelvin sign (bytes E2 84 AA), to
    [k].  Every other character outside ASCII is left as it is: its
    lower-case form is again outside ASCII, and the code only searches
    the result for ASCII keywords, which cannot tell the two apart. *)
Fixpoint lower (s : string) : string :=
  match s with
  | EmptyString => EmptyString
  | String c s1 =>
      match s1 with
      | EmptyString => String (lower_ascii c) EmptyString
      | String c1 s2 =>
          if is_byte c 196 && is_byte c1 176
          then String "i" (String (byte 204) (String (byte 135) (lower s2)))
          else
            match s2 with
            | EmptyString => String (lower_ascii c) (lower s1)
            | String c2 s3 =>
                if is_byte c 226 && is_byte c1 132 && is_byte c2 170
                then String "k" (lower s3)
                else String (lower_ascii c) (lower s1)
            end
      end
  end.

(** [c.isspace()] on one ASCII character. *)
Definition is_space (c : ascii) : bool :=
  let n := Ascii.N_of_ascii c in
  (((9 <=? n) && (n <=? 13)) || ((28 <=? n) && (n <=? 32)))%N.

(** [c.isspace()] on a character of two bytes: U+0085 and U+00A0. *)
Definition is_space2 (a b : ascii) : bool :=
  is_byte a 194 && (is_byte b 133 || is_byte b 160).

(** [c.isspace()] on a character of three bytes: U+1680, U+2000 to
    U+200A, U+2028, U+2029, U+202F, U+205F and U+3000. *)
Definition is_space3 (a b c : ascii) : bool :=
  let n := Ascii.N_of_ascii c in
  (is_byte a 225 && is_byte b 154 && is_byte c 128)
  || (is_byte a 226 && is_byte b 128
      && (((128 <=? n) && (n <=? 138)) || (n =? 168) || (n =? 169) || (n =? 175))%N)
  || (is_byte a 226 && is_byte b 129 && is_byte c 159)
  || (is_byte a 227 && is_byte b 128 && is_byte c 128).

(** [s.lstrip()]: white-space characters are dropped from the left. *)
Fixpoint lstrip (s : string) : string :=
  match s with
  | EmptyString => EmptyString
  | String a s1 =>
      if is_space a then lstrip s1
      else
        match s1 with
        | EmptyString => s
        | String b s2 =>
            if is_space2 a b then lstrip s2
            else
              match s2 with
              | EmptyString => s
              | String c s3 => if is_space3 a b c then lstrip s3 else s
              end
        end
  end.

Definition reversed (s : string) : string :=
  string_of_list_ascii (List.rev (list_ascii_of_string s)).

(** The same from the right, on the reversed string: the last byte of
    a character comes first. *)
Fixpoint rstrip_reversed (r : string) : string :=
  match r with
  | EmptyString => EmptyString
  | String c r1 =>
      if is_space c then rstrip_reversed r1
      else
        match r1 with
        | EmptyString => r
        | String b r2 =>
            if is_space2 b c then rstrip_reversed r2
            else
              match r2 with
              | EmptyString => r
              | String a r3 => if is_space3 a b c then rstrip_reversed r3 else r
              end
        end
  end.

(** [s.rstrip()]. *)
Definition rstrip (s : string) : string := reversed (rstrip_reversed (reversed s)).

(** [s.strip()]. *)
Definition strip (s : string) : string := rstrip (lstrip s).

(** [sep.join(parts)]. *)
Fixpoint join (sep : string) (parts : list string) : string :=
  match parts with
  | [] => EmptyString
  | [x] => x
  | x :: xs => x ++ sep ++ join sep xs
  end.

(** [needle in hay] on strings: substring test. *)
Fixpoint contains (needle hay : string) : bool :=
  if String.prefix needle hay then true
  else match hay with
       | EmptyString => false
       | String _ hay' => contains needle hay'
       end.

(** [sum(1 for word in words if word in text)]. *)
Definition count_in (words : list string) (text : string) : nat :=
  length (List.filter (fun word => contains word text) words).

(** Comparisons on floats, as booleans. *)
Definition Qltb (a b : Q) : bool := negb (Qle_bool b a).
Definition Qgtb (a b : Q) : bool := Qltb b a.

(** [min(a, b)]: the first argument unless the second is strictly smaller. *)
Definition min (a b : Q) : Q := if Qltb b a then b else a.

(** [max(items, key=key)] on a non-empty sequence [x :: xs]: the first
    item whose key is maximal. *)
Fixpoint max_by {A} (key : A -> Q) (best : A) (xs : list A) : A :=
  match xs with
  | [] => best
  | x :: xs' => max_by key (if Qgtb (key x) (key best) then x else best) xs'
  end.

(** Python values, as far as the gateway produces them. *)
Inductive val :=
| None_
| Bool (b : bool)
| Int (n : Z)
| Float (q : Q)
| Str (s : string)
| Dict (items : list (string * val))
| List_ (elems : list val).

(** Insertion-ordered dictionaries with string keys. *)
Definition dict (V : Type) := list (string * V).

Fixpoint get {V} (d : dict V) (k : string) : option V :=
  match d with
  | [] => None
  | (k', v) :: d' => if String.eqb k' k then Some v else get d' k
  end.

(** [d[k] = v]: an existing key keeps its position, a new key is appended. *)
Fixpoint set {V} (d : dict V) (k : string) (v : V) : dict V :=
  match d with
  | [] => [(k, v)]
  | (k', v') :: d' =>
      if String.eqb k' k then (k', v) :: d' else (k', v') :: set d' k v
  end.

Definition keys {V} (d : dict V) : list string := map fst d.
Definition values {V} (d : dict V) : list V := map snd d.

(** [any(p(u) for u in xs)] and [next((u for u in xs if p(u)), None)]. *)
Definition any {A} (p : A -> bool) (xs : list A) : bool := existsb p xs.
Definition next {A} (p : A -> bool) (xs : list A) : option A := List.find p xs.

End Py.

(** ** Exceptions, the world and the effect monad *)

(** [str(n)] for a natural number, and [%0<width>d]. *)
Definition str_nat (n : nat) : string := NilZero.string_of_uint (Nat.to_uint n).

Fixpoint zeros (k : nat) : string :=
  match k with
  | O => EmptyString
  | S k' => String "0" (zeros k')
  end.

Definition zero_pad (width n : nat) : string :=
  let digits := str_nat n in
  zeros (width - String.length digits) ++ digits.

(** Exceptions below [Exception].  [Exception msg] stands for any
    exception that is not an [HTTPException], [msg] being its [str(e)]. *)
Inductive exn :=
| Exception (msg : string)
| HTTPException (status_code : nat) (detail : string) (headers : Py.dict string).

(** [str(e)]; Starlette prints an [HTTPException] as [status: detail]. *)
Definition str (e : exn) : string :=
  match e with
  | Exception msg => msg
  | HTTPException status_code detail _ => str_nat status_code ++ ": " ++ detail
  end.

Record DateTime := mkDateTime {
  year : nat; month : nat; day : nat;
  hour : nat; minute : nat; second : nat; microsecond : nat }.

(** [dt.strftime("%Y%m%d")]. *)
Definition strftime_Ymd (dt : DateTime) : string :=
  zero_pad 4 (year dt) ++ zero_pad 2 (month dt) ++ zero_pad 2 (day dt).

(** [dt.strftime("%Y%m%d_%H%M%S")]. *)
Definition strftime_Ymd_HMS (dt : DateTime) : string :=
  strftime_Ymd dt ++ "_" ++
  zero_pad 2 (hour dt) ++ zero_pad 2 (minute dt) ++ zero_pad 2 (second dt).

(** [dt.isoformat()]: the microseconds are printed unless they are zero. *)
Definition isoformat (dt : DateTime) : string :=
  zero_pad 4 (year dt) ++ "-" ++ zero_pad 2 (month dt) ++ "-" ++ zero_pad 2 (day dt)
  ++ "T" ++ zero_pad 2 (hour dt) ++ ":" ++ zero_pad 2 (minute dt) ++ ":" ++
  zero_pad 2 (second dt)
  ++ (if Nat.eqb (microsecond dt) 0 then EmptyString
      else "." ++ zero_pad 6 (microsecond dt)).

(** One reading of the system clock: [datetime.utcnow()] and [time.time()]. *)
Record Instant := mkInstant { utc : DateTime; epoch : Q }.

(** What the process cannot control, indexed by the number of effects
    performed so far: the clock, the identifiers [uuid4] hands out, the
    random generator's raw output, and the fault (if any) that strikes a
    call to the blob service. *)
Record Env := mkEnv {
  clock : nat -> Instant;
  uuids : nat -> string;
  entropy : nat -> N;
  faults : nat -> option string }.

(** A stored user: one value of [USERS_DB]. *)
Record UserRecord := mkUserRecord {
  id : string;
  username : string;
  email : string;
  full_name : option string;
  hashed_password : string;
  is_active : bool;
  created_at : DateTime }.

(** What a blob holds: the text [json.dumps(data, indent=2)] prints,
    represented by the document [data] it prints, or raw bytes. *)
Inductive BlobContent :=
| Json (data : Py.dict Py.val)
| Bytes (raw : string).

(** A blob: content and content type. *)
Record Blob := mkBlob { content : BlobContent; content_type : string }.

(** A task handed to [BackgroundTasks.add_task]: [save_request_to_blob]
    with its arguments. *)
Record BackgroundTask := mkTask {
  task_request_id : string;
  task_endpoint : string;
  task_request : Py.dict Py.val;
  task_response : Py.dict Py.val }.

Record World := mkWorld {
  env : Env;
  step : nat;
  USERS_DB : Py.dict UserRecord;
  blobs : gmap (string * string) Blob;   (* (container, blob name) -> blob *)
  tasks : list BackgroundTask }.

Definition with_step (n : nat) (w : World) : World :=
  mkWorld (env w) n (USERS_DB w) (blobs w) (tasks w).
Definition with_USERS_DB (db : Py.dict UserRecord) (w : World) : World :=
  mkWorld (env w) (step w) db (blobs w) (tasks w).
Definition with_blobs (b : gmap (string * string) Blob) (w : World) : World :=
  mkWorld (env w) (step w) (USERS_DB w) b (tasks w).
Definition with_tasks (t : list BackgroundTask) (w : World) : World :=
  mkWorld (env w) (step w) (USERS_DB w) (blobs w) t.

(** Computations that may raise and that change the world. *)
Definition M (A : Type) : Type := World -> (exn + A) * World.

Definition ret {A} (a : A) : M A := fun w => (inr a, w).
Definition raise {A} (e : exn) : M A := fun w => (inl e, w).
Definition bind {A B} (c : M A) (k : A -> M B) : M B :=
  fun w => match c w with
           | (inr a, w') => k a w'
           | (inl e, w') => (inl e, w')
           end.

(** [try: body / except Exception as e: handler(e)]: what [body] did to
    the world before raising stays done. *)
Definition try_except {A} (body : M A) (handler : exn -> M A) : M A :=
  fun w => match body w with
           | (inr a, w') => (inr a, w')
           | (inl e, w') => handler e w'
           end.

Definition lift {A} (r : exn + A) : M A := fun w => (r, w).

Notation "x <- c ;; k" := (bind c (fun x => k))
  (at level 100, c at next level, right associativity).
Notation "c ;;; k" := (bind c (fun _ => k))
  (at level 100, right associativity).

(** Reading the environment consumes one step. *)
Definition observe {A} (f : Env -> nat -> A) : M A :=
  fun w => (inr (f (env w) (step w)), with_step (S (step w)) w).

Definition utcnow : M DateTime := observe (fun e n => utc (clock e n)).
Definition time_time : M Q := observe (fun e n => epoch (clock e n)).
Definition uuid4 : M string := observe uuids.

(** [random.random()]: a 53-bit integer over [2^53]. *)
Definition unit_draw (raw : N) : Q := (Z.of_N (raw mod 2 ^ 53) # 2 ^ 53)%Q.

Definition random_random : M Q := observe (fun e n => unit_draw (entropy e n)).

(** [random.uniform(a, b)] is [a + (b - a) * random()]. *)
Definition random_uniform (a b : Q) : M Q :=
  u <- random_random ;; ret (a + (b - a) * u)%Q.

(** [random.choice(seq)]: [seq[_randbelow(len(seq))]]; an empty sequence
    raises [IndexError]. *)
Definition random_choice {A} (seq : list A) : M A :=
  match seq with
  | [] => raise (Exception "Cannot choose from an empty sequence")
  | x :: _ =>
      i <- observe (fun e n => N.to_nat (entropy e n mod N.of_nat (length seq))) ;;
      ret (nth i seq x)
  end.

Definition get_USERS_DB : M (Py.dict UserRecord) := fun w => (inr (USERS_DB w), w).
Definition put_USERS_DB (db : Py.dict UserRecord) : M unit :=
  fun w => (inr tt, with_USERS_DB db w).

(** ** Configuration and the remote completion backend *)

(** The fields of [app.config.settings] that the modelled code reads. *)
Record Settings := mkSettings {
  DEBUG : bool;
  AZURE_OPENAI_DEPLOYMENT : string;
  AZURE_STORAGE_CONTAINER_NAME : string;
  JWT_ACCESS_TOKEN_EXPIRE_MINUTES : nat }.

(** The argument of [client.chat.completions.create]. *)
Record ChatRequest := mkChatRequest {
  model : string;
  messages : list (string * string);    (* role, content *)
  temperature : Q;
  max_tokens : nat }.

(** Its result: [choices[i].message.content] and [usage.total_tokens]. *)
Record ChatCompletion := mkChatCompletion {
  choices : list (option string);
  usage : option Z }.

(** The [AzureOpenAI] client: a remote call whose outcome is decided by
    the environment; it returns a completion or raises. *)
Definition AzureOpenAI : Type := ChatRequest -> Env -> nat -> exn + ChatCompletion.

Definition create (client : AzureOpenAI) (request : ChatRequest) : M ChatCompletion :=
  r <- observe (client request) ;; lift r.

(** [response.choices[0].message.content]. *)
Definition first_content (response : ChatCompletion) : M (option string) :=
  match choices response with
  | [] => raise (Exception "list index out of range")
  | c :: _ => ret c
  end.

(** [d[k]] on a dictionary: a missing key raises [KeyError]. *)
Definition getitem (d : Py.dict Py.val) (k : string) : M Py.val :=
  match Py.get d k with
  | Some v => ret v
  | None => raise (Exception ("'" ++ k ++ "'"))
  end.

(** [v[k] = x] with a string key: only a dictionary accepts it, any
    other value raises [TypeError]. *)
Definition setitem (v : Py.val) (k : string) (x : Py.val) : M (Py.dict Py.val) :=
  match v with
  | Py.Dict d => ret (Py.set d k x)
  | Py.List_ _ => raise (Exception "list indices must be integers or slices, not str")
  | Py.None_ => raise (Exception "'NoneType' object does not support item assignment")
  | Py.Bool _ => raise (Exception "'bool' object does not support item assignment")
  | Py.Int _ => raise (Exception "'int' object does not support item assignment")
  | Py.Float _ => raise (Exception "'float' object does not support item assignment")
  | Py.Str _ => raise (Exception "'str' object does not support item assignment")
  end.

(** The double quote character, for the prompts. *)
Definition dquote : string := String (Ascii.ascii_of_nat 34) EmptyString.
Definition quoted (s : string) : string := dquote ++ s ++ dquote.
Definition newline : string := String (Ascii.ascii_of_nat 10) EmptyString.

(** ** The text-analysis facade ([ai_service.py]) *)

Module AIService.

Definition positive_words : list string :=
  ["good"; "great"; "excellent"; "amazing"; "wonderful"; "fantastic"; "love"; "happy"].
Definition negative_words : list string :=
  ["bad"; "terrible"; "awful"; "horrible"; "hate"; "sad"; "angry"; "poor"].

Definition hits (words : list string) (text : string) : Q :=
  inject_Z (Z.of_nat (Py.count_in words text)).

(** [AzureAIService._mock_sentiment_analysis]. *)
Definition _mock_sentiment_analysis (text : string) : Py.dict Py.val :=
  let text_lower := Py.lower text in
  let positive_score := (hits positive_words text_lower / 10)%Q in
  let negative_score := (hits negative_words text_lower / 10)%Q in
  let neutral_score := (1.0 - positive_score - negative_score)%Q in
  let '(sentiment, confidence) :=
    if Py.Qgtb positive_score negative_score
    then ("positive", Py.min (0.5 + positive_score) 0.95)
    else if Py.Qgtb negative_score positive_score
    then ("negative", Py.min (0.5 + negative_score) 0.95)
    else ("neutral", 0.6%Q) in
  [ ("sentiment", Py.Str sentiment);
    ("confidence", Py.Float confidence);
    ("scores", Py.Dict
       [ ("positive", Py.Float (if String.eqb sentiment "positive"
                                then Py.min (positive_score + 0.3) 1.0
                                else positive_score));
         ("negative", Py.Float (if String.eqb sentiment "negative"
                                then Py.min (negative_score + 0.3) 1.0
                                else negative_score));
         ("neutral", Py.Float neutral_score) ]);
    ("processing_time", Py.Float 0.1) ].

Definition keywords : Py.dict (list string) :=
  [ ("Technology", ["tech"; "software"; "computer"; "ai"; "data"; "cloud"; "app"]);
    ("Business", ["business"; "company"; "market"; "revenue"; "profit"; "investment"]);
    ("Sports", ["sports"; "game"; "team"; "player"; "match"; "championship"]);
    ("Entertainment", ["movie"; "music"; "film"; "show"; "celebrity"; "entertainment"]);
    ("Politics", ["politics"; "government"; "election"; "president"; "policy"]);
    ("Health", ["health"; "medical"; "doctor"; "hospital"; "disease"; "treatment"]) ].

(** The loop [for category, words in keywords.items(): scores[category] = ...]. *)
Definition category_scores (text_lower : string) : Py.dict Q :=
  fold_left
    (fun scores '(category, words) =>
       let score := (hits words text_lower / inject_Z (Z.of_nat (length words)))%Q in
       Py.set scores category (Py.min (score + 0.1) 0.9))
    keywords [].

(** [AzureAIService._mock_text_classification].  The six categories
    make [scores] non-empty, so [max] always has a first item. *)
Definition _mock_text_classification (text : string) : Py.dict Py.val :=
  let text_lower := Py.lower text in
  let scores := category_scores text_lower in
  let best_category :=
    match scores with
    | [] => (EmptyString, 0%Q)
    | item :: items => Py.max_by snd item items
    end in
  [ ("category", Py.Str (fst best_category));
    ("confidence", Py.Float (snd best_category));
    ("all_scores", Py.Dict (map (fun '(k, q) => (k, Py.Float q)) scores));
    ("processing_time", Py.Float 0.1) ].

Section Facade.

Variable settings : Settings.
(** [json.loads]. *)
Variable json_loads : string -> exn + Py.val.

(** The service object: [self.client] is [None] when the backend is
    not configured or its construction failed. *)
Record AzureAIService := mkAzureAIService { client : option AzureOpenAI }.

Definition sentiment_prompt (text : string) : string :=
  "Analyze the sentiment of the following text and respond with a JSON object containing:"
  ++ newline ++ "- sentiment: one of " ++ quoted "positive" ++ ", " ++ quoted "negative"
  ++ ", or " ++ quoted "neutral"
  ++ newline ++ "- confidence: a float between 0 and 1"
  ++ newline ++ "- scores: an object with scores for positive, negative, and neutral"
  ++ newline ++ newline ++ "Text: " ++ text
  ++ newline ++ newline ++ "Respond only with the JSON object, no additional text.".

(** [response.choices[0].message.content.strip()]. *)
Definition stripped_content (response : ChatCompletion) : M string :=
  content <- first_content response ;;
  match content with
  | Some c => ret (Py.strip c)
  | None => raise (Exception "'NoneType' object has no attribute 'strip'")
  end.

(** The [try] block of [analyze_sentiment]: delegation to the backend. *)
Definition sentiment_delegation (cl : AzureOpenAI) (start_time : Q) (text : string)
  : M (Py.dict Py.val) :=
  let prompt := sentiment_prompt text in
  response <- create cl
    (mkChatRequest (AZURE_OPENAI_DEPLOYMENT settings)
       [ ("system", "You are a sentiment analysis AI. Respond only with JSON.");
         ("user", prompt) ]
       0.3 200) ;;
  result_text <- stripped_content response ;;
  result <- lift (json_loads result_text) ;;
  now <- time_time ;;
  setitem result "processing_time" (Py.Float (now - start_time)).

(** [AzureAIService.analyze_sentiment]. *)
Definition analyze_sentiment (self : AzureAIService) (text : string)
    (language : option string) : M (Py.dict Py.val) :=
  start_time <- time_time ;;
  match client self with
  | None => ret (_mock_sentiment_analysis text)
  | Some cl =>
      try_except (sentiment_delegation cl start_time text)
        (fun e => (* logger.error *) ret (_mock_sentiment_analysis text))
  end.

Definition default_categories : list string :=
  ["Technology"; "Business"; "Sports"; "Entertainment"; "Politics"; "Health"].

Definition classification_prompt (cats : list string) (text : string) : string :=
  "Classify the following text into one of these categories: " ++ Py.join ", " cats
  ++ newline ++ newline ++ "Text: " ++ text
  ++ newline ++ newline ++ "Respond with a JSON object containing:"
  ++ newline ++ "- category: the best matching category"
  ++ newline ++ "- confidence: a float between 0 and 1"
  ++ newline ++ "- all_scores: an object with confidence scores for each category"
  ++ newline ++ newline ++ "Respond only with the JSON object.".

(** The [try] block of [classify_text]. *)
Definition classification_delegation (cl : AzureOpenAI) (start_time : Q)
    (text : string) (categories : option (list string)) : M (Py.dict Py.val) :=
  let cats := match categories with
              | Some (c :: cs) => c :: cs
              | _ => default_categories
              end in
  let prompt := classification_prompt cats text in
  response <- create cl
    (mkChatRequest (AZURE_OPENAI_DEPLOYMENT settings)
       [ ("system", "You are a text classification AI. Respond only with JSON.");
         ("user", prompt) ]
       0.3 300) ;;
  result_text <- stripped_content response ;;
  result <- lift (json_loads result_text) ;;
  now <- time_time ;;
  setitem result "processing_time" (Py.Float (now - start_time)).

(** [AzureAIService.classify_text]. *)
Definition classify_text (self : AzureAIService) (text : string)
    (categories : option (list string)) : M (Py.dict Py.val) :=
  start_time <- time_time ;;
  match client self with
  | None => ret (_mock_text_classification text)
  | Some cl =>
      try_except (classification_delegation cl start_time text categories)
        (fun e => (* logger.error *) ret (_mock_text_classification text))
  end.

(** The literal [chat_completion] returns when there is no client. *)
Definition mock_chat_response (processing_time : Q) : Py.dict Py.val :=
  [ ("response", Py.Str "Azure OpenAI is not configured. This is a mock response.");
    ("model", Py.Str "mock");
    ("tokens_used", Py.Int 0);
    ("processing_time", Py.Float processing_time) ].

(** The [try] block of [chat_completion]. *)
Definition chat_delegation (cl : AzureOpenAI) (start_time : Q) (prompt : string)
    (max_tokens : nat) (temperature : Q) : M (Py.dict Py.val) :=
  response <- create cl
    (mkChatRequest (AZURE_OPENAI_DEPLOYMENT settings)
       [ ("system", "You are a helpful AI assistant.");
         ("user", prompt) ]
       temperature max_tokens) ;;
  content <- first_content response ;;
  tokens_used <- match usage response with
                 | Some n => ret n
                 | None => raise (Exception "'NoneType' object has no attribute 'total_tokens'")
                 end ;;
  now <- time_time ;;
  ret [ ("response", match content with Some c => Py.Str c | None => Py.None_ end);
        ("model", Py.Str (AZURE_OPENAI_DEPLOYMENT settings));
        ("tokens_used", Py.Int tokens_used);
        ("processing_time", Py.Float (now - start_time)) ].

(** [AzureAIService.chat_completion]: its handler logs and re-raises. *)
Definition chat_completion (self : AzureAIService) (prompt : string)
    (max_tokens : nat) (temperature : Q) : M (Py.dict Py.val) :=
  start_time <- time_time ;;
  match client self with
  | None =>
      now <- time_time ;;
      ret (mock_chat_response (now - start_time))
  | Some cl =>
      try_except (chat_delegation cl start_time prompt max_tokens temperature)
        (fun e => (* logger.error *) raise e)
  end.

End Facade.

End AIService.

(** ** The image facade ([image_classifier.py]) *)

Module ImageClassifier.

(** One element of the list the YOLO model returns: the class-name
    table and, per detected box, the class index and the confidence. *)
Record Results := mkResults {
  names : list string;
  boxes : list (nat * Q) }.

(** The object [PIL.Image.open] returns: the format it identified and
    the stream it reads the pixels from. *)
Record Image := mkImage {
  image_format : string;
  image_fp : string }.

(** The loaded model, applied to the opened image: a collaborator
    whose outcome the environment decides. *)
Definition YOLO : Type := Image -> Env -> nat -> exn + list Results.

Record ImageClassifierService := mkImageClassifierService {
  model : option YOLO;
  classes : list string }.

(** [ImageClassifierService.__init__] without a usable model file. *)
Definition unloaded : ImageClassifierService :=
  mkImageClassifierService None ["lying"; "standing"; "sitting"].

(** [max(a, b)] on floats. *)
Definition max (a b : Q) : Q := if Py.Qgtb b a then b else a.

(** [confidences.argmax()] on a non-empty array: the first index of the
    largest confidence. *)
Fixpoint argmax_from (i best_i : nat) (best : Q) (xs : list (nat * Q)) : nat :=
  match xs with
  | [] => best_i
  | (_, c) :: xs' =>
      if Py.Qgtb c best then argmax_from (S i) i c xs'
      else argmax_from (S i) best_i best xs'
  end.

(** The loop [for cls in self.classes] of the fallback: the chosen pose
    gets [confidence], every other class a fresh draw in the low band. *)
Fixpoint mock_scores (pose : string) (confidence : Q) (cls_list : list string)
    (all_scores : Py.dict Py.val) : M (Py.dict Py.val) :=
  match cls_list with
  | [] => ret all_scores
  | cls :: rest =>
      if String.eqb cls pose
      then mock_scores pose confidence rest (Py.set all_scores cls (Py.Float confidence))
      else (q <- random_uniform 0.05 0.3 ;;
            mock_scores pose confidence rest (Py.set all_scores cls (Py.Float q)))
  end.

(** [ImageClassifierService._mock_classification]. *)
Definition _mock_classification (self : ImageClassifierService) : M (Py.dict Py.val) :=
  pose <- random_choice (classes self) ;;
  confidence <- random_uniform 0.7 0.95 ;;
  all_scores <- mock_scores pose confidence (classes self) [] ;;
  ret [ ("pose", Py.Str pose);
        ("confidence", Py.Float confidence);
        ("all_scores", Py.Dict all_scores);
        ("detections_count", Py.Int 1);
        ("processing_time", Py.Float 0.15);
        ("message", Py.Str "Using mock classification (model not loaded)") ].

(** [class_names[i]]: a missing index raises [KeyError]. *)
Definition class_name (class_names : list string) (i : nat) : M string :=
  match nth_error class_names i with
  | Some n => ret n
  | None => raise (Exception (str_nat i))
  end.

(** The loop [for cls_idx, conf in zip(classes, confidences)]. *)
Fixpoint best_scores (class_names : list string) (bs : list (nat * Q))
    (all_scores : Py.dict Q) : M (Py.dict Q) :=
  match bs with
  | [] => ret all_scores
  | (cls_idx, conf) :: bs' =>
      cls_name <- class_name class_names cls_idx ;;
      match Py.get all_scores cls_name with
      | Some old => best_scores class_names bs' (Py.set all_scores cls_name (max old conf))
      | None => raise (Exception ("'" ++ cls_name ++ "'"))
      end
  end.

Definition float_items (d : Py.dict Q) : Py.dict Py.val :=
  map (fun '(k, q) => (k, Py.Float q)) d.

Section Classifier.

(** [PIL.Image.open] on a stream of bytes: it returns the image, or
    raises when it cannot identify the format. *)
Variable Image_open : string -> exn + Image.

(** [ImageClassifierService.classify_image]. *)
Definition classify_image (self : ImageClassifierService) (image_bytes : string)
  : M (Py.dict Py.val) :=
  start_time <- time_time ;;
  match model self with
  | None => _mock_classification self
  | Some yolo =>
      try_except
        (image <- lift (Image_open image_bytes) ;;
         r <- observe (yolo image) ;;
         results <- lift r ;;
         match results with
         | mkResults class_names ((c0 :: _) as bxs) :: _ =>
             let best_idx := argmax_from 1 0 (snd c0) (tl bxs) in
             let best := nth best_idx bxs c0 in
             predicted_class <- class_name class_names (fst best) ;;
             scores <- best_scores class_names bxs
                         (fold_left (fun d n => Py.set d n 0.0%Q) class_names []) ;;
             now <- time_time ;;
             ret [ ("pose", Py.Str predicted_class);
                   ("confidence", Py.Float (snd best));
                   ("all_scores", Py.Dict (float_items scores));
                   ("detections_count", Py.Int (Z.of_nat (length bxs)));
                   ("processing_time", Py.Float (now - start_time)) ]
         | _ =>
             now <- time_time ;;
             ret [ ("pose", Py.Str "unknown");
                   ("confidence", Py.Float 0.0);
                   ("all_scores",
                    Py.Dict (float_items
                               (fold_left (fun d n => Py.set d n 0.0%Q) (classes self) [])));
                   ("detections_count", Py.Int 0);
                   ("processing_time", Py.Float (now - start_time));
                   ("message", Py.Str "No human detected in image") ]
         end)
        (fun e => (* logger.error *) _mock_classification self)
  end.

End Classifier.

End ImageClassifier.

(** ** The blob-store facade ([blob_storage.py]) *)

Module BlobStorage.

(** The service object: whether [self.client] is set, and the container. *)
Record BlobStorageService := mkBlobStorageService {
  has_client : bool;
  container_name : string }.

(** [get_blob_client(container, blob).upload_blob(data, overwrite, content_settings)]:
    the call fails when the environment says so, or when the blob
    exists and [overwrite] is off. *)
Definition upload_blob (container blob : string) (data : BlobContent)
    (overwrite : bool) (ctype : string) : M unit :=
  fault <- observe faults ;;
  match fault with
  | Some msg => raise (Exception msg)
  | None =>
      fun w =>
        match blobs w !! (container, blob) with
        | Some _ =>
            if overwrite
            then (inr tt, with_blobs (<[(container, blob) := mkBlob data ctype]> (blobs w)) w)
            else (inl (Exception "The specified blob already exists."), w)
        | None =>
            (inr tt, with_blobs (<[(container, blob) := mkBlob data ctype]> (blobs w)) w)
        end
  end.

(** The blob name of a request log. *)
Definition log_blob_name (timestamp request_id : string) : string :=
  "logs/" ++ timestamp ++ "/" ++ request_id ++ ".json".

(** [BlobStorageService.save_request_log].  The second component of
    the result is the caller's [data] dictionary as the call leaves
    it: the method writes [logged_at] into the object it is given. *)
Definition save_request_log (self : BlobStorageService) (request_id : string)
    (data : Py.dict Py.val) : M (bool * Py.dict Py.val) :=
  if negb (has_client self) then ret (false, data)
  else
    now <- utcnow ;;
    let timestamp := strftime_Ymd now in
    let blob_name := log_blob_name timestamp request_id in
    now' <- utcnow ;;
    let data' := Py.set data "logged_at" (Py.Str (isoformat now')) in
    try_except
      (upload_blob (container_name self) blob_name (Json data') true
         "application/json" ;;;
       ret (true, data'))
      (fun e => (* logger.error *) ret (false, data')).

(** [save_request_to_blob], the background task of the text endpoints. *)
Definition save_request_to_blob (blob_service : BlobStorageService)
    (t : BackgroundTask) : M unit :=
  now <- utcnow ;;
  let log_data :=
    [ ("request_id", Py.Str (task_request_id t));
      ("endpoint", Py.Str (task_endpoint t));
      ("request", Py.Dict (task_request t));
      ("response", Py.Dict (task_response t));
      ("timestamp", Py.Str (isoformat now)) ] in
  save_request_log blob_service (task_request_id t) log_data ;;;
  ret tt.

Section Files.

(** [blob_client.url], as the storage SDK builds it from the account,
    the container and the blob name. *)
Variable blob_url : string -> string -> string.
(** [json.loads] on the raw bytes of a blob. *)
Variable json_loads : string -> exn + Py.val.

(** The blob name of an uploaded input file. *)
Definition input_blob_name (timestamp file_name : string) : string :=
  "inputs/" ++ timestamp ++ "_" ++ file_name.

(** [BlobStorageService.save_input_file]. *)
Definition save_input_file (self : BlobStorageService) (file_name file_content : string)
    (ctype : string) : M (option string) :=
  if negb (has_client self) then ret None
  else
    try_except
      (now <- utcnow ;;
       let timestamp := strftime_Ymd_HMS now in
       let blob_name := input_blob_name timestamp file_name in
       upload_blob (container_name self) blob_name (Bytes file_content) true ctype ;;;
       let url := blob_url (container_name self) blob_name in
       (* logger.info *)
       ret (Some url))
      (fun e => (* logger.error *) ret None).

(** [blob_client.exists()]: a remote call. *)
Definition blob_exists (container blob : string) : M bool :=
  fault <- observe faults ;;
  match fault with
  | Some msg => raise (Exception msg)
  | None =>
      fun w => (inr (match blobs w !! (container, blob) with
                     | Some _ => true
                     | None => false
                     end), w)
  end.

(** [blob_client.download_blob().readall()]: a remote call. *)
Definition download_blob (container blob : string) : M BlobContent :=
  fault <- observe faults ;;
  match fault with
  | Some msg => raise (Exception msg)
  | None =>
      fun w => match blobs w !! (container, blob) with
               | Some b => (inr (content b), w)
               | None => (inl (Exception "The specified blob does not exist."), w)
               end
  end.

(** [json.loads(blob_data)]: the text of a JSON blob parses back to
    the document it was printed from. *)
Definition loads_blob (blob_data : BlobContent) : M Py.val :=
  match blob_data with
  | Json data => ret (Py.Dict data)
  | Bytes raw => lift (json_loads raw)
  end.

(** [BlobStorageService.get_log]. *)
Definition get_log (self : BlobStorageService) (request_id date : string)
  : M (option Py.val) :=
  if negb (has_client self) then ret None
  else
    try_except
      (let blob_name := "logs/" ++ date ++ "/" ++ request_id ++ ".json" in
       present <- blob_exists (container_name self) blob_name ;;
       if present
       then
         blob_data <- download_blob (container_name self) blob_name ;;
         v <- loads_blob blob_data ;;
         ret (Some v)
       else ret None)
      (fun e => (* logger.error *) ret None).

End Files.

End BlobStorage.

(** ** Registration, login and identification ([routers/auth.py], [auth/dependencies.py]) *)

Module Auth.

(** Request and response models of [auth/models.py]. *)
Record UserCreate := mkUserCreate {
  new_username : string;
  new_email : string;
  new_full_name : option string;
  new_password : string }.

Record UserLogin := mkUserLogin {
  login_username : string;
  login_password : string }.

(** The response model [User]: a user record without its password hash. *)
Record User := mkUser {
  view_id : string;
  view_username : string;
  view_email : string;
  view_full_name : option string;
  view_is_active : bool;
  view_created_at : DateTime }.

Record Token := mkToken {
  access_token : string;
  token_type : string;
  expires_in : nat }.

(** The decoded claims of a token: string-valued or null. *)
Definition Claims : Type := Py.dict (option string).

(** [payload.get(k)]. *)
Definition claim (payload : Claims) (k : string) : option string :=
  match Py.get payload k with
  | Some v => v
  | None => None
  end.

(** The dictionary [get_current_user] returns. *)
Record CurrentUser := mkCurrentUser {
  cu_username : string;
  cu_user_id : string;
  cu_email : option string;
  cu_full_name : option string }.

(** The [User] built from every item of the stored dictionary except
    [hashed_password]. *)
Definition user_view (user : UserRecord) : User :=
  mkUser (id user) (username user) (email user) (full_name user)
         (is_active user) (created_at user).

Section Service.

Variable settings : Settings.

(** The helpers of [auth/jwt_handler.py], by their contracts: the
    hasher salts each call with fresh randomness, verification is a
    pure test, decoding depends on the current time (expiry), and
    encoding stamps the token with it. *)
Variable get_password_hash : N -> string -> string.
Variable verify_password : string -> string -> bool.
Variable verify_token : DateTime -> string -> option Claims.
Variable create_access_token : Claims -> nat -> DateTime -> string.

(** [register]. *)
Definition register (user_data : UserCreate) : M User :=
  db <- get_USERS_DB ;;
  if Py.any (fun u => String.eqb (username u) (new_username user_data)) (Py.values db)
  then raise (HTTPException 400 "Username already registered" [])
  else
    db <- get_USERS_DB ;;
    if Py.any (fun u => String.eqb (email u) (new_email user_data)) (Py.values db)
    then raise (HTTPException 400 "Email already registered" [])
    else
      user_id <- uuid4 ;;
      salt <- observe entropy ;;
      let hashed_password := get_password_hash salt (new_password user_data) in
      now <- utcnow ;;
      let user :=
        mkUserRecord user_id (new_username user_data) (new_email user_data)
                     (new_full_name user_data) hashed_password true now in
      db <- get_USERS_DB ;;
      put_USERS_DB (Py.set db user_id user) ;;;
      (* logger.info *)
      ret (user_view user).

(** [login]. *)
Definition login (login_data : UserLogin) : M Token :=
  db <- get_USERS_DB ;;
  let user :=
    Py.next (fun u => String.eqb (username u) (login_username login_data))
            (Py.values db) in
  (* if not user or not verify_password(...): raise *)
  match (match user with
         | Some u =>
             if verify_password (login_password login_data) (hashed_password u)
             then Some u else None
         | None => None
         end) with
  | None =>
      raise (HTTPException 401 "Incorrect username or password"
               [("WWW-Authenticate", "Bearer")])
  | Some user =>
      if negb (is_active user)
      then raise (HTTPException 400 "Inactive user" [])
      else
        let access_token_expires := JWT_ACCESS_TOKEN_EXPIRE_MINUTES settings in
        now <- utcnow ;;
        let access_token :=
          create_access_token
            [ ("sub", Some (username user));
              ("user_id", Some (id user));
              ("email", Some (email user));
              ("full_name", full_name user) ]
            access_token_expires now in
        (* logger.info *)
        ret (mkToken access_token "bearer"
                     (JWT_ACCESS_TOKEN_EXPIRE_MINUTES settings * 60))
  end.

Definition credentials_exception : exn :=
  HTTPException 401 "Could not validate credentials" [("WWW-Authenticate", "Bearer")].

(** [get_current_user], applied to the bearer token of the request. *)
Definition get_current_user (token : string) : M CurrentUser :=
  now <- utcnow ;;
  match verify_token now token with
  | None => raise credentials_exception
  | Some payload =>
      match claim payload "sub", claim payload "user_id" with
      | Some username, Some user_id =>
          ret (mkCurrentUser username user_id
                             (claim payload "email") (claim payload "full_name"))
      | _, _ => raise credentials_exception
      end
  end.

(** [get_current_active_user]. *)
Definition get_current_active_user (current_user : CurrentUser) : M CurrentUser :=
  ret current_user.

(** [get_current_user_info], given the resolved dependency. *)
Definition get_current_user_info (current_user : CurrentUser) : M User :=
  db <- get_USERS_DB ;;
  match Py.get db (cu_user_id current_user) with
  | None => raise (HTTPException 404 "User not found" [])
  | Some user => ret (user_view user)
  end.

(** The route [GET /auth/me] with its dependency chain: identify the
    caller from the presented bearer token. *)
Definition identify (token : string) : M User :=
  current_user <- get_current_user token ;;
  current_user <- get_current_active_user current_user ;;
  get_current_user_info current_user.

End Service.

End Auth.

(** ** The request pipeline ([models/schemas.py], [routers/ai_endpoints.py], [main.py]) *)

Module Schemas.

Record SentimentAnalysisRequest := mkSentimentAnalysisRequest {
  sentiment_text : string;
  language : option string }.

Record TextClassificationRequest := mkTextClassificationRequest {
  classification_text : string;
  categories : option (list string) }.

Record OpenAIRequest := mkOpenAIRequest {
  prompt : string;
  req_max_tokens : nat;
  req_temperature : Q }.

(** [request.dict()]. *)
Definition opt_str (o : option string) : Py.val :=
  match o with Some s => Py.Str s | None => Py.None_ end.

Definition sentiment_request_dict (r : SentimentAnalysisRequest) : Py.dict Py.val :=
  [ ("text", Py.Str (sentiment_text r)); ("language", opt_str (language r)) ].

Definition classification_request_dict (r : TextClassificationRequest) : Py.dict Py.val :=
  [ ("text", Py.Str (classification_text r));
    ("categories", match categories r with
                   | Some cs => Py.List_ (map Py.Str cs)
                   | None => Py.None_
                   end) ].

Definition chat_request_dict (r : OpenAIRequest) : Py.dict Py.val :=
  [ ("prompt", Py.Str (prompt r));
    ("max_tokens", Py.Int (Z.of_nat (req_max_tokens r)));
    ("temperature", Py.Float (req_temperature r)) ].

(** Field validation of the response models, on the values the
    fallbacks and a JSON parser produce: a value of the wrong type makes
    the constructor raise a [ValidationError], whose message starts
    with this line.  The conversions pydantic applies to numeric
    strings and booleans are not modelled: such a value is refused. *)
Definition validation_error {A} (model : string) : M A :=
  raise (Exception ("1 validation error for " ++ model)).

Definition as_str (model : string) (v : Py.val) : M string :=
  match v with Py.Str s => ret s | _ => validation_error model end.

Definition as_float (model : string) (v : Py.val) : M Q :=
  match v with
  | Py.Float q => ret q
  | Py.Int n => ret (inject_Z n)
  | _ => validation_error model
  end.

Definition as_int (model : string) (v : Py.val) : M Z :=
  match v with Py.Int n => ret n | _ => validation_error model end.

(** A field of type [Dict[str, float]]. *)
Fixpoint as_float_items (model : string) (items : list (string * Py.val))
  : M (Py.dict Q) :=
  match items with
  | [] => ret []
  | (k, v) :: rest =>
      q <- as_float model v ;;
      qs <- as_float_items model rest ;;
      ret ((k, q) :: qs)
  end.

Definition as_float_dict (model : string) (v : Py.val) : M (Py.dict Q) :=
  match v with Py.Dict items => as_float_items model items | _ => validation_error model end.

Record SentimentAnalysisResponse := mkSentimentAnalysisResponse {
  sa_text : string;
  sa_sentiment : string;
  sa_confidence : Q;
  sa_scores : Py.dict Q;
  sa_processing_time : Q;
  sa_request_id : string }.

Record TextClassificationResponse := mkTextClassificationResponse {
  tc_text : string;
  tc_category : string;
  tc_confidence : Q;
  tc_all_scores : Py.dict Q;
  tc_processing_time : Q;
  tc_request_id : string }.

Record OpenAIResponse := mkOpenAIResponse {
  oa_prompt : string;
  oa_response : string;
  oa_model : string;
  oa_tokens_used : Z;
  oa_processing_time : Q;
  oa_request_id : string }.

Definition float_items (d : Py.dict Q) : Py.val :=
  Py.Dict (map (fun '(k, q) => (k, Py.Float q)) d).

(** [response.dict()]. *)
Definition sentiment_response_dict (r : SentimentAnalysisResponse) : Py.dict Py.val :=
  [ ("text", Py.Str (sa_text r)); ("sentiment", Py.Str (sa_sentiment r));
    ("confidence", Py.Float (sa_confidence r)); ("scores", float_items (sa_scores r));
    ("processing_time", Py.Float (sa_processing_time r));
    ("request_id", Py.Str (sa_request_id r)) ].

Definition classification_response_dict (r : TextClassificationResponse)
  : Py.dict Py.val :=
  [ ("text", Py.Str (tc_text r)); ("category", Py.Str (tc_category r));
    ("confidence", Py.Float (tc_confidence r));
    ("all_scores", float_items (tc_all_scores r));
    ("processing_time", Py.Float (tc_processing_time r));
    ("request_id", Py.Str (tc_request_id r)) ].

Definition chat_response_dict (r : OpenAIResponse) : Py.dict Py.val :=
  [ ("prompt", Py.Str (oa_prompt r)); ("response", Py.Str (oa_response r));
    ("model", Py.Str (oa_model r)); ("tokens_used", Py.Int (oa_tokens_used r));
    ("processing_time", Py.Float (oa_processing_time r));
    ("request_id", Py.Str (oa_request_id r)) ].

End Schemas.

Module AIEndpoints.
Import Schemas.

Section Router.

Variable settings : Settings.
Variable json_loads : string -> exn + Py.val.
Variable ai_service : AIService.AzureAIService.

(** [log_event_to_insights]: telemetry is fire-and-forget and catches
    its own failures; the sink is not part of the world. *)
Definition log_event_to_insights (event_name : string)
    (properties : Py.dict Py.val) : M unit := ret tt.

(** [background_tasks.add_task(save_request_to_blob, ...)]. *)
Definition add_task (t : BackgroundTask) : M unit :=
  fun w => (inr tt, with_tasks (tasks w ++ [t]) w).

(** The [try] block of the route [POST /sentiment]. *)
Definition sentiment_body (request : SentimentAnalysisRequest) (request_id : string)
  : M SentimentAnalysisResponse :=
  log_event_to_insights "sentiment_analysis_request"
    [ ("request_id", Py.Str request_id);
      ("text_length", Py.Int (Z.of_nat (Py.len (sentiment_text request))));
      ("language", opt_str (language request)) ] ;;;
  result <- AIService.analyze_sentiment settings json_loads ai_service
              (sentiment_text request) (language request) ;;
  sentiment <- getitem result "sentiment" ;;
  confidence <- getitem result "confidence" ;;
  scores <- getitem result "scores" ;;
  processing_time <- getitem result "processing_time" ;;
  sentiment <- as_str "SentimentAnalysisResponse" sentiment ;;
  confidence <- as_float "SentimentAnalysisResponse" confidence ;;
  scores <- as_float_dict "SentimentAnalysisResponse" scores ;;
  processing_time <- as_float "SentimentAnalysisResponse" processing_time ;;
  let response :=
    mkSentimentAnalysisResponse (sentiment_text request) sentiment confidence scores
                                processing_time request_id in
  add_task (mkTask request_id "sentiment_analysis"
                   (sentiment_request_dict request) (sentiment_response_dict response)) ;;;
  ret response.

(** The route [POST /sentiment]. *)
Definition analyze_sentiment (request : SentimentAnalysisRequest)
  : M SentimentAnalysisResponse :=
  request_id <- uuid4 ;;
  try_except (sentiment_body request request_id)
    (fun e => (* logger.error *) raise (HTTPException 500 (str e) [])).

(** The [try] block of the route [POST /classify]. *)
Definition classification_body (request : TextClassificationRequest)
    (request_id : string) : M TextClassificationResponse :=
  log_event_to_insights "text_classification_request"
    [ ("request_id", Py.Str request_id);
      ("text_length", Py.Int (Z.of_nat (Py.len (classification_text request))));
      ("has_custom_categories",
       Py.Bool (match categories request with Some (_ :: _) => true | _ => false end)) ] ;;;
  result <- AIService.classify_text settings json_loads ai_service
              (classification_text request) (categories request) ;;
  category <- getitem result "category" ;;
  confidence <- getitem result "confidence" ;;
  all_scores <- getitem result "all_scores" ;;
  processing_time <- getitem result "processing_time" ;;
  category <- as_str "TextClassificationResponse" category ;;
  confidence <- as_float "TextClassificationResponse" confidence ;;
  all_scores <- as_float_dict "TextClassificationResponse" all_scores ;;
  processing_time <- as_float "TextClassificationResponse" processing_time ;;
  let response :=
    mkTextClassificationResponse (classification_text request) category confidence
                                 all_scores processing_time request_id in
  add_task (mkTask request_id "text_classification"
                   (classification_request_dict request)
                   (classification_response_dict response)) ;;;
  ret response.

(** The route [POST /classify]. *)
Definition classify_text (request : TextClassificationRequest)
  : M TextClassificationResponse :=
  request_id <- uuid4 ;;
  try_except (classification_body request request_id)
    (fun e => (* logger.error *) raise (HTTPException 500 (str e) [])).

(** The [try] block of the route [POST /chat]. *)
Definition chat_body (request : OpenAIRequest) (request_id : string)
  : M OpenAIResponse :=
  log_event_to_insights "chat_completion_request"
    [ ("request_id", Py.Str request_id);
      ("prompt_length", Py.Int (Z.of_nat (Py.len (prompt request))));
      ("max_tokens", Py.Int (Z.of_nat (req_max_tokens request)));
      ("temperature", Py.Float (req_temperature request)) ] ;;;
  result <- AIService.chat_completion settings ai_service
              (prompt request) (req_max_tokens request) (req_temperature request) ;;
  response_text <- getitem result "response" ;;
  model_name <- getitem result "model" ;;
  tokens_used <- getitem result "tokens_used" ;;
  processing_time <- getitem result "processing_time" ;;
  response_text <- as_str "OpenAIResponse" response_text ;;
  model_name <- as_str "OpenAIResponse" model_name ;;
  tokens_used <- as_int "OpenAIResponse" tokens_used ;;
  processing_time <- as_float "OpenAIResponse" processing_time ;;
  let response :=
    mkOpenAIResponse (prompt request) response_text model_name tokens_used
                     processing_time request_id in
  add_task (mkTask request_id "chat_completion"
                   (chat_request_dict request) (chat_response_dict response)) ;;;
  ret response.

(** The route [POST /chat]. *)
Definition chat_completion (request : OpenAIRequest) : M OpenAIResponse :=
  request_id <- uuid4 ;;
  try_except (chat_body request request_id)
    (fun e => (* logger.error *) raise (HTTPException 500 (str e) [])).

End Router.

End AIEndpoints.

Module App.

(** What the caller receives. *)
Record JSONResponse := mkJSONResponse {
  status_code : nat;
  body : Py.dict Py.val }.

Section Application.

Variable settings : Settings.
Variable blob_service : BlobStorage.BlobStorageService.

(** [global_exception_handler], registered for [Exception]. *)
Definition global_exception_handler (exc : exn) : JSONResponse :=
  mkJSONResponse 500
    [ ("error", Py.Str "Internal server error");
      ("detail", Py.Str (if DEBUG settings then str exc else "An error occurred")) ].

(** The framework's own handler for [HTTPException]. *)
Definition http_exception_handler (status : nat) (detail : string) : JSONResponse :=
  mkJSONResponse status [ ("detail", Py.Str detail) ].

(** The background tasks of a request run once its response is out;
    [save_request_log] never raises. *)
Fixpoint run_tasks (ts : list BackgroundTask) (w : World) : World :=
  match ts with
  | [] => w
  | t :: ts' => run_tasks ts' (snd (BlobStorage.save_request_to_blob blob_service t w))
  end.

(** One request through the application: the route runs with a fresh
    task list; its result becomes the response, an [HTTPException]
    is rendered by the framework, any other exception reaches
    [global_exception_handler]. *)
Definition serve {A} (to_dict : A -> Py.dict Py.val) (route : M A)
    (w : World) : JSONResponse * World :=
  match route (with_tasks [] w) with
  | (inr a, w') =>
      (mkJSONResponse 200 (to_dict a), run_tasks (tasks w') (with_tasks [] w'))
  | (inl (HTTPException status detail _), w') =>
      (http_exception_handler status detail, with_tasks [] w')
  | (inl exc, w') =>
      (global_exception_handler exc, with_tasks [] w')
  end.

End Application.

End App.

(** ** The image route ([routers/image_endpoints.py]) *)

Module ImageEndpoints.

(** The uploaded file: its name and declared type may be absent. *)
Record UploadFile := mkUploadFile {
  filename : option string;
  upload_content_type : option string;
  file_bytes : string }.

(** The arguments of a scheduled [save_image_to_blob]. *)
Record ImageTask := mkImageTask {
  it_request_id : string;
  it_image_bytes : string;
  it_filename : option string;
  it_result : Py.dict Py.val }.

(** A value of type [Optional[str]] inside an f-string. *)
Definition fmt (o : option string) : string :=
  match o with Some s => s | None => "None" end.

Section Router.

Variable settings : Settings.
Variable blob_url : string -> string -> string.
Variable Image_open : string -> exn + ImageClassifier.Image.
Variable image_classifier : ImageClassifier.ImageClassifierService.
Variable blob_service : BlobStorage.BlobStorageService.

(** [save_image_to_blob], the background task of the image route. *)
Definition save_image_to_blob (t : ImageTask) : M unit :=
  image_url <- BlobStorage.save_input_file blob_url blob_service
                 (it_request_id t ++ "_" ++ fmt (it_filename t)) (it_image_bytes t)
                 "image/jpeg" ;;
  now <- utcnow ;;
  let log_data :=
    [ ("request_id", Py.Str (it_request_id t));
      ("endpoint", Py.Str "image_classification");
      ("filename", Schemas.opt_str (it_filename t));
      ("image_url", Schemas.opt_str image_url);
      ("result", Py.Dict (it_result t));
      ("timestamp", Py.Str (isoformat now)) ] in
  BlobStorage.save_request_log blob_service (it_request_id t) log_data ;;;
  ret tt.

(** The [try] block of the route [POST /classify-pose]; the
    [background_tasks] object the framework passes in is threaded
    explicitly. *)
Definition pose_body (background_tasks : list ImageTask) (image : UploadFile)
    (request_id : string) : M (Py.dict Py.val * list ImageTask) :=
  AIEndpoints.log_event_to_insights "image_classification_request"
    [ ("request_id", Py.Str request_id);
      ("filename", Schemas.opt_str (filename image));
      ("content_type", Schemas.opt_str (upload_content_type image)) ] ;;;
  let image_bytes := file_bytes image in
  result <- ImageClassifier.classify_image Image_open image_classifier image_bytes ;;
  pose <- getitem result "pose" ;;
  confidence <- getitem result "confidence" ;;
  all_scores <- getitem result "all_scores" ;;
  let detections_count :=
    match Py.get result "detections_count" with Some v => v | None => Py.Int 0 end in
  processing_time <- getitem result "processing_time" ;;
  let response :=
    [ ("filename", Schemas.opt_str (filename image));
      ("pose", pose);
      ("confidence", confidence);
      ("all_scores", all_scores);
      ("detections_count", detections_count);
      ("processing_time", processing_time);
      ("request_id", Py.Str request_id) ] in
  let response :=
    match Py.get result "message" with
    | Some message => Py.set response "message" message
    | None => response
    end in
  ret (response,
       (background_tasks ++ [mkImageTask request_id image_bytes (filename image) result])%list).

(** The route [POST /classify-pose]. *)
Definition classify_human_pose (background_tasks : list ImageTask) (image : UploadFile)
  : M (Py.dict Py.val * list ImageTask) :=
  request_id <- uuid4 ;;
  is_image <- match upload_content_type image with
              | Some ctype => ret (String.prefix "image/" ctype)
              | None => raise (Exception "'NoneType' object has no attribute 'startswith'")
              end ;;
  if negb is_image
  then raise (HTTPException 400 "File must be an image" [])
  else
    try_except (pose_body background_tasks image request_id)
      (fun e => (* logger.error *) raise (HTTPException 500 (str e) [])).

Fixpoint run_image_tasks (ts : list ImageTask) (w : World) : World :=
  match ts with
  | [] => w
  | t :: ts' => run_image_tasks ts' (snd (save_image_to_blob t w))
  end.

(** One upload through the application, as [App.serve] does it for the
    text routes. *)
Definition serve_pose (image : UploadFile) (w : World) : App.JSONResponse * World :=
  match classify_human_pose [] image w with
  | (inr (response, ts), w') => (App.mkJSONResponse 200 response, run_image_tasks ts w')
  | (inl (HTTPException status detail _), w') =>
      (App.http_exception_handler status detail, w')
  | (inl exc, w') => (App.global_exception_handler settings exc, w')
  end.

End Router.

End ImageEndpoints.

(** ** Running a computation, and reading results *)

Definition result_of {A} (c : M A) (w : World) : exn + A := fst (c w).
Definition world_after {A} (c : M A) (w : World) : World := snd (c w).

(** The next reading of the clock in a world, and the date it shows. *)
Definition next_instant (w : World) : Instant := clock (env w) (step w).
Definition today (w : World) : string := strftime_Ymd (utc (next_instant w)).

(** [result[outer][k]] when it is a float. *)
Definition float_at (result : Py.dict Py.val) (outer k : string) : option Q :=
  match Py.get result outer with
  | Some (Py.Dict items) =>
      match Py.get items k with
      | Some (Py.Float q) => Some q
      | _ => None
      end
  | _ => None
  end.

(** [result[k]] when it is a float, or a string. *)
Definition float_of (result : Py.dict Py.val) (k : string) : option Q :=
  match Py.get result k with
  | Some (Py.Float q) => Some q
  | _ => None
  end.

Definition str_of (result : Py.dict Py.val) (k : string) : option string :=
  match Py.get result k with
  | Some (Py.Str s) => Some s
  | _ => None
  end.

(** The world and the start time at which a facade method enters its
    [try] block: the method has read the clock once. *)
Definition entered (w : World) : World := with_step (S (step w)) w.
Definition started (w : World) : Q := epoch (next_instant w).

(** Some stored user has this username, or this email. *)
Definition username_taken (w : World) (name : string) : Prop :=
  exists u, In u (Py.values (USERS_DB w)) /\ username u = name.
Definition email_taken (w : World) (address : string) : Prop :=
  exists u, In u (Py.values (USERS_DB w)) /\ email u = address.

Definition duplicate_username : exn := HTTPException 400 "Username already registered" [].
Definition duplicate_email : exn := HTTPException 400 "Email already registered" [].
Definition invalid_credentials : exn :=
  HTTPException 401 "Incorrect username or password" [("WWW-Authenticate", "Bearer")].
Definition unauthenticated : exn :=
  HTTPException 401 "Could not validate credentials" [("WWW-Authenticate", "Bearer")].
Definition not_found : exn := HTTPException 404 "User not found" [].

(** The record [register] stores in a world with no clash: the id is the
    next [uuid4], the hash is salted by the next random draw, the
    creation time is the clock reading after that. *)
Definition new_record (get_password_hash : N -> string -> string)
    (user_data : Auth.UserCreate) (w : World) : UserRecord :=
  mkUserRecord (uuids (env w) (step w))
               (Auth.new_username user_data) (Auth.new_email user_data)
               (Auth.new_full_name user_data)
               (get_password_hash (entropy (env w) (S (step w))) (Auth.new_password user_data))
               true
               (utc (clock (env w) (S (S (step w))))).

(** A computation that only consumes steps of the environment: it
    leaves the environment itself, the credential store, the blob
    container and the task list as they were. *)
Definition only_steps {A} (c : M A) : Prop :=
  forall w,
    env (snd (c w)) = env w
    /\ USERS_DB (snd (c w)) = USERS_DB w
    /\ blobs (snd (c w)) = blobs w
    /\ tasks (snd (c w)) = tasks w.

(** A computation that writes neither to the credential store nor to
    the blob container (it may schedule background tasks). *)
Definition keeps_stores {A} (c : M A) : Prop :=
  forall w,
    env (snd (c w)) = env w
    /\ USERS_DB (snd (c w)) = USERS_DB w
    /\ blobs (snd (c w)) = blobs w.

(** A route that writes to neither store itself and schedules its one
    background task, [task_of] its response, exactly when it returns:
    when it raises, the task list is as it was. *)
Definition schedules {A} (task_of : A -> BackgroundTask) (route : M A) : Prop :=
  forall w,
    USERS_DB (snd (route w)) = USERS_DB w
    /\ blobs (snd (route w)) = blobs w
    /\ match fst (route w) with
       | inl _ => tasks (snd (route w)) = tasks w
       | inr a => tasks (snd (route w)) = (tasks w ++ [task_of a])%list
       end.

(** The shape of a sound credential store: every record sits under its
    own id, and ids, usernames and emails are pairwise distinct. *)
Definition store_ok (db : Py.dict UserRecord) : Prop :=
  List.NoDup (Py.keys db)
  /\ (forall k u, In (k, u) db -> id u = k)
  /\ List.NoDup (map username (Py.values db))
  /\ List.NoDup (map email (Py.values db)).

(** Case analysis on two keyword counts that are at most eight. *)
Ltac keyword_counts a b :=
  let Ha := fresh "Ha" in
  let Hb := fresh "Hb" in
  assert (Ha : In a (seq 0 9)) by (apply in_seq; lia);
  assert (Hb : In b (seq 0 9)) by (apply in_seq; lia);
  cbn in Ha, Hb;
  repeat (destruct Ha as [<- | Ha]; [| try contradiction]);
  repeat (destruct Hb as [<- | Hb]; [| try contradiction]).

(** ** Concrete instances for the examples *)

Module Sample.

(** A clock that advances one second per reading on 15 January 2024,
    identifiers [uuid-0], [uuid-1], ..., and a blob service without faults. *)
Definition env0 : Env :=
  mkEnv (fun n => mkInstant (mkDateTime 2024 1 15 10 0 n 0) (inject_Z (Z.of_nat n)))
        (fun n => "uuid-" ++ str_nat n)
        (fun n => N.of_nat n)
        (fun _ => None).

Definition w0 : World := mkWorld env0 0 [] ∅ [].

(** Production settings: debug off. *)
Definition production : Settings := mkSettings false "gpt-35-turbo" "ai-api-logs" 30.

(** A backend that times out on every call. *)
Definition timing_out : AzureOpenAI := fun _ _ _ => inl (Exception "Request timed out.").

(** A backend that rejects the caller's input as too long. *)
Definition rejecting : AzureOpenAI :=
  fun _ _ _ => inl (HTTPException 400 "Input exceeds the maximum length" []).

(** A parser that accepts nothing. *)
Definition no_json : string -> exn + Py.val :=
  fun _ => inl (Exception "Expecting value: line 1 column 1 (char 0)").

(** A review that mentions six of the positive and five of the negative keywords. *)
Definition mixed_review : string :=
  "Good food, great staff, excellent wine, amazing view, wonderful music and a fantastic dessert; but bad parking, terrible noise, awful smell, a horrible queue, and I hate waiting.".

(** A toy password hasher and token codec. *)
Definition toy_hash (salt : N) (password : string) : string := "toy$" ++ password.
Definition toy_verify (password hashed : string) : bool :=
  String.eqb hashed ("toy$" ++ password).
Definition toy_encode (claims : Auth.Claims) (minutes : nat) (now : DateTime) : string :=
  match Auth.claim claims "user_id" with
  | Some uid => "token-for-" ++ uid
  | None => "token"
  end.
Definition toy_decode (now : DateTime) (token : string) : option Auth.Claims :=
  if String.eqb token "token-for-uuid-0"
  then Some [ ("sub", Some "alice"); ("user_id", Some "uuid-0") ]
  else if String.eqb token "token-for-uuid-9"
  then Some [ ("sub", Some "zoe"); ("user_id", Some "uuid-9") ]
  else if String.eqb token "token-without-subject"
  then Some [ ("user_id", Some "uuid-0") ]
  else None.

Definition alice : UserRecord :=
  mkUserRecord "uuid-0" "alice" "alice@x.com" None "toy$secret1" true
               (mkDateTime 2024 1 14 9 30 0 0).

(** A world in which alice is registered. *)
Definition w_alice : World := mkWorld env0 0 [("uuid-0", alice)] ∅ [].

Definition blob_service : BlobStorage.BlobStorageService :=
  BlobStorage.mkBlobStorageService true (AZURE_STORAGE_CONTAINER_NAME production).

Definition record1 : Py.dict Py.val :=
  [ ("request_id", Py.Str "r-1"); ("endpoint", Py.Str "sentiment_analysis") ].

(** The no-break space U+00A0 and the Kelvin sign U+212A, in UTF-8. *)
Definition nbsp : string := String (Py.byte 194) (String (Py.byte 160) EmptyString).
Definition kelvin : string :=
  String (Py.byte 226) (String (Py.byte 132) (String (Py.byte 170) EmptyString)).

(** A decoder that identifies GIF files by their signature and nothing else. *)
Definition gif_only : string -> exn + ImageClassifier.Image :=
  fun image_bytes =>
    if String.prefix "GIF8" image_bytes
    then inr (ImageClassifier.mkImage "GIF" image_bytes)
    else inl (Exception "cannot identify image file").


End Sample.

(** * Properties *)

(** ** The definitions at work *)

Example mock_sentiment_love :
  AIService._mock_sentiment_analysis "I love this product"
  = [ ("sentiment", Py.Str "positive");
      ("confidence", Py.Float (Py.min (0.5 + 1 / 10) 0.95));
      ("scores", Py.Dict [ ("positive", Py.Float (Py.min (1 / 10 + 0.3) 1.0));
                           ("negative", Py.Float (0 / 10));
                           ("neutral", Py.Float (1.0 - 1 / 10 - 0 / 10)) ]);
      ("processing_time", Py.Float 0.1) ].
Proof. reflexivity. Qed.

Example mock_classification_team :
  str_of (AIService._mock_text_classification "Our CLOUD software team won the match")
         "category" = Some "Sports".
Proof. reflexivity. Qed.

Example lower_kelvin_market :
  Py.lower ("MAR" ++ Sample.kelvin ++ "ET") = "market"
  /\ str_of (AIService._mock_text_classification ("The mar" ++ Sample.kelvin ++ "et fell"))
            "category" = Some "Business".
Proof. split; reflexivity. Qed.

Example strip_no_break_space :
  Py.strip (Sample.nbsp ++ " {} " ++ newline ++ Sample.nbsp) = "{}"
  /\ Py.strip (" a" ++ Sample.nbsp ++ "b ") = "a" ++ Sample.nbsp ++ "b".
Proof. split; reflexivity. Qed.

Example register_then_login :
  let registered :=
    world_after (Auth.register Sample.toy_hash
                   (Auth.mkUserCreate "alice" "alice@x.com" None "secret1")) Sample.w0 in
  result_of (Auth.login Sample.production Sample.toy_verify Sample.toy_encode
               (Auth.mkUserLogin "alice" "secret1")) registered
  = inr (Auth.mkToken "token-for-uuid-0" "bearer" 1800).
Proof. reflexivity. Qed.

Example log_key_and_stamp :
  BlobStorage.log_blob_name (strftime_Ymd (mkDateTime 2024 1 5 3 4 5 120)) "r-1"
  = "logs/20240105/r-1.json"
  /\ isoformat (mkDateTime 2024 1 5 3 4 5 120) = "2024-01-05T03:04:05.000120".
Proof. split; reflexivity. Qed.

(** ** Fallback sentiment scores *)

(** C2.  On a text that mentions six positive and five negative keywords
    the fallback sentiment analysis returns a neutral score of [-1/10]:
    the neutral score is [1 - positive - negative] and is not clamped,
    unlike the other two scores. *)
Theorem mock_sentiment_neutral_score_negative :
  exists q,
    float_at (AIService._mock_sentiment_analysis Sample.mixed_review) "scores" "neutral"
      = Some q
    /\ (q == - (1 # 10))%Q /\ (q < 0)%Q.
Proof.
  eexists. split; [vm_compute; reflexivity|]. split; reflexivity.
Qed.

(** The clamped scores do stay in the unit interval: with at most eight
    keywords per list, the positive and the negative score of the
    fallback lie in [[0,1]] for every text, and the neutral score never
    exceeds 1. *)
Lemma count_in_le (words : list string) (text : string) :
  (Py.count_in words text <= length words)%nat.
Proof. unfold Py.count_in. apply filter_length_le. Qed.

Lemma mock_sentiment_clamped_scores (text : string) :
  exists p n u,
    float_at (AIService._mock_sentiment_analysis text) "scores" "positive" = Some p
    /\ float_at (AIService._mock_sentiment_analysis text) "scores" "negative" = Some n
    /\ float_at (AIService._mock_sentiment_analysis text) "scores" "neutral" = Some u
    /\ (0 <= p <= 1)%Q /\ (0 <= n <= 1)%Q /\ (u <= 1)%Q.
Proof.
  unfold AIService._mock_sentiment_analysis, float_at, AIService.hits.
  pose proof (count_in_le AIService.positive_words (Py.lower text)) as Hp.
  pose proof (count_in_le AIService.negative_words (Py.lower text)) as Hn.
  change (length AIService.positive_words) with 8%nat in Hp.
  change (length AIService.negative_words) with 8%nat in Hn.
  set (a := Py.count_in AIService.positive_words (Py.lower text)) in *.
  set (b := Py.count_in AIService.negative_words (Py.lower text)) in *.
  clearbody a b.
  assert (Ha : In a (seq 0 9)) by (apply in_seq; lia).
  assert (Hb : In b (seq 0 9)) by (apply in_seq; lia).
  clear Hp Hn. cbn in Ha, Hb.
  repeat (destruct Ha as [<- | Ha]; [| try contradiction]);
    repeat (destruct Hb as [<- | Hb]; [| try contradiction]);
    do 3 eexists;
    do 3 (split; [vm_compute; reflexivity|]);
    vm_compute; intuition discriminate.
Qed.

(** ** Determinism of the text fallbacks *)

(** C7.  With no backend client, [analyze_sentiment] and
    [classify_text] return the keyword-scored fallback of the input
    text whatever the state of the world (clock, random generator,
    stores) and whatever the other arguments: two invocations on the
    same text return the same dictionary, hence the same
    sentiment or category, confidence and scores. *)
Theorem text_fallbacks_deterministic
    (settings : Settings) (json_loads : string -> exn + Py.val) (text : string)
    (language language' : option string) (categories categories' : option (list string))
    (w w' : World) :
  let unavailable := AIService.mkAzureAIService None in
  (result_of (AIService.analyze_sentiment settings json_loads unavailable text language) w
   = result_of (AIService.analyze_sentiment settings json_loads unavailable text language') w'
   /\ result_of (AIService.analyze_sentiment settings json_loads unavailable text language) w
      = inr (AIService._mock_sentiment_analysis text))
  /\ (result_of (AIService.classify_text settings json_loads unavailable text categories) w
      = result_of (AIService.classify_text settings json_loads unavailable text categories') w'
      /\ result_of (AIService.classify_text settings json_loads unavailable text categories) w
         = inr (AIService._mock_text_classification text)).
Proof. repeat split. Qed.

(** ** Degradation of the text facade *)

(** C1, as stated, fails for [chat_completion]: when the backend times
    out, delegation raises and the call raises the same error instead
    of returning a fallback; and [analyze_sentiment] swallows an error
    that reports a caller-side validation failure. *)
Lemma chat_completion_propagates_timeout :
  let faulty := AIService.mkAzureAIService (Some Sample.timing_out) in
  result_of (AIService.chat_delegation Sample.production Sample.timing_out
               (started Sample.w0) "Hello" 150 0.7) (entered Sample.w0)
    = inl (Exception "Request timed out.")
  /\ result_of (AIService.chat_completion Sample.production faulty "Hello" 150 0.7) Sample.w0
     = inl (Exception "Request timed out.")
  /\ result_of (AIService.analyze_sentiment Sample.production Sample.no_json
                  (AIService.mkAzureAIService (Some Sample.rejecting)) "Hello" None) Sample.w0
     = inr (AIService._mock_sentiment_analysis "Hello").
Proof. repeat split. Qed.

(** C1, amended.  Whenever delegation raises an error, of whatever
    kind, [analyze_sentiment] and [classify_text] return the
    deterministic fallback of the input text and raise nothing, while
    [chat_completion] raises that same error to its caller. *)
Theorem facade_degradation
    (settings : Settings) (json_loads : string -> exn + Py.val) (cl : AzureOpenAI)
    (text prompt : string) (language : option string)
    (categories : option (list string)) (max_tokens : nat) (temperature : Q)
    (w : World) (e : exn) :
  let self := AIService.mkAzureAIService (Some cl) in
  (result_of (AIService.sentiment_delegation settings json_loads cl (started w) text)
             (entered w) = inl e ->
   result_of (AIService.analyze_sentiment settings json_loads self text language) w
   = inr (AIService._mock_sentiment_analysis text))
  /\ (result_of (AIService.classification_delegation settings json_loads cl (started w)
                   text categories) (entered w) = inl e ->
      result_of (AIService.classify_text settings json_loads self text categories) w
      = inr (AIService._mock_text_classification text))
  /\ (result_of (AIService.chat_delegation settings cl (started w) prompt max_tokens
                   temperature) (entered w) = inl e ->
      result_of (AIService.chat_completion settings self prompt max_tokens temperature) w
      = inl e).
Proof.
  cbv zeta. unfold result_of, entered, started, next_instant.
  unfold AIService.analyze_sentiment, AIService.classify_text, AIService.chat_completion.
  unfold bind, time_time, observe, try_except, ret, raise. cbn [AIService.client].
  repeat split; intros H.
  - destruct (AIService.sentiment_delegation _ _ _ _ _ _) as [[e'|r] w1]; cbn in *;
      [reflexivity | discriminate].
  - destruct (AIService.classification_delegation _ _ _ _ _ _ _) as [[e'|r] w1]; cbn in *;
      [reflexivity | discriminate].
  - destruct (AIService.chat_delegation _ _ _ _ _ _ _) as [[e'|r] w1]; cbn in *;
      [congruence | discriminate].
Qed.

Lemma facade_degradation_witness :
  result_of (AIService.analyze_sentiment Sample.production Sample.no_json
               (AIService.mkAzureAIService (Some Sample.timing_out)) "Hello" None) Sample.w0
  = inr (AIService._mock_sentiment_analysis "Hello")
  /\ result_of (AIService.classify_text Sample.production Sample.no_json
                  (AIService.mkAzureAIService (Some Sample.timing_out)) "Hello" None) Sample.w0
     = inr (AIService._mock_text_classification "Hello")
  /\ result_of (AIService.chat_completion Sample.production
                  (AIService.mkAzureAIService (Some Sample.timing_out)) "Hello" 150 0.7)
               Sample.w0
     = inl (Exception "Request timed out.").
Proof.
  destruct (facade_degradation Sample.production Sample.no_json Sample.timing_out
              "Hello" "Hello" None None 150 0.7 Sample.w0 (Exception "Request timed out."))
    as (Hs & Hc & Hchat).
  split; [apply Hs; reflexivity|]. split; [apply Hc; reflexivity | apply Hchat; reflexivity].
Defined.

(** ** The image fallback *)

Lemma unit_draw_range (raw : N) : (0 <= unit_draw raw /\ unit_draw raw <= 1)%Q.
Proof.
  unfold unit_draw, Qle. cbn [Qnum Qden].
  change (Z.pos (2 ^ 53)) with (Z.of_N (2 ^ 53)).
  assert (Hlt : (raw mod 2 ^ 53 < 2 ^ 53)%N) by (apply N.mod_upper_bound; discriminate).
  set (m := (2 ^ 53)%N) in *. set (r := (raw mod m)%N) in *. clearbody m r.
  lia.
Qed.

(** [random.uniform(a, b)] with [a <= b] stays between its bounds. *)
Lemma uniform_range (a b : Q) (raw : N) :
  (a <= b)%Q -> (a <= a + (b - a) * unit_draw raw <= b)%Q.
Proof.
  intros Hab. destruct (unit_draw_range raw) as [H0 H1].
  set (u := unit_draw raw) in *. clearbody u. split; nra.
Qed.

Lemma random_uniform_run (a b : Q) (w : World) :
  random_uniform a b w
  = (inr (a + (b - a) * unit_draw (entropy (env w) (step w)))%Q, with_step (S (step w)) w).
Proof. reflexivity. Qed.

Lemma bind_run {A B} (c : M A) (k : A -> M B) (w : World) :
  bind c k w = match c w with
               | (inr a, w') => k a w'
               | (inl e, w') => (inl e, w')
               end.
Proof. reflexivity. Qed.

Lemma below_three (raw : N) :
  let i := N.to_nat (raw mod N.of_nat 3) in i = 0%nat \/ i = 1%nat \/ i = 2%nat.
Proof.
  cbv zeta. change (N.of_nat 3) with 3%N.
  assert (H : (raw mod 3 < 3)%N) by (apply N.mod_upper_bound; discriminate).
  set (r := (raw mod 3)%N) in *. clearbody r. lia.
Qed.

(** C9.  Whatever the random generator yields, the image fallback
    returns one of the three poses, with a confidence in [[0.7, 0.95]]
    that is also the score of that pose, and a score in [[0.05, 0.3]]
    for each of the other two classes; and a service without a model
    answers [classify_image] with this fallback. *)
Theorem mock_classification_ranges (m : option ImageClassifier.YOLO) (w : World) :
  let poses := ["lying"; "standing"; "sitting"] in
  let self := ImageClassifier.mkImageClassifierService m poses in
  (exists result pose confidence,
      result_of (ImageClassifier._mock_classification self) w = inr result
      /\ str_of result "pose" = Some pose
      /\ In pose poses
      /\ float_of result "confidence" = Some confidence
      /\ (0.7 <= confidence <= 0.95)%Q
      /\ float_at result "all_scores" pose = Some confidence
      /\ forall cls, In cls poses -> cls <> pose ->
           exists q, float_at result "all_scores" cls = Some q /\ (0.05 <= q <= 0.3)%Q)
  /\ forall Image_open image_bytes,
      ImageClassifier.classify_image Image_open ImageClassifier.unloaded image_bytes w
      = ImageClassifier._mock_classification ImageClassifier.unloaded (entered w).
Proof.
  cbv zeta. split; [|reflexivity].
  unfold result_of, ImageClassifier._mock_classification, random_choice, bind, observe, ret.
  cbn [ImageClassifier.classes length fst snd env step with_step].
  pose proof (below_three (entropy (env w) (step w))) as Hi. cbv zeta in Hi.
  assert (Hc := uniform_range 0.7 0.95 (entropy (env w) (S (step w))) ltac:(discriminate)).
  assert (Hq2 := uniform_range 0.05 0.3 (entropy (env w) (S (S (step w)))) ltac:(discriminate)).
  assert (Hq3 := uniform_range 0.05 0.3 (entropy (env w) (S (S (S (step w))))) ltac:(discriminate)).
  destruct Hi as [-> | [-> | ->]];
    cbn [nth]; rewrite random_uniform_run;
    cbn [ImageClassifier.mock_scores String.eqb Ascii.eqb Bool.eqb
         env step with_step fst snd Py.set];
    do 2 (rewrite bind_run, random_uniform_run;
          cbn [env step with_step fst snd Py.set String.eqb Ascii.eqb Bool.eqb]);
    unfold ret; cbn [fst];
    do 3 eexists;
    (split; [reflexivity|]); (split; [reflexivity|]); (split; [cbn; tauto|]);
    (split; [reflexivity|]); (split; [exact Hc|]); (split; [reflexivity|]);
    intros cls Hin Hne; cbn in Hin;
    destruct Hin as [<- | [<- | [<- | []]]]; try congruence;
    eexists; (split; [reflexivity|]); assumption.
Qed.

(** ** Request logs in the blob store *)

Lemma set_set {V} (d : Py.dict V) (k : string) (v v' : V) :
  Py.set (Py.set d k v) k v' = Py.set d k v'.
Proof.
  induction d as [|[k0 v0] d IH]; cbn.
  - rewrite String.eqb_refl. reflexivity.
  - destruct (String.eqb k0 k) eqn:E; cbn; rewrite E; [reflexivity | now rewrite IH].
Qed.

(** What one call of [save_request_log] does when the service has a
    client: three effects (two clock readings and the upload), the
    [logged_at] stamp of the second reading, and one blob written under
    the key of the first reading's date unless the upload fails. *)
Lemma save_request_log_run (self : BlobStorage.BlobStorageService) (request_id : string)
    (data : Py.dict Py.val) (w : World) :
  BlobStorage.has_client self = true ->
  BlobStorage.save_request_log self request_id data w =
    let data' :=
      Py.set data "logged_at" (Py.Str (isoformat (utc (clock (env w) (S (step w)))))) in
    let key := (BlobStorage.container_name self,
                BlobStorage.log_blob_name (today w) request_id) in
    let w' := with_step (S (S (S (step w)))) w in
    match faults (env w) (S (S (step w))) with
    | Some msg => (inr (false, data'), w')
    | None =>
        (inr (true, data'),
         with_blobs (<[key := mkBlob (Json data') "application/json"]> (blobs w)) w')
    end.
Proof.
  intros Hc. unfold BlobStorage.save_request_log. rewrite Hc. cbn [negb].
  unfold bind, utcnow, observe, try_except, BlobStorage.upload_blob, bind, observe, ret, raise.
  cbn [env step with_step blobs fst snd].
  unfold today, next_instant.
  destruct (faults (env w) (S (S (step w)))) as [msg|]; [reflexivity|].
  unfold with_step, with_blobs; cbn [env step blobs USERS_DB tasks].
  match goal with |- context [blobs w !! ?k] => destruct (blobs w !! k) end; reflexivity.
Qed.

(** C8, as stated, fails: two writes of one record on the same day do
    not leave the store as the first write left it, because each write
    stamps the record with the time of the write. *)
Lemma save_request_log_twice_differs :
  let key := ("ai-api-logs", "logs/20240115/r-1.json") in
  let first := BlobStorage.save_request_log Sample.blob_service "r-1" Sample.record1 Sample.w0 in
  let w1 := snd first in
  let logged := Py.set Sample.record1 "logged_at" (Py.Str "2024-01-15T10:00:01") in
  let second := BlobStorage.save_request_log Sample.blob_service "r-1" logged w1 in
  fst first = inr (true, logged)
  /\ today Sample.w0 = today w1
  /\ fst second
     = inr (true, Py.set Sample.record1 "logged_at" (Py.Str "2024-01-15T10:00:04"))
  /\ blobs w1 !! key = Some (mkBlob (Json logged) "application/json")
  /\ blobs (snd second) !! key
     = Some (mkBlob (Json (Py.set Sample.record1 "logged_at" (Py.Str "2024-01-15T10:00:04")))
                    "application/json")
  /\ blobs (snd second) <> blobs w1.
Proof.
  cbv zeta. repeat split; try (vm_compute; reflexivity).
  intros Heq.
  apply (f_equal (fun m => m !! ("ai-api-logs", "logs/20240115/r-1.json"))) in Heq.
  vm_compute in Heq. discriminate Heq.
Qed.

(** C8, amended.  The blob key of a request log is
    [logs/<YYYYMMDD>/<request_id>.json], a function of the request id
    and of the date at the first clock reading of the call.  When the
    same record is written twice on the same date and both uploads
    succeed, the second write overwrites the blob of the first: the
    store ends as the original store with that one key bound to the
    record stamped with the [logged_at] time of the last write, which
    is the store a single write of the original record made at that
    time produces. *)
Theorem save_request_log_last_write_wins
    (self : BlobStorage.BlobStorageService) (request_id : string)
    (data d1 d2 : Py.dict Py.val) (w w1 w2 : World) :
  BlobStorage.save_request_log self request_id data w = (inr (true, d1), w1) ->
  BlobStorage.save_request_log self request_id d1 w1 = (inr (true, d2), w2) ->
  today w = today w1 ->
  let key := (BlobStorage.container_name self,
              "logs/" ++ today w ++ "/" ++ request_id ++ ".json") in
  blobs w1 = <[key := mkBlob (Json d1) "application/json"]> (blobs w)
  /\ blobs w2 = <[key := mkBlob (Json d2) "application/json"]> (blobs w)
  /\ d2 = Py.set data "logged_at" (Py.Str (isoformat (utc (clock (env w1) (S (step w1))))))
  /\ blobs w2
     = blobs (world_after (BlobStorage.save_request_log self request_id data)
                          (with_blobs (blobs w) w1)).
Proof.
  intros H1 H2 Hday.
  assert (Hc : BlobStorage.has_client self = true).
  { unfold BlobStorage.save_request_log in H1.
    destruct (BlobStorage.has_client self); [reflexivity | discriminate H1]. }
  unfold world_after.
  rewrite (save_request_log_run _ _ _ _ Hc) in H1.
  rewrite (save_request_log_run _ _ _ _ Hc) in H2.
  rewrite (save_request_log_run _ _ _ _ Hc).
  cbv zeta in *. cbn [env step with_blobs blobs] in *.
  replace (today (with_blobs (blobs w) w1)) with (today w1) by reflexivity.
  destruct (faults (env w) (S (S (step w)))); [discriminate H1|].
  destruct (faults (env w1) (S (S (step w1)))); [discriminate H2|].
  injection H1 as Hd1 Hw1. injection H2 as Hd2 Hw2.
  subst d1. rewrite set_set in Hd2, Hw2. subst d2.
  assert (Hb1 : blobs w1
                = <[(BlobStorage.container_name self,
                     BlobStorage.log_blob_name (today w) request_id) :=
                      mkBlob (Json (Py.set data "logged_at"
                                      (Py.Str (isoformat (utc (clock (env w) (S (step w))))))))
                             "application/json"]> (blobs w))
    by (rewrite <- Hw1; reflexivity).
  assert (Hb2 : blobs w2
                = <[(BlobStorage.container_name self,
                     BlobStorage.log_blob_name (today w1) request_id) :=
                      mkBlob (Json (Py.set data "logged_at"
                                      (Py.Str (isoformat (utc (clock (env w1) (S (step w1))))))))
                             "application/json"]> (blobs w1))
    by (rewrite <- Hw2; reflexivity).
  unfold BlobStorage.log_blob_name in *.
  split; [exact Hb1|]. rewrite Hb2, Hb1, <- Hday, insert_insert_eq.
  repeat split; reflexivity.
Qed.

Lemma save_request_log_last_write_wins_witness :
  let key := ("ai-api-logs", "logs/20240115/r-1.json") in
  let stamped t := Py.set Sample.record1 "logged_at" (Py.Str t) in
  exists w1 w2,
    blobs w1 = <[key := mkBlob (Json (stamped "2024-01-15T10:00:01")) "application/json"]> ∅
    /\ blobs w2 = <[key := mkBlob (Json (stamped "2024-01-15T10:00:04")) "application/json"]> ∅.
Proof.
  cbv zeta.
  pose (first := BlobStorage.save_request_log Sample.blob_service "r-1" Sample.record1 Sample.w0).
  pose (second := BlobStorage.save_request_log Sample.blob_service "r-1"
                    (Py.set Sample.record1 "logged_at" (Py.Str "2024-01-15T10:00:01"))
                    (snd first)).
  exists (snd first), (snd second).
  destruct (save_request_log_last_write_wins Sample.blob_service "r-1" Sample.record1
              (Py.set Sample.record1 "logged_at" (Py.Str "2024-01-15T10:00:01"))
              (Py.set Sample.record1 "logged_at" (Py.Str "2024-01-15T10:00:04"))
              Sample.w0 (snd first) (snd second))
    as (Hb1 & Hb2 & _ & _).
  - vm_compute. reflexivity.
  - vm_compute. reflexivity.
  - vm_compute. reflexivity.
  - split; [exact Hb1 | exact Hb2].
Defined.

(** ** Error translation at the pipeline boundary *)

(** Every route of [ai_endpoints.py] has this shape: a fresh request id,
    then a [try] block whose handler turns any exception into an
    [HTTPException] with status 500 and the exception text as detail. *)
Lemma guarded_route_error {A} (settings : Settings)
    (blob_service : BlobStorage.BlobStorageService) (to_dict : A -> Py.dict Py.val)
    (body : string -> M A) (w : World) (e : exn) :
  result_of (body (uuids (env w) (step w))) (entered (with_tasks [] w)) = inl e ->
  fst (App.serve settings blob_service to_dict
         (request_id <- uuid4 ;;
          try_except (body request_id) (fun e => raise (HTTPException 500 (str e) [])))
         w)
  = App.mkJSONResponse 500 [ ("detail", Py.Str (str e)) ].
Proof.
  unfold result_of, entered, App.serve, bind, uuid4, observe, try_except, raise.
  cbn [env step with_tasks with_step fst snd]. intros H.
  match goal with
  | H : fst ?c = inl e |- _ => destruct c as [[e'|a] w']; cbn in H
  end; [injection H as -> | discriminate H].
  reflexivity.
Qed.

(** The handler registered in [main.py] does gate the detail on the
    debug flag; it only sees exceptions that no route has translated. *)
Lemma global_exception_handler_gated (settings : Settings) (exc : exn) :
  App.global_exception_handler settings exc
  = App.mkJSONResponse 500
      [ ("error", Py.Str "Internal server error");
        ("detail", Py.Str (if DEBUG settings then str exc else "An error occurred")) ].
Proof. reflexivity. Qed.

(** An error raised inside the [try] block of a text route is answered
    with its own text as detail, whatever the debug flag. *)
Lemma text_routes_expose_error_detail (settings : Settings)
    (blob_service : BlobStorage.BlobStorageService) (json_loads : string -> exn + Py.val)
    (ai_service : AIService.AzureAIService) (w : World) (e : exn) :
  (forall request,
      result_of (AIEndpoints.sentiment_body settings json_loads ai_service request
                   (uuids (env w) (step w))) (entered (with_tasks [] w)) = inl e ->
      fst (App.serve settings blob_service Schemas.sentiment_response_dict
             (AIEndpoints.analyze_sentiment settings json_loads ai_service request) w)
      = App.mkJSONResponse 500 [ ("detail", Py.Str (str e)) ])
  /\ (forall request,
         result_of (AIEndpoints.classification_body settings json_loads ai_service request
                      (uuids (env w) (step w))) (entered (with_tasks [] w)) = inl e ->
         fst (App.serve settings blob_service Schemas.classification_response_dict
                (AIEndpoints.classify_text settings json_loads ai_service request) w)
         = App.mkJSONResponse 500 [ ("detail", Py.Str (str e)) ])
  /\ (forall request,
         result_of (AIEndpoints.chat_body settings ai_service request
                      (uuids (env w) (step w))) (entered (with_tasks [] w)) = inl e ->
         fst (App.serve settings blob_service Schemas.chat_response_dict
                (AIEndpoints.chat_completion settings ai_service request) w)
         = App.mkJSONResponse 500 [ ("detail", Py.Str (str e)) ]).
Proof.
  repeat split; intros request H.
  - exact (guarded_route_error settings blob_service _
             (AIEndpoints.sentiment_body settings json_loads ai_service request) w e H).
  - exact (guarded_route_error settings blob_service _
             (AIEndpoints.classification_body settings json_loads ai_service request) w e H).
  - exact (guarded_route_error settings blob_service _
             (AIEndpoints.chat_body settings ai_service request) w e H).
Qed.

(** C3.  With the debug flag off, a chat request whose backend call
    times out is answered with status 500 and the original error text
    as detail: the route's own handler passes [str(e)] on, so the gated
    handler of [main.py] is never reached. *)
Theorem chat_error_detail_exposed_without_debug :
  DEBUG Sample.production = false
  /\ fst (App.serve Sample.production Sample.blob_service Schemas.chat_response_dict
            (AIEndpoints.chat_completion Sample.production
               (AIService.mkAzureAIService (Some Sample.timing_out))
               (Schemas.mkOpenAIRequest "Hello" 150 0.7))
            Sample.w0)
     = App.mkJSONResponse 500 [ ("detail", Py.Str "Request timed out.") ]
  /\ App.global_exception_handler Sample.production (Exception "Request timed out.")
     = App.mkJSONResponse 500
         [ ("error", Py.Str "Internal server error");
           ("detail", Py.Str "An error occurred") ].
Proof. repeat split. Qed.

(** ** The credential store *)

Lemma get_set_eq {V} (d : Py.dict V) (k : string) (v : V) :
  Py.get (Py.set d k v) k = Some v.
Proof.
  induction d as [|[k0 v0] d IH]; cbn.
  - now rewrite String.eqb_refl.
  - destruct (String.eqb k0 k) eqn:E; cbn; rewrite E; [reflexivity | exact IH].
Qed.

Lemma get_set_ne {V} (d : Py.dict V) (k k' : string) (v : V) :
  k' <> k -> Py.get (Py.set d k v) k' = Py.get d k'.
Proof.
  intros Hne. induction d as [|[k0 v0] d IH]; cbn.
  - destruct (String.eqb k k') eqn:E; [|reflexivity].
    apply String.eqb_eq in E. congruence.
  - destruct (String.eqb k0 k) eqn:E; cbn.
    + apply String.eqb_eq in E. subst k0.
      destruct (String.eqb k k') eqn:E'; [|reflexivity].
      apply String.eqb_eq in E'. congruence.
    + destruct (String.eqb k0 k'); [reflexivity | exact IH].
Qed.

Lemma keys_set_present {V} (d : Py.dict V) (k : string) (v v0 : V) :
  Py.get d k = Some v0 -> Py.keys (Py.set d k v) = Py.keys d.
Proof.
  induction d as [|[k1 v1] d IH]; cbn; [discriminate|].
  destruct (String.eqb k1 k); cbn; [reflexivity|]. intros H. f_equal. exact (IH H).
Qed.

Section AuthFacts.

Variable settings : Settings.
Variable get_password_hash : N -> string -> string.
Variable verify_password : string -> string -> bool.
Variable verify_token : DateTime -> string -> option Auth.Claims.
Variable create_access_token : Auth.Claims -> nat -> DateTime -> string.

Lemma any_field_taken (field : UserRecord -> string) (db : list UserRecord) (x : string) :
  Py.any (fun u => String.eqb (field u) x) db = true
  <-> exists u, In u db /\ field u = x.
Proof.
  unfold Py.any. rewrite existsb_exists.
  split; intros (u & Hin & Hu); exists u; split; trivial; now apply String.eqb_eq.
Qed.

Lemma any_field_free (field : UserRecord -> string) (db : list UserRecord) (x : string) :
  ~ (exists u, In u db /\ field u = x) ->
  Py.any (fun u => String.eqb (field u) x) db = false.
Proof.
  intros H. destruct (Py.any _ db) eqn:E; [|reflexivity].
  exfalso. apply H. now apply any_field_taken.
Qed.


Lemma register_duplicate_username (user_data : Auth.UserCreate) (w : World) :
  username_taken w (Auth.new_username user_data) ->
  Auth.register get_password_hash user_data w = (inl duplicate_username, w).
Proof.
  intros H. apply any_field_taken in H.
  unfold Auth.register, bind, get_USERS_DB, raise. cbn [fst snd]. now rewrite H.
Qed.

Lemma register_duplicate_email (user_data : Auth.UserCreate) (w : World) :
  ~ username_taken w (Auth.new_username user_data) ->
  email_taken w (Auth.new_email user_data) ->
  Auth.register get_password_hash user_data w = (inl duplicate_email, w).
Proof.
  intros Hn He. apply any_field_free in Hn. apply any_field_taken in He.
  unfold Auth.register, bind, get_USERS_DB, raise. cbn [fst snd]. now rewrite Hn, He.
Qed.

Lemma register_success (user_data : Auth.UserCreate) (w : World) :
  ~ username_taken w (Auth.new_username user_data) ->
  ~ email_taken w (Auth.new_email user_data) ->
  Auth.register get_password_hash user_data w
  = (inr (Auth.user_view (new_record get_password_hash user_data w)),
     with_USERS_DB (Py.set (USERS_DB w) (uuids (env w) (step w)) (new_record get_password_hash user_data w))
                   (with_step (S (S (S (step w)))) w)).
Proof.
  intros Hn He. apply any_field_free in Hn. apply any_field_free in He.
  unfold Auth.register, bind, get_USERS_DB, raise. cbn [fst snd]. rewrite Hn, He.
  reflexivity.
Qed.

(** A failed registration changes nothing. *)
Lemma register_failure_world (user_data : Auth.UserCreate) (w : World) (e : exn) :
  result_of (Auth.register get_password_hash user_data) w = inl e ->
  world_after (Auth.register get_password_hash user_data) w = w.
Proof.
  unfold result_of, world_after, Auth.register, bind, get_USERS_DB, raise.
  cbn [fst snd].
  destruct (Py.any _ _); [reflexivity|]. destruct (Py.any _ _); [reflexivity|].
  discriminate.
Qed.



(** C10.  When both the username and the email of a request are taken,
    [register] fails with the duplicate-username error; and whenever
    [register] fails, the store (indeed the whole world) is as before. *)
Theorem register_username_first (user_data : Auth.UserCreate) (w : World) :
  (username_taken w (Auth.new_username user_data) ->
   email_taken w (Auth.new_email user_data) ->
   result_of (Auth.register get_password_hash user_data) w = inl duplicate_username)
  /\ (forall e,
         result_of (Auth.register get_password_hash user_data) w = inl e ->
         USERS_DB (world_after (Auth.register get_password_hash user_data) w) = USERS_DB w
         /\ world_after (Auth.register get_password_hash user_data) w = w).
Proof.
  split.
  - intros Hn _. unfold result_of. now rewrite register_duplicate_username.
  - intros e H. apply register_failure_world in H. now rewrite H.
Qed.

(** C4.  A login under a username that no stored user has, and a login
    under a stored username with a password that fails verification,
    are answered with one and the same exception (status 401, the same
    detail and headers), and neither changes the world. *)
Theorem login_failures_indistinguishable (w : World) (unknown known : Auth.UserLogin) :
  ~ username_taken w (Auth.login_username unknown) ->
  username_taken w (Auth.login_username known) ->
  (forall u, In u (Py.values (USERS_DB w)) ->
             username u = Auth.login_username known ->
             verify_password (Auth.login_password known) (hashed_password u) = false) ->
  Auth.login settings verify_password create_access_token unknown w
    = (inl invalid_credentials, w)
  /\ Auth.login settings verify_password create_access_token known w
     = (inl invalid_credentials, w).
Proof.
  intros Hunknown Hknown Hwrong.
  unfold Auth.login, bind, get_USERS_DB, raise, Py.next. cbn [fst snd]. split.
  - destruct (List.find _ _) as [u|] eqn:E; [|reflexivity].
    apply find_some in E as [Hin Hu]. exfalso. apply Hunknown.
    exists u. split; trivial. now apply String.eqb_eq.
  - destruct (List.find _ _) as [u|] eqn:E; [|reflexivity].
    apply find_some in E as [Hin Hu]. apply String.eqb_eq in Hu.
    now rewrite (Hwrong u Hin Hu).
Qed.

(** C6.  [identify] fails with the 401 error when the token is rejected
    or its claims lack the subject or the user id; otherwise it fails
    with the 404 error when the store has no record under that user id;
    otherwise it returns the view of the stored record. *)
Theorem identify_spec (token : string) (w : World) :
  let now := utc (next_instant w) in
  (verify_token now token = None ->
   result_of (Auth.identify verify_token token) w = inl unauthenticated)
  /\ (forall payload,
         verify_token now token = Some payload ->
         Auth.claim payload "sub" = None \/ Auth.claim payload "user_id" = None ->
         result_of (Auth.identify verify_token token) w = inl unauthenticated)
  /\ (forall payload subject user_id,
         verify_token now token = Some payload ->
         Auth.claim payload "sub" = Some subject ->
         Auth.claim payload "user_id" = Some user_id ->
         (Py.get (USERS_DB w) user_id = None ->
          result_of (Auth.identify verify_token token) w = inl not_found)
         /\ (forall user,
                Py.get (USERS_DB w) user_id = Some user ->
                result_of (Auth.identify verify_token token) w
                = inr (Auth.user_view user))).
Proof.
  cbv zeta.
  unfold result_of, next_instant, Auth.identify, Auth.get_current_user,
    Auth.get_current_active_user, Auth.get_current_user_info,
    Auth.credentials_exception, bind, utcnow, observe, get_USERS_DB, raise, ret.
  cbn [fst snd env step with_step USERS_DB].
  split; [intros ->; reflexivity|]. split.
  - intros payload -> [Hs | Hu].
    + rewrite Hs. reflexivity.
    + rewrite Hu. destruct (Auth.claim payload "sub"); reflexivity.
  - intros payload subject user_id -> Hs Hu. rewrite Hs, Hu. cbn. split.
    + intros ->. reflexivity.
    + intros user ->. reflexivity.
Qed.

End AuthFacts.

(** *** The credential-store properties on concrete stores *)

Lemma nobody_in_empty_store (name : string) : ~ username_taken Sample.w0 name.
Proof. intros (u & [] & _). Qed.

Lemma no_email_in_empty_store (address : string) : ~ email_taken Sample.w0 address.
Proof. intros (u & [] & _). Qed.

Lemma alice_is_registered : username_taken Sample.w_alice "alice".
Proof. exists Sample.alice. split; [left|]; reflexivity. Qed.

Lemma alice_email_is_registered : email_taken Sample.w_alice "alice@x.com".
Proof. exists Sample.alice. split; [left|]; reflexivity. Qed.

Lemma bob_is_not_registered : ~ username_taken Sample.w_alice "bob".
Proof. intros (u & [<- | []] & H). discriminate H. Qed.


Lemma register_username_first_witness :
  result_of (Auth.register Sample.toy_hash
               (Auth.mkUserCreate "alice" "alice@x.com" None "secret2")) Sample.w_alice
  = inl duplicate_username
  /\ USERS_DB (world_after (Auth.register Sample.toy_hash
                              (Auth.mkUserCreate "alice" "alice@x.com" None "secret2"))
                           Sample.w_alice)
     = USERS_DB Sample.w_alice.
Proof.
  destruct (register_username_first Sample.toy_hash
              (Auth.mkUserCreate "alice" "alice@x.com" None "secret2") Sample.w_alice)
    as [Hfirst Hsame].
  split.
  - apply Hfirst; [exact alice_is_registered | exact alice_email_is_registered].
  - apply (Hsame duplicate_username). reflexivity.
Defined.

Lemma login_failures_indistinguishable_witness :
  Auth.login Sample.production Sample.toy_verify Sample.toy_encode
             (Auth.mkUserLogin "bob" "secret1") Sample.w_alice
  = (inl invalid_credentials, Sample.w_alice)
  /\ Auth.login Sample.production Sample.toy_verify Sample.toy_encode
                (Auth.mkUserLogin "alice" "wrong-password") Sample.w_alice
     = (inl invalid_credentials, Sample.w_alice).
Proof.
  apply (login_failures_indistinguishable Sample.production Sample.toy_verify
           Sample.toy_encode Sample.w_alice
           (Auth.mkUserLogin "bob" "secret1") (Auth.mkUserLogin "alice" "wrong-password")).
  - exact bob_is_not_registered.
  - exact alice_is_registered.
  - intros u [<- | []] _. reflexivity.
Defined.

Lemma identify_spec_witness :
  result_of (Auth.identify Sample.toy_decode "garbage") Sample.w_alice = inl unauthenticated
  /\ result_of (Auth.identify Sample.toy_decode "token-without-subject") Sample.w_alice
     = inl unauthenticated
  /\ result_of (Auth.identify Sample.toy_decode "token-for-uuid-9") Sample.w_alice
     = inl not_found
  /\ result_of (Auth.identify Sample.toy_decode "token-for-uuid-0") Sample.w_alice
     = inr (Auth.user_view Sample.alice).
Proof.
  split; [|split; [|split]].
  - apply (identify_spec Sample.toy_decode "garbage" Sample.w_alice). reflexivity.
  - apply (identify_spec Sample.toy_decode "token-without-subject" Sample.w_alice)
      with (payload := [ ("user_id", Some "uuid-0") ]); [reflexivity | left; reflexivity].
  - apply (identify_spec Sample.toy_decode "token-for-uuid-9" Sample.w_alice)
      with (payload := [ ("sub", Some "zoe"); ("user_id", Some "uuid-9") ])
           (subject := "zoe") (user_id := "uuid-9"); reflexivity.
  - apply (identify_spec Sample.toy_decode "token-for-uuid-0" Sample.w_alice)
      with (payload := [ ("sub", Some "alice"); ("user_id", Some "uuid-0") ])
           (subject := "alice") (user_id := "uuid-0"); reflexivity.
Defined.

(** * Further properties of the modelled code *)

(** ** The keyword fallbacks *)

Lemma Qgtb_true (a b : Q) : Py.Qgtb a b = true <-> (b < a)%Q.
Proof.
  unfold Py.Qgtb, Py.Qltb. rewrite Bool.negb_true_iff.
  split; intros H.
  - apply Qnot_le_lt. intros Hle. apply Qle_bool_iff in Hle. congruence.
  - destruct (Qle_bool a b) eqn:E; [|reflexivity].
    apply Qle_bool_iff in E. exfalso. exact (Qlt_not_le _ _ H E).
Qed.

Lemma Qgtb_false (a b : Q) : Py.Qgtb a b = false <-> (a <= b)%Q.
Proof.
  unfold Py.Qgtb, Py.Qltb. rewrite Bool.negb_false_iff. apply Qle_bool_iff.
Qed.

(** The sentiment fallback labels a text by comparing how many positive
    and how many negative keywords occur in it, and its confidence lies
    in [[0.6, 0.95]]: [0.6] exactly on a tie. *)
Theorem mock_sentiment_label_and_confidence (text : string) :
  let p := Py.count_in AIService.positive_words (Py.lower text) in
  let n := Py.count_in AIService.negative_words (Py.lower text) in
  exists label c,
    str_of (AIService._mock_sentiment_analysis text) "sentiment" = Some label
    /\ float_of (AIService._mock_sentiment_analysis text) "confidence" = Some c
    /\ (0.6 <= c <= 0.95)%Q
    /\ ((n < p)%nat -> label = "positive")
    /\ ((p < n)%nat -> label = "negative")
    /\ (p = n -> label = "neutral" /\ (c == 0.6)%Q).
Proof.
  cbv zeta.
  unfold AIService._mock_sentiment_analysis, str_of, float_of, AIService.hits.
  pose proof (count_in_le AIService.positive_words (Py.lower text)) as Hp.
  pose proof (count_in_le AIService.negative_words (Py.lower text)) as Hn.
  change (length AIService.positive_words) with 8%nat in Hp.
  change (length AIService.negative_words) with 8%nat in Hn.
  set (a := Py.count_in AIService.positive_words (Py.lower text)) in *.
  set (b := Py.count_in AIService.negative_words (Py.lower text)) in *.
  clearbody a b.
  keyword_counts a b;
    do 2 eexists;
    do 2 (split; [vm_compute; reflexivity|]);
    (split; [split; discriminate|]);
    (split; [intros H; first [reflexivity | lia]|]);
    (split; [intros H; first [reflexivity | lia]|]);
    intros H; first [split; reflexivity | discriminate H].
Qed.

(** The neutral score of the sentiment fallback is not clamped: it is
    negative whenever more than ten of the sixteen keywords occur in
    the text and positive whenever fewer than ten do; it never exceeds
    one, and it is one when no keyword occurs.  (With exactly ten
    keywords it is zero here; the statement leaves that case out.) *)
Theorem mock_sentiment_neutral_score (text : string) :
  let p := Py.count_in AIService.positive_words (Py.lower text) in
  let n := Py.count_in AIService.negative_words (Py.lower text) in
  exists u,
    float_at (AIService._mock_sentiment_analysis text) "scores" "neutral" = Some u
    /\ ((10 < p + n)%nat -> (u < 0)%Q)
    /\ ((p + n < 10)%nat -> (0 < u)%Q)
    /\ (u <= 1)%Q
    /\ ((p + n = 0)%nat -> (u == 1)%Q).
Proof.
  cbv zeta.
  unfold AIService._mock_sentiment_analysis, float_at, AIService.hits.
  pose proof (count_in_le AIService.positive_words (Py.lower text)) as Hp.
  pose proof (count_in_le AIService.negative_words (Py.lower text)) as Hn.
  change (length AIService.positive_words) with 8%nat in Hp.
  change (length AIService.negative_words) with 8%nat in Hn.
  set (a := Py.count_in AIService.positive_words (Py.lower text)) in *.
  set (b := Py.count_in AIService.negative_words (Py.lower text)) in *.
  clearbody a b.
  keyword_counts a b;
    eexists;
    (split; [vm_compute; reflexivity|]);
    (split; [intros H; first [reflexivity | lia]|]);
    (split; [intros H; first [reflexivity | lia]|]);
    (split; [discriminate|]);
    intros H; first [reflexivity | discriminate H].
Qed.

(** [max(items, key=...)] returns an item of the sequence whose key no
    other item exceeds. *)
Lemma max_by_spec {A} (key : A -> Q) (xs : list A) (best : A) :
  In (Py.max_by key best xs) (best :: xs)
  /\ forall x, In x (best :: xs) -> (key x <= key (Py.max_by key best xs))%Q.
Proof.
  revert best. induction xs as [|y xs IH]; intros best; cbn [Py.max_by].
  - split; [left; reflexivity|]. intros x [<- | []]. apply Qle_refl.
  - destruct (IH (if Py.Qgtb (key y) (key best) then y else best)) as [Hin Hmax].
    split.
    + destruct Hin as [Hin | Hin]; [|right; right; exact Hin].
      rewrite <- Hin. destruct (Py.Qgtb (key y) (key best)); [right; left | left]; reflexivity.
    + intros x [<- | [<- | Hx]].
      * destruct (Py.Qgtb (key y) (key best)) eqn:E.
        -- apply Qgtb_true in E. apply Qlt_le_weak in E.
           eapply Qle_trans; [exact E|]. apply Hmax. left. reflexivity.
        -- apply Hmax. left. reflexivity.
      * destruct (Py.Qgtb (key y) (key best)) eqn:E.
        -- apply Hmax. left. reflexivity.
        -- apply Qgtb_false in E. eapply Qle_trans; [exact E|]. apply Hmax. left. reflexivity.
      * apply Hmax. right. exact Hx.
Qed.

Lemma category_score_range (x : Q) :
  (0 <= x)%Q -> (0.1 <= Py.min (x + 0.1) 0.9 <= 0.9)%Q.
Proof.
  intros Hx. unfold Py.min, Py.Qltb.
  destruct (Qle_bool (x + 0.1) 0.9) eqn:E; cbn [negb].
  - apply Qle_bool_iff in E. split; lra.
  - split; lra.
Qed.

Lemma hits_ratio_nonneg (words : list string) (text : string) :
  (0 <= AIService.hits words text / inject_Z (Z.of_nat (length words)))%Q.
Proof.
  unfold AIService.hits, Qdiv. apply Qmult_le_0_compat.
  - unfold Qle. cbn. lia.
  - apply Qinv_le_0_compat. unfold Qle. cbn. lia.
Qed.

(** The classification fallback scores the six categories, in their
    fixed order, each within [[0.1, 0.9]]; the category it reports is
    one of the six, its confidence is that category's score, and no
    category scores higher. *)
Theorem mock_classification_scores (text : string) :
  let result := AIService._mock_text_classification text in
  exists category confidence scores,
    str_of result "category" = Some category
    /\ float_of result "confidence" = Some confidence
    /\ Py.get result "all_scores" = Some (Py.Dict scores)
    /\ Py.keys scores = AIService.default_categories
    /\ In category AIService.default_categories
    /\ float_at result "all_scores" category = Some confidence
    /\ (0.1 <= confidence <= 0.9)%Q
    /\ forall c, In c AIService.default_categories ->
         exists q, float_at result "all_scores" c = Some q /\ (0.1 <= q <= confidence)%Q.
Proof.
  cbv zeta. unfold AIService._mock_text_classification.
  set (t := Py.lower text).
  assert (Hscores : exists s1 s2 s3 s4 s5 s6,
             AIService.category_scores t
             = [ ("Technology", s1); ("Business", s2); ("Sports", s3);
                 ("Entertainment", s4); ("Politics", s5); ("Health", s6) ]
             /\ Forall (fun s => (0.1 <= s <= 0.9)%Q) [s1; s2; s3; s4; s5; s6]).
  { do 6 eexists. split; [reflexivity|].
    repeat constructor; apply category_score_range, hits_ratio_nonneg. }
  destruct Hscores as (s1 & s2 & s3 & s4 & s5 & s6 & -> & Hr).
  cbv zeta. cbv iota beta.
  destruct (max_by_spec snd
              [ ("Business", s2); ("Sports", s3); ("Entertainment", s4);
                ("Politics", s5); ("Health", s6) ] ("Technology", s1)) as [Hin Hmax].
  set (best := Py.max_by snd ("Technology", s1) _) in *. clearbody best.
  set (scores := [ ("Technology", s1); ("Business", s2); ("Sports", s3);
                   ("Entertainment", s4); ("Politics", s5); ("Health", s6) ]) in *.
  destruct best as [category confidence]. cbn [fst snd] in *.
  assert (Hlookup : forall c q, In (c, q) scores ->
            float_at [ ("category", Py.Str category); ("confidence", Py.Float confidence);
                       ("all_scores", Py.Dict (map (fun '(k, q) => (k, Py.Float q)) scores));
                       ("processing_time", Py.Float 0.1) ] "all_scores" c = Some q
            /\ In c AIService.default_categories /\ (0.1 <= q <= 0.9)%Q).
  { intros c q Hc. subst scores. cbn in Hc. rewrite !Forall_cons_iff in Hr.
    destruct Hr as (H1 & H2 & H3 & H4 & H5 & H6 & _).
    destruct Hc as [E | [E | [E | [E | [E | [E | []]]]]]]; injection E as <- <-;
      (split; [reflexivity|]); (split; [cbn; tauto | assumption]). }
  exists category, confidence, (map (fun '(k, q) => (k, Py.Float q)) scores).
  destruct (Hlookup category confidence Hin) as (Hget & Hcat & Hconf).
  split; [reflexivity|]. split; [reflexivity|]. split; [reflexivity|].
  split; [reflexivity|]. split; [exact Hcat|]. split; [exact Hget|]. split; [exact Hconf|].
  intros c Hc.
  assert (Hsome : exists q, In (c, q) scores).
  { subst scores. cbn in Hc.
    destruct Hc as [<- | [<- | [<- | [<- | [<- | [<- | []]]]]]]; eexists; cbn; eauto 10. }
  destruct Hsome as [q Hq]. exists q.
  destruct (Hlookup c q Hq) as (Hgetc & _ & Hqr).
  split; [exact Hgetc|]. split; [apply Hqr|]. exact (Hmax (c, q) Hq).
Qed.

(** ** Computations that only consume steps *)

Lemma only_steps_ret {A} (a : A) : only_steps (ret a).
Proof. intros w. repeat split. Qed.

Lemma only_steps_raise {A} (e : exn) : only_steps (@raise A e).
Proof. intros w. repeat split. Qed.

Lemma only_steps_lift {A} (r : exn + A) : only_steps (lift r).
Proof. intros w. repeat split. Qed.

Lemma only_steps_observe {A} (f : Env -> nat -> A) : only_steps (observe f).
Proof. intros w. repeat split. Qed.

Lemma only_steps_get_USERS_DB : only_steps get_USERS_DB.
Proof. intros w. repeat split. Qed.

Lemma only_steps_bind {A B} (c : M A) (k : A -> M B) :
  only_steps c -> (forall a, only_steps (k a)) -> only_steps (bind c k).
Proof.
  intros Hc Hk w. unfold bind. specialize (Hc w).
  destruct (c w) as [[e|a] w1]; cbn [snd] in *; [exact Hc|].
  specialize (Hk a w1). destruct Hc as (-> & -> & -> & ->) in Hk. tauto.
Qed.

Lemma only_steps_try_except {A} (body : M A) (handler : exn -> M A) :
  only_steps body -> (forall e, only_steps (handler e)) -> only_steps (try_except body handler).
Proof.
  intros Hc Hk w. unfold try_except. specialize (Hc w).
  destruct (body w) as [[e|a] w1]; cbn [snd] in *; [|exact Hc].
  specialize (Hk e w1). destruct Hc as (-> & -> & -> & ->) in Hk. tauto.
Qed.

Ltac only_steps :=
  repeat first
    [ apply only_steps_ret | apply only_steps_raise | apply only_steps_lift
    | apply only_steps_observe | apply only_steps_get_USERS_DB
    | apply only_steps_bind; [|intros ?]
    | apply only_steps_try_except; [|intros ?]
    | match goal with
      | |- only_steps (match ?x with _ => _ end) => destruct x
      end ].

Lemma analyze_sentiment_only_steps
    (settings : Settings) (json_loads : string -> exn + Py.val)
    (self : AIService.AzureAIService) (text : string) (language : option string) :
  only_steps (AIService.analyze_sentiment settings json_loads self text language).
Proof.
  unfold AIService.analyze_sentiment, AIService.sentiment_delegation,
    AIService.stripped_content, create, first_content, setitem, time_time.
  only_steps.
Qed.

Lemma classify_text_only_steps
    (settings : Settings) (json_loads : string -> exn + Py.val)
    (self : AIService.AzureAIService) (text : string) (categories : option (list string)) :
  only_steps (AIService.classify_text settings json_loads self text categories).
Proof.
  unfold AIService.classify_text, AIService.classification_delegation,
    AIService.stripped_content, create, first_content, setitem, time_time.
  only_steps.
Qed.

Lemma chat_completion_only_steps
    (settings : Settings) (self : AIService.AzureAIService) (prompt : string)
    (max_tokens : nat) (temperature : Q) :
  only_steps (AIService.chat_completion settings self prompt max_tokens temperature).
Proof.
  unfold AIService.chat_completion, AIService.chat_delegation, create, first_content,
    time_time.
  only_steps.
Qed.

(** The three methods of the text facade, whatever the backend does,
    only read the environment: they never write to the credential
    store, the blob container or the task list. *)
Theorem text_facade_only_steps
    (settings : Settings) (json_loads : string -> exn + Py.val)
    (self : AIService.AzureAIService) (text prompt : string) (language : option string)
    (categories : option (list string)) (max_tokens : nat) (temperature : Q) :
  only_steps (AIService.analyze_sentiment settings json_loads self text language)
  /\ only_steps (AIService.classify_text settings json_loads self text categories)
  /\ only_steps (AIService.chat_completion settings self prompt max_tokens temperature).
Proof.
  split; [apply analyze_sentiment_only_steps|].
  split; [apply classify_text_only_steps | apply chat_completion_only_steps].
Qed.

(** ** What the sentiment facade makes of the backend's answer *)

(** When the backend answers the sentiment request, [analyze_sentiment]
    returns the JSON object of the first choice with [processing_time]
    set to the measured time and every other key as the backend gave
    it; an answer with no choice, with no content, with text that does
    not parse, or with JSON that is not an object yields the fallback. *)
Theorem analyze_sentiment_backend_answer
    (settings : Settings) (json_loads : string -> exn + Py.val) (cl : AzureOpenAI)
    (text : string) (language : option string) (w : World) (completion : ChatCompletion) :
  let request :=
    mkChatRequest (AZURE_OPENAI_DEPLOYMENT settings)
      [ ("system", "You are a sentiment analysis AI. Respond only with JSON.");
        ("user", AIService.sentiment_prompt text) ] 0.3 200 in
  let answer :=
    result_of (AIService.analyze_sentiment settings json_loads
                 (AIService.mkAzureAIService (Some cl)) text language) w in
  let elapsed :=
    (epoch (clock (env w) (S (S (step w)))) - epoch (clock (env w) (step w)))%Q in
  cl request (env w) (S (step w)) = inr completion ->
  (forall c rest d,
      choices completion = Some c :: rest ->
      json_loads (Py.strip c) = inr (Py.Dict d) ->
      answer = inr (Py.set d "processing_time" (Py.Float elapsed))
      /\ Py.get (Py.set d "processing_time" (Py.Float elapsed)) "processing_time"
         = Some (Py.Float elapsed)
      /\ forall k, k <> "processing_time" ->
           Py.get (Py.set d "processing_time" (Py.Float elapsed)) k = Py.get d k)
  /\ (choices completion = [] -> answer = inr (AIService._mock_sentiment_analysis text))
  /\ (forall rest, choices completion = None :: rest ->
        answer = inr (AIService._mock_sentiment_analysis text))
  /\ (forall c rest e,
        choices completion = Some c :: rest ->
        json_loads (Py.strip c) = inl e ->
        answer = inr (AIService._mock_sentiment_analysis text))
  /\ (forall c rest v,
        choices completion = Some c :: rest ->
        json_loads (Py.strip c) = inr v ->
        (forall d, v <> Py.Dict d) ->
        answer = inr (AIService._mock_sentiment_analysis text)).
Proof.
  cbv zeta. intros Hcl.
  unfold result_of, AIService.analyze_sentiment, AIService.sentiment_delegation,
    AIService.stripped_content, create, first_content, setitem, time_time,
    bind, observe, try_except, lift, ret, raise.
  cbn [AIService.client env step with_step fst snd]. rewrite Hcl.
  split; [|split; [|split; [|split]]].
  - intros c rest d -> ->. split; [reflexivity|]. split.
    + apply get_set_eq.
    + intros k Hk. now apply get_set_ne.
  - intros ->. reflexivity.
  - intros rest ->. reflexivity.
  - intros c rest e -> ->. reflexivity.
  - intros c rest v -> -> Hv. destruct v; try reflexivity. now destruct (Hv items).
Qed.

(** A backend for the example: it answers every request with one JSON
    text, set between a no-break space and a line feed. *)
Lemma analyze_sentiment_backend_answer_witness :
  let content := Sample.nbsp ++ "{}" ++ newline in
  let backend : AzureOpenAI := fun _ _ _ => inr (mkChatCompletion [Some content] (Some 12%Z)) in
  let parse : string -> exn + Py.val :=
    fun s => if String.eqb s "{}" then inr (Py.Dict []) else inl (Exception "Expecting value") in
  result_of (AIService.analyze_sentiment Sample.production parse
               (AIService.mkAzureAIService (Some backend)) "fine" None) Sample.w0
  = inr [ ("processing_time", Py.Float (inject_Z 2 - inject_Z 0)) ].
Proof.
  cbv zeta.
  destruct (analyze_sentiment_backend_answer Sample.production
              (fun s => if String.eqb s "{}" then inr (Py.Dict [])
                        else inl (Exception "Expecting value"))
              (fun _ _ _ => inr (mkChatCompletion [Some (Sample.nbsp ++ "{}" ++ newline)]
                                                  (Some 12%Z)))
              "fine" None Sample.w0
              (mkChatCompletion [Some (Sample.nbsp ++ "{}" ++ newline)] (Some 12%Z)) eq_refl)
    as (Hok & _).
  destruct (Hok (Sample.nbsp ++ "{}" ++ newline) [] [] eq_refl eq_refl) as (Hanswer & _).
  exact Hanswer.
Defined.

(** ** The blob-store facade *)

(** [save_request_log] never raises.  It reports success exactly when
    the service has a client and the upload is not struck by a fault;
    then the blob under the key of the request holds the record with
    its [logged_at] stamp.  On failure the container is as before; no
    other key is ever touched, nor are the credential store and the
    task list; without a client not even the clock is read and the
    record is left unstamped. *)
Theorem save_request_log_outcomes
    (self : BlobStorage.BlobStorageService) (request_id : string)
    (data : Py.dict Py.val) (w : World) :
  let key := (BlobStorage.container_name self,
              BlobStorage.log_blob_name (today w) request_id) in
  let uploaded :=
    BlobStorage.has_client self
    && match faults (env w) (S (S (step w))) with None => true | Some _ => false end in
  exists data' w',
    BlobStorage.save_request_log self request_id data w = (inr (uploaded, data'), w')
    /\ (uploaded = true ->
        blobs w' !! key = Some (mkBlob (Json data') "application/json")
        /\ Py.get data' "logged_at"
           = Some (Py.Str (isoformat (utc (clock (env w) (S (step w)))))))
    /\ (uploaded = false -> blobs w' = blobs w)
    /\ (forall k, k <> key -> blobs w' !! k = blobs w !! k)
    /\ USERS_DB w' = USERS_DB w /\ tasks w' = tasks w /\ env w' = env w
    /\ (BlobStorage.has_client self = false -> w' = w /\ data' = data).
Proof.
  cbv zeta. destruct (BlobStorage.has_client self) eqn:Hc; cbn [andb].
  - rewrite (save_request_log_run _ _ _ _ Hc). cbv zeta.
    destruct (faults (env w) (S (S (step w)))) as [msg|]; do 2 eexists;
      (split; [reflexivity|]); cbn [blobs with_blobs with_step USERS_DB tasks env].
    + split; [discriminate|]. repeat split; discriminate.
    + split.
      * intros _. split; [apply lookup_insert_eq | apply get_set_eq].
      * split; [discriminate|]. split; [|repeat split; discriminate].
        intros k Hk. apply lookup_insert_ne. congruence.
  - unfold BlobStorage.save_request_log. rewrite Hc. cbn [negb].
    do 2 eexists. split; [reflexivity|]. split; [discriminate|]. repeat split.
Qed.

Lemma get_log_run (json_loads : string -> exn + Py.val)
    (self : BlobStorage.BlobStorageService) (request_id date : string) (w : World) :
  BlobStorage.has_client self = true ->
  BlobStorage.get_log json_loads self request_id date w =
    let key := (BlobStorage.container_name self,
                "logs/" ++ date ++ "/" ++ request_id ++ ".json") in
    match faults (env w) (step w) with
    | Some _ => (inr None, with_step (S (step w)) w)
    | None =>
        match blobs w !! key with
        | None => (inr None, with_step (S (step w)) w)
        | Some b =>
            match faults (env w) (S (step w)) with
            | Some _ => (inr None, with_step (S (S (step w))) w)
            | None =>
                (match content b with
                 | Json data => inr (Some (Py.Dict data))
                 | Bytes raw => match json_loads raw with
                                | inr v => inr (Some v)
                                | inl _ => inr None
                                end
                 end, with_step (S (S (step w))) w)
            end
        end
    end.
Proof.
  intros Hc. unfold BlobStorage.get_log. rewrite Hc. cbn [negb]. cbv zeta.
  unfold try_except, bind, BlobStorage.blob_exists, BlobStorage.download_blob,
    BlobStorage.loads_blob, bind, observe, lift, ret, raise.
  cbn [env step with_step blobs fst snd].
  destruct (faults (env w) (step w)); [reflexivity|].
  unfold with_step; cbn [env step blobs USERS_DB tasks].
  match goal with
  | |- context [blobs w !! ?k] => destruct (blobs w !! k) as [b|] eqn:E
  end; [|reflexivity].
  cbn [env step blobs USERS_DB tasks fst snd].
  destruct (faults (env w) (S (step w))); [reflexivity|].
  cbn [env step blobs USERS_DB tasks fst snd]. rewrite E.
  destruct (content b) as [d|raw]; [reflexivity|].
  destruct (json_loads raw); reflexivity.
Qed.

(** A request log that [save_request_log] has just stored is what
    [get_log] returns for the same request id and the date of the
    write, unless a fault strikes one of its two remote calls. *)
Theorem get_log_after_save
    (json_loads : string -> exn + Py.val) (self : BlobStorage.BlobStorageService)
    (request_id : string) (data stamped : Py.dict Py.val) (w w1 : World) :
  BlobStorage.save_request_log self request_id data w = (inr (true, stamped), w1) ->
  faults (env w1) (step w1) = None ->
  faults (env w1) (S (step w1)) = None ->
  result_of (BlobStorage.get_log json_loads self request_id (today w)) w1
  = inr (Some (Py.Dict stamped)).
Proof.
  intros Hsave Hf1 Hf2.
  assert (Hc : BlobStorage.has_client self = true).
  { unfold BlobStorage.save_request_log in Hsave.
    destruct (BlobStorage.has_client self); [reflexivity | discriminate Hsave]. }
  rewrite (save_request_log_run _ _ _ _ Hc) in Hsave. cbv zeta in Hsave.
  destruct (faults (env w) (S (S (step w)))); [discriminate Hsave|].
  injection Hsave as Hd Hw.
  unfold result_of. rewrite (get_log_run _ _ _ _ _ Hc). cbv zeta.
  rewrite Hf1.
  assert (Hb : blobs w1 !! (BlobStorage.container_name self,
                            "logs/" ++ today w ++ "/" ++ request_id ++ ".json")
               = Some (mkBlob (Json stamped) "application/json")).
  { rewrite <- Hw, <- Hd. cbn [blobs with_blobs]. apply lookup_insert_eq. }
  rewrite Hb, Hf2. reflexivity.
Qed.

Lemma get_log_after_save_witness :
  let saved := BlobStorage.save_request_log Sample.blob_service "r-1" Sample.record1 Sample.w0 in
  result_of (BlobStorage.get_log Sample.no_json Sample.blob_service "r-1" "20240115")
            (snd saved)
  = inr (Some (Py.Dict (Py.set Sample.record1 "logged_at" (Py.Str "2024-01-15T10:00:01")))).
Proof.
  cbv zeta.
  apply (get_log_after_save Sample.no_json Sample.blob_service "r-1" Sample.record1
           (Py.set Sample.record1 "logged_at" (Py.Str "2024-01-15T10:00:01")) Sample.w0).
  - vm_compute. reflexivity.
  - reflexivity.
  - reflexivity.
Defined.

(** [get_log] never raises and never writes: it answers [None] without
    any remote call when the service has no client, and [None] when no
    blob is stored under the key or a remote call fails. *)
Theorem get_log_misses
    (json_loads : string -> exn + Py.val) (self : BlobStorage.BlobStorageService)
    (request_id date : string) (w : World) :
  (exists r, result_of (BlobStorage.get_log json_loads self request_id date) w = inr r)
  /\ only_steps (BlobStorage.get_log json_loads self request_id date)
  /\ (BlobStorage.has_client self = false ->
      BlobStorage.get_log json_loads self request_id date w = (inr None, w))
  /\ (blobs w !! (BlobStorage.container_name self,
                  "logs/" ++ date ++ "/" ++ request_id ++ ".json") = None ->
      result_of (BlobStorage.get_log json_loads self request_id date) w = inr None)
  /\ (faults (env w) (step w) <> None ->
      result_of (BlobStorage.get_log json_loads self request_id date) w = inr None).
Proof.
  destruct (BlobStorage.has_client self) eqn:Hc.
  - split; [|split; [|split; [discriminate|split]]].
    + unfold result_of. rewrite (get_log_run _ _ _ _ _ Hc). cbv zeta.
      repeat match goal with
             | |- context [match ?x with _ => _ end] => destruct x
             end; eexists; reflexivity.
    + intros w0. rewrite (get_log_run _ _ _ _ _ Hc). cbv zeta.
      repeat match goal with
             | |- context [match ?x with _ => _ end] => destruct x
             end; repeat split.
    + intros Hnone. unfold result_of. rewrite (get_log_run _ _ _ _ _ Hc). cbv zeta.
      rewrite Hnone. destruct (faults (env w) (step w)); reflexivity.
    + intros Hfault. unfold result_of. rewrite (get_log_run _ _ _ _ _ Hc). cbv zeta.
      destruct (faults (env w) (step w)); [reflexivity | congruence].
  - unfold result_of, BlobStorage.get_log. rewrite Hc. cbn [negb].
    split; [eexists; reflexivity|]. split; [apply only_steps_ret|]. repeat split.
Qed.

Lemma get_log_misses_witness :
  BlobStorage.get_log Sample.no_json (BlobStorage.mkBlobStorageService false "ai-api-logs")
                      "r-1" "20240115" Sample.w0 = (inr None, Sample.w0)
  /\ result_of (BlobStorage.get_log Sample.no_json Sample.blob_service "r-1" "20240115")
               Sample.w0 = inr None.
Proof.
  split.
  - apply (get_log_misses Sample.no_json (BlobStorage.mkBlobStorageService false "ai-api-logs")
             "r-1" "20240115" Sample.w0). reflexivity.
  - destruct (get_log_misses Sample.no_json Sample.blob_service "r-1" "20240115" Sample.w0)
      as (_ & _ & _ & Habsent & _).
    apply Habsent. reflexivity.
Defined.

Lemma append_cons (c : ascii) (a b : string) : String c a ++ b = String c (a ++ b).
Proof. reflexivity. Qed.

Lemma append_empty (b : string) : EmptyString ++ b = b.
Proof. reflexivity. Qed.

Lemma append_same_length (a b x y : string) :
  String.length a = String.length b -> a ++ x = b ++ y -> a = b /\ x = y.
Proof.
  revert b. induction a as [|c a IH]; intros [|c' b] Hlen H;
    rewrite ?append_cons, ?append_empty in H; cbn [String.length] in Hlen;
    try discriminate.
  - split; [reflexivity | exact H].
  - injection Hlen as Hlen. injection H as -> H.
    destruct (IH b Hlen H) as [-> ->]. split; reflexivity.
Qed.

Lemma length_append (a b : string) :
  String.length (a ++ b) = (String.length a + String.length b)%nat.
Proof.
  induction a as [|c a IH]; rewrite ?append_cons, ?append_empty;
    cbn [String.length plus]; [reflexivity | f_equal; exact IH].
Qed.

Lemma append_same_suffix (a b s : string) : a ++ s = b ++ s -> a = b.
Proof.
  intros H. apply (append_same_length a b s s); [|exact H].
  apply (f_equal String.length) in H. rewrite !length_append in H. lia.
Qed.

Lemma zero_pad_length_4 (n : nat) : (n < 100 * 100)%nat -> String.length (zero_pad 4 n) = 4%nat.
Proof.
  intros Hn.
  assert (H : forallb (fun k => Nat.eqb (String.length (zero_pad 4 k)) 4) (seq 0 (100 * 100)) = true)
    by (vm_compute; reflexivity).
  rewrite forallb_forall in H. apply Nat.eqb_eq, H, in_seq. lia.
Qed.

Lemma zero_pad_length_2 (n : nat) : (n < 100)%nat -> String.length (zero_pad 2 n) = 2%nat.
Proof.
  intros Hn.
  assert (H : forallb (fun k => Nat.eqb (String.length (zero_pad 2 k)) 2) (seq 0 100) = true)
    by (vm_compute; reflexivity).
  rewrite forallb_forall in H. apply Nat.eqb_eq, H, in_seq. lia.
Qed.

Lemma strftime_Ymd_length (dt : DateTime) :
  (year dt < 100 * 100)%nat -> (month dt <= 12)%nat -> (day dt <= 31)%nat ->
  String.length (strftime_Ymd dt) = 8%nat.
Proof.
  intros Hy Hm Hd. unfold strftime_Ymd. rewrite !length_append.
  rewrite zero_pad_length_4 by exact Hy. rewrite !zero_pad_length_2 by lia. reflexivity.
Qed.

(** Two request logs fall under the same blob key only if they carry
    the same request id and were written on the same date: logs of
    different requests never overwrite each other. *)
Theorem log_blob_names_collide_only_for_one_request
    (d1 d2 : DateTime) (request_id1 request_id2 : string) :
  (year d1 < 100 * 100)%nat -> (month d1 <= 12)%nat -> (day d1 <= 31)%nat ->
  (year d2 < 100 * 100)%nat -> (month d2 <= 12)%nat -> (day d2 <= 31)%nat ->
  BlobStorage.log_blob_name (strftime_Ymd d1) request_id1
  = BlobStorage.log_blob_name (strftime_Ymd d2) request_id2 ->
  request_id1 = request_id2 /\ strftime_Ymd d1 = strftime_Ymd d2.
Proof.
  intros Hy1 Hm1 Hd1 Hy2 Hm2 Hd2 H. unfold BlobStorage.log_blob_name in H.
  rewrite !append_cons, !append_empty in H. injection H as H.
  apply append_same_length in H;
    [|now rewrite !strftime_Ymd_length].
  destruct H as [Hdate H]. injection H as H.
  apply append_same_suffix in H. split; assumption.
Qed.

Lemma log_blob_names_collide_only_for_one_request_witness :
  BlobStorage.log_blob_name (strftime_Ymd (mkDateTime 2024 1 15 10 0 0 0)) "r-1"
  = BlobStorage.log_blob_name (strftime_Ymd (mkDateTime 2024 1 15 23 59 59 0)) "r-1"
  /\ "r-1" = "r-1".
Proof.
  split; [reflexivity|].
  apply (log_blob_names_collide_only_for_one_request
           (mkDateTime 2024 1 15 10 0 0 0) (mkDateTime 2024 1 15 23 59 59 0) "r-1" "r-1");
    cbn; try lia. reflexivity.
Defined.

(** [save_input_file] never raises.  It returns the URL of the blob
    exactly when the service has a client and the upload succeeds, the
    blob then holding the file bytes under
    [inputs/<YYYYMMDD_HHMMSS>_<file_name>]; otherwise it returns [None]
    and leaves the container alone; and it never touches a request
    log. *)
Theorem save_input_file_outcomes
    (blob_url : string -> string -> string) (self : BlobStorage.BlobStorageService)
    (file_name file_content ctype : string) (w : World) :
  let blob_name :=
    BlobStorage.input_blob_name (strftime_Ymd_HMS (utc (next_instant w))) file_name in
  let uploaded :=
    BlobStorage.has_client self
    && match faults (env w) (S (step w)) with None => true | Some _ => false end in
  exists w',
    BlobStorage.save_input_file blob_url self file_name file_content ctype w
    = (inr (if uploaded then Some (blob_url (BlobStorage.container_name self) blob_name)
            else None), w')
    /\ (uploaded = true ->
        blobs w' !! (BlobStorage.container_name self, blob_name)
        = Some (mkBlob (Bytes file_content) ctype))
    /\ (uploaded = false -> blobs w' = blobs w)
    /\ (forall container date request_id,
           blobs w' !! (container, BlobStorage.log_blob_name date request_id)
           = blobs w !! (container, BlobStorage.log_blob_name date request_id))
    /\ USERS_DB w' = USERS_DB w /\ tasks w' = tasks w.
Proof.
  cbv zeta. unfold BlobStorage.save_input_file, next_instant.
  destruct (BlobStorage.has_client self); cbn [negb andb].
  - unfold try_except, bind, utcnow, BlobStorage.upload_blob, bind, observe, ret, raise.
    cbn [env step with_step fst snd].
    destruct (faults (env w) (S (step w))) as [msg|].
    + eexists. split; [reflexivity|]. split; [discriminate|]. repeat split.
    + unfold with_step; cbn [env step blobs USERS_DB tasks].
      match goal with
      | |- context [blobs w !! ?k] => destruct (blobs w !! k)
      end;
        (eexists; split; [reflexivity|]; cbn [blobs with_blobs USERS_DB tasks];
         split; [intros _; apply lookup_insert_eq|];
         split; [discriminate|];
         split; [|split; reflexivity];
         intros container date request_id; apply lookup_insert_ne;
         unfold BlobStorage.input_blob_name, BlobStorage.log_blob_name;
         rewrite !append_cons; congruence).
  - eexists. split; [reflexivity|]. split; [discriminate|]. repeat split.
Qed.

(** ** The credential store, over several calls *)

Lemma in_set {V} (d : Py.dict V) (k k' : string) (v u : V) :
  In (k', u) (Py.set d k v) -> (k' = k /\ u = v) \/ In (k', u) d.
Proof.
  induction d as [|[k0 v0] d IH]; cbn.
  - intros [E | []]. injection E as Hk Hv. left. split; congruence.
  - destruct (String.eqb k0 k) eqn:E; cbn.
    + apply String.eqb_eq in E. subst k0.
      intros [H | H]; [injection H as Hk Hv; left; split; congruence | right; right; exact H].
    + intros [H | H]; [right; left; exact H|].
      destruct (IH H) as [Hl | Hr]; [left; exact Hl | right; right; exact Hr].
Qed.

Lemma in_values_set {V} (d : Py.dict V) (k : string) (v u : V) :
  In u (Py.values (Py.set d k v)) -> u = v \/ In u (Py.values d).
Proof.
  unfold Py.values. rewrite !in_map_iff. intros (x & Hx & Hin).
  destruct x as [k' u']. cbn [snd] in Hx. subst u'.
  destruct (in_set _ _ _ _ _ Hin) as [[_ Hv] | Hd]; [left; exact Hv|].
  right. exists (k', u). split; [reflexivity | exact Hd].
Qed.

Lemma in_keys_set {V} (d : Py.dict V) (k k' : string) (v : V) :
  In k' (Py.keys (Py.set d k v)) -> k' = k \/ In k' (Py.keys d).
Proof.
  unfold Py.keys. rewrite !in_map_iff. intros (x & Hx & Hin).
  destruct x as [k0 u]. cbn [fst] in Hx. subst k0.
  destruct (in_set _ _ _ _ _ Hin) as [[Hk _] | Hd]; [left; exact Hk|].
  right. exists (k', u). split; [reflexivity | exact Hd].
Qed.

Lemma set_stores {V} (d : Py.dict V) (k : string) (v : V) : In (k, v) (Py.set d k v).
Proof.
  induction d as [|[k0 v0] d IH]; cbn; [left; reflexivity|].
  destruct (String.eqb k0 k) eqn:E.
  - apply String.eqb_eq in E. subst k0. left. reflexivity.
  - right. exact IH.
Qed.

Lemma nodup_keys_set {V} (d : Py.dict V) (k : string) (v : V) :
  List.NoDup (Py.keys d) -> List.NoDup (Py.keys (Py.set d k v)).
Proof.
  induction d as [|[k0 v0] d IH]; cbn.
  - intros _. constructor; [intros [] | constructor].
  - intros H. inversion H as [|? ? Hnotin Hnodup]; subst.
    destruct (String.eqb k0 k) eqn:E; cbn.
    + constructor; assumption.
    + constructor; [|apply IH; exact Hnodup].
      intros Hin. apply in_keys_set in Hin as [-> | Hin].
      * rewrite String.eqb_refl in E. discriminate.
      * exact (Hnotin Hin).
Qed.

Lemma nodup_field_set (field : UserRecord -> string) (d : Py.dict UserRecord)
    (k : string) (v : UserRecord) :
  List.NoDup (map field (Py.values d)) ->
  ~ In (field v) (map field (Py.values d)) ->
  List.NoDup (map field (Py.values (Py.set d k v))).
Proof.
  induction d as [|[k0 v0] d IH]; cbn.
  - intros _ _. constructor; [intros [] | constructor].
  - intros H Hnew. inversion H as [|? ? Hnotin Hnodup]; subst.
    assert (Hrest : ~ In (field v) (map field (Py.values d)))
      by (intros Hx; apply Hnew; right; exact Hx).
    destruct (String.eqb k0 k); cbn.
    + constructor; [exact Hrest | exact Hnodup].
    + constructor; [|apply IH; [exact Hnodup | exact Hrest]].
      intros Hin. apply in_map_iff in Hin as (u & Hu & Hin).
      apply in_values_set in Hin as [Huv | Hin].
      * apply Hnew. left. congruence.
      * apply Hnotin. rewrite <- Hu. now apply in_map.
Qed.

Lemma field_taken_in (field : UserRecord -> string) (db : list UserRecord) (x : string) :
  Py.any (fun u => String.eqb (field u) x) db = false -> ~ In x (map field db).
Proof.
  intros H Hin. apply in_map_iff in Hin as (u & Hu & Hin).
  assert (Ht : Py.any (fun u => String.eqb (field u) x) db = true).
  { unfold Py.any. apply existsb_exists. exists u. split; [exact Hin|].
    now apply String.eqb_eq. }
  congruence.
Qed.

(** The three ways a call of [register] can go. *)
Lemma register_cases (get_password_hash : N -> string -> string)
    (user_data : Auth.UserCreate) (w : World) :
  Auth.register get_password_hash user_data w = (inl duplicate_username, w)
  \/ Auth.register get_password_hash user_data w = (inl duplicate_email, w)
  \/ (~ In (Auth.new_username user_data) (map username (Py.values (USERS_DB w)))
      /\ ~ In (Auth.new_email user_data) (map email (Py.values (USERS_DB w)))
      /\ Auth.register get_password_hash user_data w
         = (inr (Auth.user_view (new_record get_password_hash user_data w)),
            with_USERS_DB
              (Py.set (USERS_DB w) (uuids (env w) (step w))
                      (new_record get_password_hash user_data w))
              (with_step (S (S (S (step w)))) w))).
Proof.
  unfold Auth.register, bind, get_USERS_DB, raise. cbn [fst snd].
  destruct (Py.any (fun u => String.eqb (username u) (Auth.new_username user_data))
                   (Py.values (USERS_DB w))) eqn:En; [left; reflexivity|].
  destruct (Py.any (fun u => String.eqb (email u) (Auth.new_email user_data))
                   (Py.values (USERS_DB w))) eqn:Ee; [right; left; reflexivity|].
  right. right. split; [now apply field_taken_in|]. split; [now apply field_taken_in|].
  reflexivity.
Qed.

(** [register] keeps the credential store sound, whatever it is asked
    and whatever id [uuid4] hands out: every record stays under its own
    id, ids, usernames and emails stay pairwise distinct, and if all
    stored users were active they still are. *)
Theorem register_keeps_store_ok (get_password_hash : N -> string -> string)
    (user_data : Auth.UserCreate) (w : World) :
  let w' := world_after (Auth.register get_password_hash user_data) w in
  (store_ok (USERS_DB w) -> store_ok (USERS_DB w'))
  /\ ((forall u, In u (Py.values (USERS_DB w)) -> is_active u = true) ->
      forall u, In u (Py.values (USERS_DB w')) -> is_active u = true)
  /\ blobs w' = blobs w /\ tasks w' = tasks w /\ env w' = env w.
Proof.
  cbv zeta. unfold world_after.
  destruct (register_cases get_password_hash user_data w) as [-> | [-> | (Hn & He & ->)]];
    cbn [snd];
    [split; [exact (fun H => H) | split; [exact (fun H => H) | repeat split]] ..|].
  cbn [env step USERS_DB with_step with_USERS_DB blobs tasks].
  split; [|split; [|repeat split]].
  - intros (Hkeys & Hids & Hnames & Hemails). split; [|split; [|split]].
    + now apply nodup_keys_set.
    + intros k u Hin. apply in_set in Hin as [[Hk Hu] | Hin]; [subst; reflexivity|].
      now apply Hids.
    + apply nodup_field_set; [exact Hnames | exact Hn].
    + apply nodup_field_set; [exact Hemails | exact He].
  - intros Hactive u Hin. apply in_values_set in Hin as [Hu | Hin]; [subst; reflexivity|].
    now apply Hactive.
Qed.

Lemma register_keeps_store_ok_witness :
  store_ok (USERS_DB (world_after (Auth.register Sample.toy_hash
                                     (Auth.mkUserCreate "bob" "bob@x.com" None "secret2"))
                                  Sample.w_alice)).
Proof.
  apply (register_keeps_store_ok Sample.toy_hash
           (Auth.mkUserCreate "bob" "bob@x.com" None "secret2") Sample.w_alice).
  cbn. repeat split; try (repeat constructor; cbn; intuition discriminate).
  intros k u [E | []]. injection E as <- <-. reflexivity.
Defined.

Lemma in_values_of_in {V} (d : Py.dict V) (k : string) (v : V) :
  In (k, v) d -> In v (Py.values d).
Proof. intros H. unfold Py.values. apply in_map_iff. exists (k, v). split; trivial. Qed.

Lemma not_taken_in (w : World) (name : string) :
  ~ username_taken w name -> ~ In name (map username (Py.values (USERS_DB w))).
Proof.
  intros H Hin. apply in_map_iff in Hin as (u & Hu & Hin). apply H. exists u. tauto.
Qed.

(** After a successful registration, a second request with the same
    username is refused as a duplicate username, and one with another,
    unused username but the same email as a duplicate email. *)
Theorem register_twice (get_password_hash : N -> string -> string)
    (first second : Auth.UserCreate) (w : World) :
  let w1 := world_after (Auth.register get_password_hash first) w in
  ~ username_taken w (Auth.new_username first) ->
  ~ email_taken w (Auth.new_email first) ->
  (Auth.new_username second = Auth.new_username first ->
   Auth.register get_password_hash second w1 = (inl duplicate_username, w1))
  /\ (~ username_taken w1 (Auth.new_username second) ->
      Auth.new_email second = Auth.new_email first ->
      Auth.register get_password_hash second w1 = (inl duplicate_email, w1)).
Proof.
  cbv zeta. intros Hn He. unfold world_after.
  rewrite (register_success get_password_hash first w Hn He). cbn [snd].
  set (w1 := with_USERS_DB _ _).
  assert (Hin : In (new_record get_password_hash first w) (Py.values (USERS_DB w1))).
  { apply (in_values_of_in _ (uuids (env w) (step w))). apply set_stores. }
  split.
  - intros Hsame. apply register_duplicate_username.
    exists (new_record get_password_hash first w). split; [exact Hin|]. now rewrite Hsame.
  - intros Hfree Hsame. apply register_duplicate_email; [exact Hfree|].
    exists (new_record get_password_hash first w). split; [exact Hin|]. now rewrite Hsame.
Qed.

Lemma register_twice_witness :
  let w1 := world_after (Auth.register Sample.toy_hash
                           (Auth.mkUserCreate "alice" "alice@x.com" None "secret1"))
                        Sample.w0 in
  Auth.register Sample.toy_hash (Auth.mkUserCreate "alice" "other@x.com" None "secret9") w1
  = (inl duplicate_username, w1).
Proof.
  cbv zeta.
  apply (register_twice Sample.toy_hash
           (Auth.mkUserCreate "alice" "alice@x.com" None "secret1")
           (Auth.mkUserCreate "alice" "other@x.com" None "secret9") Sample.w0).
  - apply nobody_in_empty_store.
  - apply no_email_in_empty_store.
  - reflexivity.
Defined.

Lemma find_in_set (p : UserRecord -> bool) (d : Py.dict UserRecord) (k : string)
    (v : UserRecord) :
  (forall u, In u (Py.values d) -> p u = false) -> p v = true ->
  List.find p (Py.values (Py.set d k v)) = Some v.
Proof.
  intros Hd Hv. induction d as [|[k0 v0] d IH]; cbn.
  - now rewrite Hv.
  - assert (H0 : p v0 = false) by (apply Hd; left; reflexivity).
    assert (Hrest : forall u, In u (Py.values d) -> p u = false)
      by (intros u Hu; apply Hd; right; exact Hu).
    destruct (String.eqb k0 k); cbn.
    + now rewrite Hv.
    + rewrite H0. exact (IH Hrest).
Qed.

(** Registration, login and identification compose.  In a store where
    the username and the email are free, with a hasher whose hashes
    verify against their passwords and a codec that decodes the issued
    token to claims with the same subject and user id: the registered
    user logs in with the same credentials and gets a bearer token that
    expires after the configured minutes, and [identify] on that token
    returns the very user view that [register] returned. *)
Theorem register_login_identify
    (settings : Settings) (get_password_hash : N -> string -> string)
    (verify_password : string -> string -> bool)
    (verify_token : DateTime -> string -> option Auth.Claims)
    (create_access_token : Auth.Claims -> nat -> DateTime -> string)
    (user_data : Auth.UserCreate) (w : World) :
  let credentials :=
    Auth.mkUserLogin (Auth.new_username user_data) (Auth.new_password user_data) in
  let user := new_record get_password_hash user_data w in
  let w1 := world_after (Auth.register get_password_hash user_data) w in
  let token :=
    create_access_token
      [ ("sub", Some (username user)); ("user_id", Some (id user));
        ("email", Some (email user)); ("full_name", full_name user) ]
      (JWT_ACCESS_TOKEN_EXPIRE_MINUTES settings) (utc (next_instant w1)) in
  let w2 := world_after (Auth.login settings verify_password create_access_token credentials)
                        w1 in
  ~ username_taken w (Auth.new_username user_data) ->
  ~ email_taken w (Auth.new_email user_data) ->
  (forall salt password,
      verify_password password (get_password_hash salt password) = true) ->
  (exists payload,
      verify_token (utc (next_instant w2)) token = Some payload
      /\ Auth.claim payload "sub" = Some (username user)
      /\ Auth.claim payload "user_id" = Some (id user)) ->
  result_of (Auth.login settings verify_password create_access_token credentials) w1
  = inr (Auth.mkToken token "bearer" (JWT_ACCESS_TOKEN_EXPIRE_MINUTES settings * 60))
  /\ result_of (Auth.identify verify_token token) w2
     = result_of (Auth.register get_password_hash user_data) w.
Proof.
  cbv zeta. intros Hn He Hhash.
  unfold world_after, result_of.
  rewrite (register_success get_password_hash user_data w Hn He). cbn [fst snd].
  set (user := new_record get_password_hash user_data w).
  set (w1 := with_USERS_DB _ _).
  assert (Hfind : Py.next (fun u => String.eqb (username u) (Auth.new_username user_data))
                          (Py.values (USERS_DB w1)) = Some user).
  { unfold Py.next, w1. cbn [USERS_DB with_USERS_DB]. apply find_in_set.
    - intros u Hu. apply String.eqb_neq. intros Heq. apply Hn. exists u. tauto.
    - apply String.eqb_refl. }
  assert (Hlogin :
            Auth.login settings verify_password create_access_token
              (Auth.mkUserLogin (Auth.new_username user_data) (Auth.new_password user_data))
              w1
            = (inr (Auth.mkToken
                      (create_access_token
                         [ ("sub", Some (username user)); ("user_id", Some (id user));
                           ("email", Some (email user)); ("full_name", full_name user) ]
                         (JWT_ACCESS_TOKEN_EXPIRE_MINUTES settings) (utc (next_instant w1)))
                      "bearer" (JWT_ACCESS_TOKEN_EXPIRE_MINUTES settings * 60)),
               with_step (S (step w1)) w1)).
  { unfold Auth.login, bind, get_USERS_DB, raise, utcnow, observe, ret.
    cbn [fst snd Auth.login_username Auth.login_password]. rewrite Hfind.
    change (hashed_password user)
      with (get_password_hash (entropy (env w) (S (step w))) (Auth.new_password user_data)).
    rewrite Hhash. reflexivity. }
  rewrite Hlogin. cbn [fst snd]. intros (payload & Hdecode & Hsub & Hid).
  split; [reflexivity|].
  unfold Auth.identify, Auth.get_current_user, Auth.get_current_active_user,
    Auth.get_current_user_info, bind, utcnow, observe, get_USERS_DB, raise, ret.
  cbn [fst snd env step with_step USERS_DB].
  unfold next_instant in *. cbn [env step with_step] in Hdecode.
  rewrite Hdecode, Hsub, Hid. cbn [fst snd Auth.cu_user_id].
  unfold with_step; cbn [USERS_DB].
  change (USERS_DB w1) with (Py.set (USERS_DB w) (uuids (env w) (step w)) user).
  change (id user) with (uuids (env w) (step w)). rewrite get_set_eq. reflexivity.
Qed.

Lemma register_login_identify_witness :
  let w1 := world_after (Auth.register Sample.toy_hash
                           (Auth.mkUserCreate "alice" "alice@x.com" None "secret1"))
                        Sample.w0 in
  let w2 := world_after (Auth.login Sample.production Sample.toy_verify Sample.toy_encode
                           (Auth.mkUserLogin "alice" "secret1")) w1 in
  result_of (Auth.identify Sample.toy_decode "token-for-uuid-0") w2
  = inr (Auth.mkUser "uuid-0" "alice" "alice@x.com" None true
                     (mkDateTime 2024 1 15 10 0 2 0)).
Proof.
  cbv zeta.
  apply (register_login_identify Sample.production Sample.toy_hash Sample.toy_verify
           Sample.toy_decode Sample.toy_encode
           (Auth.mkUserCreate "alice" "alice@x.com" None "secret1") Sample.w0).
  - apply nobody_in_empty_store.
  - apply no_email_in_empty_store.
  - intros salt password. unfold Sample.toy_verify, Sample.toy_hash. apply String.eqb_refl.
  - exists [ ("sub", Some "alice"); ("user_id", Some "uuid-0") ]. repeat split.
Defined.

(** [login] and [identify] only read: they never write to the
    credential store, the blob container or the task list.  For the
    user [login] finds under the username: a password that verifies on
    an inactive account is answered 400 "Inactive user", a password
    that does not verify is answered 401 even though the account is
    inactive, and on an active account the token issued is a bearer
    token stamped with the current time, the only effect being that
    one clock reading. *)
Theorem login_outcomes
    (settings : Settings) (verify_password : string -> string -> bool)
    (verify_token : DateTime -> string -> option Auth.Claims)
    (create_access_token : Auth.Claims -> nat -> DateTime -> string)
    (login_data : Auth.UserLogin) (token : string) (user : UserRecord) (w : World) :
  let attempt := Auth.login settings verify_password create_access_token login_data in
  Py.next (fun u => String.eqb (username u) (Auth.login_username login_data))
          (Py.values (USERS_DB w)) = Some user ->
  (only_steps attempt /\ only_steps (Auth.identify verify_token token))
  /\ (verify_password (Auth.login_password login_data) (hashed_password user) = false ->
      attempt w = (inl invalid_credentials, w))
  /\ (verify_password (Auth.login_password login_data) (hashed_password user) = true ->
      is_active user = false ->
      attempt w = (inl (HTTPException 400 "Inactive user" []), w))
  /\ (verify_password (Auth.login_password login_data) (hashed_password user) = true ->
      is_active user = true ->
      attempt w
      = (inr (Auth.mkToken
                (create_access_token
                   [ ("sub", Some (username user)); ("user_id", Some (id user));
                     ("email", Some (email user)); ("full_name", full_name user) ]
                   (JWT_ACCESS_TOKEN_EXPIRE_MINUTES settings) (utc (next_instant w)))
                "bearer" (JWT_ACCESS_TOKEN_EXPIRE_MINUTES settings * 60)),
         with_step (S (step w)) w)).
Proof.
  cbv zeta. intros Hfind. split; [split|].
  - unfold Auth.login, utcnow. only_steps.
  - unfold Auth.identify, Auth.get_current_user, Auth.get_current_active_user,
      Auth.get_current_user_info, utcnow. only_steps.
  - unfold Auth.login, bind, get_USERS_DB, raise, utcnow, observe, ret, next_instant.
    cbn [fst snd]. rewrite Hfind.
    split; [intros ->; reflexivity|].
    split; intros -> ->; reflexivity.
Qed.

Lemma login_outcomes_witness :
  let banned := mkUserRecord "uuid-7" "carol" "carol@x.com" None "toy$secret3" false
                             (mkDateTime 2024 1 14 9 30 0 0) in
  let w := mkWorld Sample.env0 0 [("uuid-7", banned)] ∅ [] in
  Auth.login Sample.production Sample.toy_verify Sample.toy_encode
             (Auth.mkUserLogin "carol" "secret3") w
  = (inl (HTTPException 400 "Inactive user" []), w)
  /\ Auth.login Sample.production Sample.toy_verify Sample.toy_encode
                (Auth.mkUserLogin "carol" "guess") w
     = (inl invalid_credentials, w).
Proof.
  cbv zeta. split.
  - apply (login_outcomes Sample.production Sample.toy_verify Sample.toy_decode
             Sample.toy_encode (Auth.mkUserLogin "carol" "secret3") "token"
             (mkUserRecord "uuid-7" "carol" "carol@x.com" None "toy$secret3" false
                           (mkDateTime 2024 1 14 9 30 0 0))); reflexivity.
  - apply (login_outcomes Sample.production Sample.toy_verify Sample.toy_decode
             Sample.toy_encode (Auth.mkUserLogin "carol" "guess") "token"
             (mkUserRecord "uuid-7" "carol" "carol@x.com" None "toy$secret3" false
                           (mkDateTime 2024 1 14 9 30 0 0))); reflexivity.
Defined.

(** ** The text routes, end to end *)

Lemma keeps_stores_of_only_steps {A} (c : M A) : only_steps c -> keeps_stores c.
Proof. intros H w. destruct (H w) as (He & Hu & Hb & _). tauto. Qed.

Lemma keeps_stores_bind {A B} (c : M A) (k : A -> M B) :
  keeps_stores c -> (forall a, keeps_stores (k a)) -> keeps_stores (bind c k).
Proof.
  intros Hc Hk w. unfold bind. specialize (Hc w).
  destruct (c w) as [[e|a] w1]; cbn [snd] in *; [exact Hc|].
  specialize (Hk a w1). destruct Hc as (-> & -> & ->) in Hk. tauto.
Qed.

Lemma keeps_stores_try_except {A} (body : M A) (handler : exn -> M A) :
  keeps_stores body -> (forall e, keeps_stores (handler e)) ->
  keeps_stores (try_except body handler).
Proof.
  intros Hc Hk w. unfold try_except. specialize (Hc w).
  destruct (body w) as [[e|a] w1]; cbn [snd] in *; [|exact Hc].
  specialize (Hk e w1). destruct Hc as (-> & -> & ->) in Hk. tauto.
Qed.

Lemma keeps_stores_add_task (t : BackgroundTask) : keeps_stores (AIEndpoints.add_task t).
Proof. intros w. repeat split. Qed.

Lemma only_steps_as_float_items (model : string) (items : list (string * Py.val)) :
  only_steps (Schemas.as_float_items model items).
Proof.
  induction items as [|[k v] items IH]; cbn [Schemas.as_float_items].
  - apply only_steps_ret.
  - unfold Schemas.as_float, Schemas.validation_error. only_steps. exact IH.
Qed.

Ltac keeps_stores :=
  repeat first
    [ apply keeps_stores_add_task
    | apply keeps_stores_of_only_steps;
      solve [ apply analyze_sentiment_only_steps | apply classify_text_only_steps
            | apply chat_completion_only_steps
            | unfold getitem, Schemas.as_str, Schemas.as_float, Schemas.as_int,
                Schemas.as_float_dict, Schemas.validation_error,
                AIEndpoints.log_event_to_insights, uuid4;
              only_steps; apply only_steps_as_float_items ]
    | apply keeps_stores_bind; [|intros ?]
    | apply keeps_stores_try_except; [|intros ?] ].

Lemma text_routes_keep_stores (settings : Settings) (json_loads : string -> exn + Py.val)
    (ai_service : AIService.AzureAIService) :
  (forall request,
      keeps_stores (AIEndpoints.analyze_sentiment settings json_loads ai_service request))
  /\ (forall request,
         keeps_stores (AIEndpoints.classify_text settings json_loads ai_service request))
  /\ (forall request,
         keeps_stores (AIEndpoints.chat_completion settings ai_service request)).
Proof.
  split; [|split]; intros request;
    unfold AIEndpoints.analyze_sentiment, AIEndpoints.classify_text,
      AIEndpoints.chat_completion, AIEndpoints.sentiment_body,
      AIEndpoints.classification_body, AIEndpoints.chat_body;
    keeps_stores.
Qed.

Lemma serve_failure_frame {A} (settings : Settings)
    (blob_service : BlobStorage.BlobStorageService) (to_dict : A -> Py.dict Py.val)
    (route : M A) (w : World) :
  keeps_stores route ->
  App.status_code (fst (App.serve settings blob_service to_dict route w)) <> 200%nat ->
  blobs (snd (App.serve settings blob_service to_dict route w)) = blobs w
  /\ USERS_DB (snd (App.serve settings blob_service to_dict route w)) = USERS_DB w.
Proof.
  intros Hroute. unfold App.serve. specialize (Hroute (with_tasks [] w)).
  destruct (route (with_tasks [] w)) as [[e|a] w']; cbn [snd] in Hroute.
  - destruct Hroute as (_ & Hu & Hb). intros _.
    destruct e; cbn [fst snd blobs USERS_DB tasks with_tasks];
      rewrite Hu, Hb; repeat split.
  - cbn [fst App.status_code]. congruence.
Qed.

Lemma schedules_bind {A B} (task_of : B -> BackgroundTask) (c : M A) (k : A -> M B) :
  only_steps c -> (forall a, schedules task_of (k a)) -> schedules task_of (bind c k).
Proof.
  intros Hc Hk w. unfold bind. specialize (Hc w).
  destruct (c w) as [[e|a] w1]; cbn [fst snd] in *; [tauto|].
  specialize (Hk a w1). destruct Hc as (_ & -> & -> & ->) in Hk. exact Hk.
Qed.

Lemma schedules_add_task {A} (task_of : A -> BackgroundTask) (t : BackgroundTask) (a : A) :
  task_of a = t -> schedules task_of (AIEndpoints.add_task t ;;; ret a).
Proof. intros <- w. repeat split. Qed.

Lemma schedules_try_raise {A} (task_of : A -> BackgroundTask) (body : M A)
    (translate : exn -> exn) :
  schedules task_of body ->
  schedules task_of (try_except body (fun e => raise (translate e))).
Proof.
  intros Hbody w. unfold try_except, raise. specialize (Hbody w).
  destruct (body w) as [[e|a] w1]; cbn [fst snd] in *; exact Hbody.
Qed.

Ltac schedules :=
  repeat match goal with
    | |- schedules _ (try_except _ _) => apply schedules_try_raise
    | |- schedules _ (bind (AIEndpoints.add_task _) _) =>
        apply schedules_add_task; reflexivity
    | |- schedules _ (bind _ _) =>
        apply schedules_bind;
        [ solve [ apply analyze_sentiment_only_steps | apply classify_text_only_steps
                | apply chat_completion_only_steps
                | unfold getitem, Schemas.as_str, Schemas.as_float, Schemas.as_int,
                    Schemas.as_float_dict, Schemas.validation_error,
                    AIEndpoints.log_event_to_insights, uuid4;
                  only_steps; apply only_steps_as_float_items ]
        | intros ? ]
    end.

(** Each text route schedules its log task last, after the response
    has been built, and only then. *)
Lemma text_routes_schedule (settings : Settings) (json_loads : string -> exn + Py.val)
    (ai_service : AIService.AzureAIService) :
  (forall request,
      schedules
        (fun response =>
           mkTask (Schemas.sa_request_id response) "sentiment_analysis"
                  (Schemas.sentiment_request_dict request)
                  (Schemas.sentiment_response_dict response))
        (AIEndpoints.analyze_sentiment settings json_loads ai_service request))
  /\ (forall request,
         schedules
           (fun response =>
              mkTask (Schemas.tc_request_id response) "text_classification"
                     (Schemas.classification_request_dict request)
                     (Schemas.classification_response_dict response))
           (AIEndpoints.classify_text settings json_loads ai_service request))
  /\ (forall request,
         schedules
           (fun response =>
              mkTask (Schemas.oa_request_id response) "chat_completion"
                     (Schemas.chat_request_dict request)
                     (Schemas.chat_response_dict response))
           (AIEndpoints.chat_completion settings ai_service request)).
Proof.
  split; [|split]; intros request;
    unfold AIEndpoints.analyze_sentiment, AIEndpoints.classify_text,
      AIEndpoints.chat_completion, AIEndpoints.sentiment_body,
      AIEndpoints.classification_body, AIEndpoints.chat_body;
    cbv zeta; schedules.
Qed.

Lemma route_outcomes {A} (settings : Settings)
    (blob_service : BlobStorage.BlobStorageService) (to_dict : A -> Py.dict Py.val)
    (task_of : A -> BackgroundTask) (route : M A) (w : World) :
  schedules task_of route -> keeps_stores route ->
  (forall e,
      result_of route w = inl e ->
      tasks (world_after route w) = tasks w
      /\ blobs (world_after route w) = blobs w
      /\ USERS_DB (world_after route w) = USERS_DB w)
  /\ (forall response,
         result_of route w = inr response ->
         tasks (world_after route w) = (tasks w ++ [task_of response])%list)
  /\ (App.status_code (fst (App.serve settings blob_service to_dict route w)) <> 200%nat ->
      blobs (snd (App.serve settings blob_service to_dict route w)) = blobs w
      /\ USERS_DB (snd (App.serve settings blob_service to_dict route w)) = USERS_DB w).
Proof.
  intros Hs Hk. unfold result_of, world_after.
  destruct (Hs w) as (Hu & Hb & Ht).
  split; [|split].
  - intros e He. rewrite He in Ht. tauto.
  - intros response Hr. rewrite Hr in Ht. exact Ht.
  - now apply serve_failure_frame.
Qed.

(** A text route that raises has written nothing and has scheduled
    nothing: the task list, the blob container and the credential
    store are as it found them.  A route that returns has scheduled
    exactly one task, the log of the request and of the very response
    it returns.  And a request that is not answered 200 leaves the
    blob container and the credential store as they were. *)
Theorem text_routes_write_nothing_on_failure
    (settings : Settings) (json_loads : string -> exn + Py.val)
    (blob_service : BlobStorage.BlobStorageService)
    (ai_service : AIService.AzureAIService) (w : World) :
  (forall request,
      let route := AIEndpoints.analyze_sentiment settings json_loads ai_service request in
      let served := App.serve settings blob_service Schemas.sentiment_response_dict route w in
      (forall e,
          result_of route w = inl e ->
          tasks (world_after route w) = tasks w
          /\ blobs (world_after route w) = blobs w
          /\ USERS_DB (world_after route w) = USERS_DB w)
      /\ (forall response,
             result_of route w = inr response ->
             tasks (world_after route w)
             = (tasks w ++ [mkTask (Schemas.sa_request_id response) "sentiment_analysis"
                                   (Schemas.sentiment_request_dict request)
                                   (Schemas.sentiment_response_dict response)])%list)
      /\ (App.status_code (fst served) <> 200%nat ->
          blobs (snd served) = blobs w /\ USERS_DB (snd served) = USERS_DB w))
  /\ (forall request,
         let route := AIEndpoints.classify_text settings json_loads ai_service request in
         let served :=
           App.serve settings blob_service Schemas.classification_response_dict route w in
         (forall e,
             result_of route w = inl e ->
             tasks (world_after route w) = tasks w
             /\ blobs (world_after route w) = blobs w
             /\ USERS_DB (world_after route w) = USERS_DB w)
         /\ (forall response,
                result_of route w = inr response ->
                tasks (world_after route w)
                = (tasks w ++ [mkTask (Schemas.tc_request_id response) "text_classification"
                                      (Schemas.classification_request_dict request)
                                      (Schemas.classification_response_dict response)])%list)
         /\ (App.status_code (fst served) <> 200%nat ->
             blobs (snd served) = blobs w /\ USERS_DB (snd served) = USERS_DB w))
  /\ (forall request,
         let route := AIEndpoints.chat_completion settings ai_service request in
         let served := App.serve settings blob_service Schemas.chat_response_dict route w in
         (forall e,
             result_of route w = inl e ->
             tasks (world_after route w) = tasks w
             /\ blobs (world_after route w) = blobs w
             /\ USERS_DB (world_after route w) = USERS_DB w)
         /\ (forall response,
                result_of route w = inr response ->
                tasks (world_after route w)
                = (tasks w ++ [mkTask (Schemas.oa_request_id response) "chat_completion"
                                      (Schemas.chat_request_dict request)
                                      (Schemas.chat_response_dict response)])%list)
         /\ (App.status_code (fst served) <> 200%nat ->
             blobs (snd served) = blobs w /\ USERS_DB (snd served) = USERS_DB w)).
Proof.
  destruct (text_routes_keep_stores settings json_loads ai_service) as (Hs & Hc & Hchat).
  destruct (text_routes_schedule settings json_loads ai_service) as (Ss & Sc & Schat).
  split; [|split]; intros request; cbv zeta.
  - exact (route_outcomes settings blob_service _ _ _ w (Ss request) (Hs request)).
  - exact (route_outcomes settings blob_service _ _ _ w (Sc request) (Hc request)).
  - exact (route_outcomes settings blob_service _ _ _ w (Schat request) (Hchat request)).
Qed.

Lemma text_routes_write_nothing_on_failure_witness :
  let route := AIEndpoints.chat_completion Sample.production
                 (AIService.mkAzureAIService (Some Sample.timing_out))
                 (Schemas.mkOpenAIRequest "Hello" 150 0.7) in
  let w := with_tasks [mkTask "r-0" "chat_completion" [] []] Sample.w0 in
  result_of route w = inl (HTTPException 500 "Request timed out." [])
  /\ tasks (world_after route w) = [mkTask "r-0" "chat_completion" [] []]
  /\ blobs (world_after route w) = blobs w.
Proof.
  cbv zeta. split; [reflexivity|].
  destruct (text_routes_write_nothing_on_failure Sample.production Sample.no_json
              Sample.blob_service (AIService.mkAzureAIService (Some Sample.timing_out))
              (with_tasks [mkTask "r-0" "chat_completion" [] []] Sample.w0))
    as (_ & _ & Hchat).
  destruct (Hchat (Schemas.mkOpenAIRequest "Hello" 150 0.7)) as (Hfail & _).
  destruct (Hfail (HTTPException 500 "Request timed out." []) eq_refl) as (Ht & Hb & _).
  split; [exact Ht | exact Hb].
Defined.

(** When the backend answers the sentiment request with a JSON object
    that has no [sentiment] key, the route answers 500 and its detail
    is the text of the [KeyError], the quoted key. *)
Theorem sentiment_route_missing_key
    (settings : Settings) (json_loads : string -> exn + Py.val)
    (blob_service : BlobStorage.BlobStorageService) (cl : AzureOpenAI)
    (request : Schemas.SentimentAnalysisRequest) (w : World)
    (c : string) (rest : list (option string)) (tokens : option Z) (d : Py.dict Py.val) :
  (forall r e n, cl r e n = inr (mkChatCompletion (Some c :: rest) tokens)) ->
  json_loads (Py.strip c) = inr (Py.Dict d) ->
  Py.get d "sentiment" = None ->
  fst (App.serve settings blob_service Schemas.sentiment_response_dict
         (AIEndpoints.analyze_sentiment settings json_loads
            (AIService.mkAzureAIService (Some cl)) request) w)
  = App.mkJSONResponse 500 [ ("detail", Py.Str "'sentiment'") ].
Proof.
  intros Hcl Hjson Hmissing.
  apply (guarded_route_error settings blob_service Schemas.sentiment_response_dict
           (AIEndpoints.sentiment_body settings json_loads
              (AIService.mkAzureAIService (Some cl)) request) w (Exception "'sentiment'")).
  unfold result_of, entered, AIEndpoints.sentiment_body, AIEndpoints.log_event_to_insights,
    AIService.analyze_sentiment, AIService.sentiment_delegation,
    AIService.stripped_content, create, first_content, setitem, getitem, time_time,
    bind, observe, try_except, lift, ret, raise.
  cbn [AIService.client env step with_step with_tasks fst snd].
  rewrite Hcl. cbn [choices fst snd]. rewrite Hjson. cbn [fst snd].
  rewrite get_set_ne by discriminate. rewrite Hmissing. reflexivity.
Qed.

Lemma sentiment_route_missing_key_witness :
  let backend : AzureOpenAI := fun _ _ _ => inr (mkChatCompletion [Some "{}"] None) in
  let parse : string -> exn + Py.val := fun _ => inr (Py.Dict []) in
  fst (App.serve Sample.production Sample.blob_service Schemas.sentiment_response_dict
         (AIEndpoints.analyze_sentiment Sample.production parse
            (AIService.mkAzureAIService (Some backend))
            (Schemas.mkSentimentAnalysisRequest "fine" (Some "en"))) Sample.w0)
  = App.mkJSONResponse 500 [ ("detail", Py.Str "'sentiment'") ].
Proof.
  cbv zeta.
  apply (sentiment_route_missing_key Sample.production (fun _ => inr (Py.Dict []))
           Sample.blob_service (fun _ _ _ => inr (mkChatCompletion [Some "{}"] None))
           (Schemas.mkSentimentAnalysisRequest "fine" (Some "en")) Sample.w0
           "{}" [] None []); reflexivity.
Defined.

Lemma mock_sentiment_shape (text : string) :
  exists label c p n u,
    AIService._mock_sentiment_analysis text
    = [ ("sentiment", Py.Str label); ("confidence", Py.Float c);
        ("scores", Py.Dict [ ("positive", Py.Float p); ("negative", Py.Float n);
                             ("neutral", Py.Float u) ]);
        ("processing_time", Py.Float 0.1) ].
Proof.
  unfold AIService._mock_sentiment_analysis. cbv zeta.
  destruct (Py.Qgtb _ _); [|destruct (Py.Qgtb _ _)]; do 5 eexists; reflexivity.
Qed.

Lemma sentiment_route_run (settings : Settings) (json_loads : string -> exn + Py.val)
    (request : Schemas.SentimentAnalysisRequest) (w : World)
    (label : string) (c p n u : Q) :
  AIService._mock_sentiment_analysis (Schemas.sentiment_text request)
  = [ ("sentiment", Py.Str label); ("confidence", Py.Float c);
      ("scores", Py.Dict [ ("positive", Py.Float p); ("negative", Py.Float n);
                           ("neutral", Py.Float u) ]);
      ("processing_time", Py.Float 0.1) ] ->
  let response :=
    Schemas.mkSentimentAnalysisResponse (Schemas.sentiment_text request) label c
      [ ("positive", p); ("negative", n); ("neutral", u) ] 0.1 (uuids (env w) (step w)) in
  AIEndpoints.analyze_sentiment settings json_loads (AIService.mkAzureAIService None) request w
  = (inr response,
     with_tasks (tasks w ++ [mkTask (uuids (env w) (step w)) "sentiment_analysis"
                               (Schemas.sentiment_request_dict request)
                               (Schemas.sentiment_response_dict response)])
                (with_step (S (S (step w))) w)).
Proof.
  intros Hshape. cbv zeta.
  unfold AIEndpoints.analyze_sentiment, AIEndpoints.sentiment_body,
    AIEndpoints.log_event_to_insights, AIEndpoints.add_task, AIService.analyze_sentiment,
    uuid4, time_time, bind, observe, try_except, ret.
  cbn [AIService.client fst snd env step with_step]. rewrite Hshape. reflexivity.
Qed.

(** With no backend client the sentiment route always answers 200: the
    body echoes the text, carries the fallback's sentiment, confidence
    and scores and the fresh request id.  The background task then
    stores, under the key of that same request id, a document with the
    request and exactly the response sent, if the blob service has a
    client and suffers no fault; without a client the answer is the
    same and nothing is stored. *)
Theorem sentiment_route_without_backend
    (settings : Settings) (json_loads : string -> exn + Py.val)
    (blob_service : BlobStorage.BlobStorageService)
    (request : Schemas.SentimentAnalysisRequest) (w : World) :
  let request_id := uuids (env w) (step w) in
  let fallback := AIService._mock_sentiment_analysis (Schemas.sentiment_text request) in
  let served :=
    App.serve settings blob_service Schemas.sentiment_response_dict
      (AIEndpoints.analyze_sentiment settings json_loads (AIService.mkAzureAIService None)
         request) w in
  exists label c scores,
    Py.get fallback "sentiment" = Some (Py.Str label)
    /\ Py.get fallback "confidence" = Some (Py.Float c)
    /\ Py.get fallback "scores" = Some (Schemas.float_items scores)
    /\ let body :=
         [ ("text", Py.Str (Schemas.sentiment_text request)); ("sentiment", Py.Str label);
           ("confidence", Py.Float c); ("scores", Schemas.float_items scores);
           ("processing_time", Py.Float 0.1); ("request_id", Py.Str request_id) ] in
       fst served = App.mkJSONResponse 200 body
       /\ USERS_DB (snd served) = USERS_DB w
       /\ (BlobStorage.has_client blob_service = false -> blobs (snd served) = blobs w)
       /\ (BlobStorage.has_client blob_service = true ->
           (forall k, faults (env w) k = None) ->
           exists date timestamp logged_at,
             blobs (snd served)
             = <[(BlobStorage.container_name blob_service,
                  BlobStorage.log_blob_name date request_id) :=
                   mkBlob (Json [ ("request_id", Py.Str request_id);
                                  ("endpoint", Py.Str "sentiment_analysis");
                                  ("request", Py.Dict (Schemas.sentiment_request_dict request));
                                  ("response", Py.Dict body);
                                  ("timestamp", Py.Str timestamp);
                                  ("logged_at", Py.Str logged_at) ])
                          "application/json"]> (blobs w)).
Proof.
  cbv zeta.
  destruct (mock_sentiment_shape (Schemas.sentiment_text request))
    as (label & c & p & n & u & Hshape).
  exists label, c, [ ("positive", p); ("negative", n); ("neutral", u) ].
  rewrite Hshape. do 3 (split; [reflexivity|]).
  unfold App.serve.
  rewrite (sentiment_route_run settings json_loads request (with_tasks [] w)
             label c p n u Hshape).
  cbv zeta. cbn [fst snd tasks with_tasks with_step env step app].
  split; [reflexivity|].
  cbn [App.run_tasks]. unfold BlobStorage.save_request_to_blob, bind, utcnow, observe, ret.
  cbn [fst snd env step with_step with_tasks task_request_id task_endpoint task_request
       task_response].
  destruct (BlobStorage.has_client blob_service) eqn:Hc.
  - rewrite (save_request_log_run _ _ _ _ Hc). cbv zeta.
    cbn [env step with_step with_tasks].
    split; [destruct (faults _ _); reflexivity|]. split; [discriminate|].
    intros _ Hfaults. rewrite Hfaults. cbn [fst snd blobs with_blobs with_step with_tasks].
    do 3 eexists. reflexivity.
  - unfold BlobStorage.save_request_log. rewrite Hc. cbn [negb].
    split; [reflexivity|]. split; [reflexivity | discriminate].
Qed.

(** ** The image facade and its route *)

(** [classify_image] with a loaded model opens the image first.  Bytes
    that do not open as an image are answered with the random
    fallback, and the model is not called.  On an image that opens:
    when the model finds nothing (no result, or a first result without
    boxes), the answer is the pose [unknown] with confidence zero, a
    zero score for each class of the service, and an explanatory
    message; when the model raises, or reports only class indices that
    its own table of names lacks, the answer is the random fallback. *)
Theorem classify_image_edge_cases
    (Image_open : string -> exn + ImageClassifier.Image)
    (yolo : ImageClassifier.YOLO) (image_bytes : string) (w : World) :
  let self := ImageClassifier.mkImageClassifierService (Some yolo)
                ["lying"; "standing"; "sitting"] in
  let elapsed :=
    (epoch (clock (env w) (S (S (step w)))) - epoch (clock (env w) (step w)))%Q in
  let nothing :=
    [ ("pose", Py.Str "unknown"); ("confidence", Py.Float 0.0);
      ("all_scores", Py.Dict [ ("lying", Py.Float 0.0); ("standing", Py.Float 0.0);
                               ("sitting", Py.Float 0.0) ]);
      ("detections_count", Py.Int 0); ("processing_time", Py.Float elapsed);
      ("message", Py.Str "No human detected in image") ] in
  let fallback := ImageClassifier._mock_classification self in
  let answer := ImageClassifier.classify_image Image_open self image_bytes w in
  (forall e,
      Image_open image_bytes = inl e ->
      answer = fallback (with_step (S (step w)) w))
  /\ (forall image,
         Image_open image_bytes = inr image ->
         (yolo image (env w) (S (step w)) = inr [] -> fst answer = inr nothing)
         /\ (forall class_names rest,
                yolo image (env w) (S (step w))
                = inr (ImageClassifier.mkResults class_names [] :: rest) ->
                fst answer = inr nothing)
         /\ (forall e,
                yolo image (env w) (S (step w)) = inl e ->
                answer = fallback (with_step (S (S (step w))) w))
         /\ (forall class_names box boxes rest,
                yolo image (env w) (S (step w))
                = inr (ImageClassifier.mkResults class_names (box :: boxes) :: rest) ->
                (forall b, In b (box :: boxes) -> (length class_names <= fst b)%nat) ->
                answer = fallback (with_step (S (S (step w))) w))).
Proof.
  cbv zeta.
  unfold ImageClassifier.classify_image, time_time, bind, observe, try_except, lift, ret.
  cbn [ImageClassifier.model ImageClassifier.classes fst snd env step with_step].
  split.
  - intros e ->. reflexivity.
  - intros image ->. cbn [fst snd env step with_step].
    split; [|split; [|split]].
    + intros ->. reflexivity.
    + intros class_names rest ->. reflexivity.
    + intros e ->. reflexivity.
    + intros class_names box boxes rest -> Hcls. cbn [tl].
      set (best := nth _ (box :: boxes) box).
      assert (Hbest : In best (box :: boxes)).
      { subst best. destruct (nth_in_or_default
                                (ImageClassifier.argmax_from 1 0 (snd box) boxes)
                                (box :: boxes) box) as [H | H]; [exact H|].
        rewrite H. left. reflexivity. }
      unfold ImageClassifier.class_name, bind, raise.
      assert (Hnone : nth_error class_names (fst best) = None)
        by (apply nth_error_None, Hcls, Hbest).
      rewrite Hnone. reflexivity.
Qed.

(** A model that finds nothing, on a GIF and on bytes that are no image. *)
Lemma classify_image_edge_cases_witness :
  let yolo : ImageClassifier.YOLO := fun _ _ _ => inr [] in
  let self := ImageClassifier.mkImageClassifierService (Some yolo)
                ["lying"; "standing"; "sitting"] in
  Py.get match result_of (ImageClassifier.classify_image Sample.gif_only self "GIF89a")
                         Sample.w0 with
         | inr result => result
         | inl _ => []
         end "pose" = Some (Py.Str "unknown")
  /\ ImageClassifier.classify_image Sample.gif_only self "bytes" Sample.w0
     = ImageClassifier._mock_classification self (with_step 1 Sample.w0).
Proof.
  cbv zeta. split.
  - destruct (classify_image_edge_cases Sample.gif_only (fun _ _ _ => inr []) "GIF89a"
                Sample.w0) as (_ & H).
    destruct (H (ImageClassifier.mkImage "GIF" "GIF89a") eq_refl) as (Hnone & _).
    unfold result_of. rewrite (Hnone eq_refl). reflexivity.
  - destruct (classify_image_edge_cases Sample.gif_only (fun _ _ _ => inr []) "bytes"
                Sample.w0) as (H & _).
    exact (H (Exception "cannot identify image file") eq_refl).
Defined.

(** The upload route checks the declared content type before anything
    else: a type that does not start with [image/] is answered 400
    "File must be an image", and only a request id has been drawn; a
    missing content type is an error outside the route's own handler,
    so it is answered by the global handler with status 500 and a
    detail that shows the error text only when the debug flag is set. *)
Theorem pose_route_content_type
    (settings : Settings) (blob_url : string -> string -> string)
    (Image_open : string -> exn + ImageClassifier.Image)
    (image_classifier : ImageClassifier.ImageClassifierService)
    (blob_service : BlobStorage.BlobStorageService)
    (image : ImageEndpoints.UploadFile) (w : World) :
  let served :=
    ImageEndpoints.serve_pose settings blob_url Image_open image_classifier blob_service
      image w in
  (forall ctype,
      ImageEndpoints.upload_content_type image = Some ctype ->
      String.prefix "image/" ctype = false ->
      served = (App.mkJSONResponse 400 [ ("detail", Py.Str "File must be an image") ],
                with_step (S (step w)) w))
  /\ (ImageEndpoints.upload_content_type image = None ->
      served
      = (App.mkJSONResponse 500
           [ ("error", Py.Str "Internal server error");
             ("detail", Py.Str (if DEBUG settings
                                then "'NoneType' object has no attribute 'startswith'"
                                else "An error occurred")) ],
         with_step (S (step w)) w)).
Proof.
  cbv zeta.
  unfold ImageEndpoints.serve_pose, ImageEndpoints.classify_human_pose, uuid4, bind,
    observe, raise, ret.
  cbn [fst snd]. split.
  - intros ctype -> ->. reflexivity.
  - intros ->. reflexivity.
Qed.

Lemma pose_route_content_type_witness :
  fst (ImageEndpoints.serve_pose Sample.production (fun c b => c ++ "/" ++ b) Sample.gif_only
         ImageClassifier.unloaded Sample.blob_service
         (ImageEndpoints.mkUploadFile (Some "notes.txt") (Some "text/plain") "hello")
         Sample.w0)
  = App.mkJSONResponse 400 [ ("detail", Py.Str "File must be an image") ]
  /\ fst (ImageEndpoints.serve_pose Sample.production (fun c b => c ++ "/" ++ b) Sample.gif_only
            ImageClassifier.unloaded Sample.blob_service
            (ImageEndpoints.mkUploadFile (Some "photo.jpg") None "bytes") Sample.w0)
     = App.mkJSONResponse 500
         [ ("error", Py.Str "Internal server error");
           ("detail", Py.Str "An error occurred") ].
Proof.
  split.
  - destruct (pose_route_content_type Sample.production (fun c b => c ++ "/" ++ b) Sample.gif_only
                ImageClassifier.unloaded Sample.blob_service
                (ImageEndpoints.mkUploadFile (Some "notes.txt") (Some "text/plain") "hello")
                Sample.w0) as (H & _).
    now rewrite (H "text/plain" eq_refl eq_refl).
  - destruct (pose_route_content_type Sample.production (fun c b => c ++ "/" ++ b) Sample.gif_only
                ImageClassifier.unloaded Sample.blob_service
                (ImageEndpoints.mkUploadFile (Some "photo.jpg") None "bytes")
                Sample.w0) as (_ & H).
    now rewrite (H eq_refl).
Defined.

Lemma argmax_from_spec (l : list (nat * Q)) (d : nat * Q) (xs pre : list (nat * Q))
    (i best_i : nat) (best : Q) :
  l = (pre ++ xs)%list -> i = length pre -> (best_i < i)%nat ->
  snd (nth best_i l d) = best ->
  (forall x, In x pre -> (snd x <= best)%Q) ->
  let r := ImageClassifier.argmax_from i best_i best xs in
  (r < length l)%nat /\ forall x, In x l -> (snd x <= snd (nth r l d))%Q.
Proof.
  revert pre i best_i best. induction xs as [|[cls c] xs IH];
    intros pre i best_i best Hl Hi Hlt Hbest Hpre; cbn [ImageClassifier.argmax_from].
  - cbv zeta. rewrite app_nil_r in Hl. subst l i. split; [exact Hlt|].
    intros x Hx. rewrite Hbest. now apply Hpre.
  - assert (Hl' : l = ((pre ++ [(cls, c)]) ++ xs)%list) by (rewrite <- app_assoc; exact Hl).
    assert (Hi' : S i = length (pre ++ [(cls, c)]))
      by (rewrite length_app; cbn; lia).
    destruct (Py.Qgtb c best) eqn:E.
    + apply (IH (pre ++ [(cls, c)])%list (S i) i c Hl' Hi'); [lia | |].
      * rewrite Hl, Hi. rewrite nth_middle. reflexivity.
      * intros x Hx. apply in_app_or in Hx as [Hx | [<- | []]]; [|apply Qle_refl].
        apply Qgtb_true in E. apply Qlt_le_weak in E.
        eapply Qle_trans; [apply Hpre, Hx | exact E].
    + apply (IH (pre ++ [(cls, c)])%list (S i) best_i best Hl' Hi'); [lia | exact Hbest |].
      intros x Hx. apply in_app_or in Hx as [Hx | [<- | []]]; [now apply Hpre|].
      now apply Qgtb_false in E.
Qed.

Lemma get_in_keys {V} (d : Py.dict V) (k : string) :
  In k (Py.keys d) -> exists v, Py.get d k = Some v.
Proof.
  induction d as [|[k1 v1] d IH]; cbn; [intros []|].
  destruct (String.eqb k1 k) eqn:E; [eexists; reflexivity|].
  intros [H | H]; [apply String.eqb_neq in E; congruence | exact (IH H)].
Qed.

Lemma keys_set_mono {V} (d : Py.dict V) (k n : string) (v : V) :
  In n (Py.keys d) -> In n (Py.keys (Py.set d k v)).
Proof.
  induction d as [|[k1 v1] d IH]; cbn; [intros []|].
  destruct (String.eqb k1 k); cbn; [tauto|].
  intros [H | H]; [left; exact H | right; exact (IH H)].
Qed.

Lemma zero_scores_keys (names : list string) (d : Py.dict Q) (n : string) :
  In n names \/ In n (Py.keys d) ->
  In n (Py.keys (fold_left (fun d n => Py.set d n 0.0%Q) names d)).
Proof.
  revert d. induction names as [|m names IH]; intros d; cbn [fold_left].
  - intros [[] | H]; exact H.
  - intros H. apply IH.
    destruct H as [[<- | H] | H]; [right | left; exact H | right].
    + unfold Py.keys. apply in_map_iff. exists (m, 0.0%Q). split; [reflexivity|].
      apply set_stores.
    + now apply keys_set_mono.
Qed.

Lemma best_scores_succeeds (class_names : list string) (bs : list (nat * Q))
    (all_scores : Py.dict Q) :
  (forall b, In b bs -> (fst b < length class_names)%nat) ->
  (forall n, In n class_names -> In n (Py.keys all_scores)) ->
  exists scores,
    Py.keys scores = Py.keys all_scores
    /\ forall w, ImageClassifier.best_scores class_names bs all_scores w = (inr scores, w).
Proof.
  revert all_scores. induction bs as [|[cls conf] bs IH]; intros all_scores Hbs Hkeys;
    cbn [ImageClassifier.best_scores].
  - exists all_scores. split; reflexivity.
  - assert (Hcls : (cls < length class_names)%nat) by (apply (Hbs (cls, conf)); left; reflexivity).
    destruct (nth_error class_names cls) as [name|] eqn:En;
      [|apply nth_error_None in En; lia].
    destruct (get_in_keys all_scores name (Hkeys name (nth_error_In _ _ En))) as [old Hold].
    destruct (IH (Py.set all_scores name (ImageClassifier.max old conf))) as (scores & Hk & Hrun).
    + intros b Hb. apply Hbs. right. exact Hb.
    + intros n Hn. rewrite (keys_set_present _ _ _ _ Hold). now apply Hkeys.
    + exists scores. split; [now rewrite Hk, (keys_set_present _ _ _ _ Hold)|].
      intros w. unfold bind, ImageClassifier.class_name, ret. rewrite En, Hold. apply Hrun.
Qed.

(** When the image opens and the model reports boxes whose class
    indices are all in its table of names, [classify_image] answers
    with the class of a box
    of highest confidence, that confidence, a score for exactly the
    model's class names, and the number of boxes; no message is
    attached. *)
Theorem classify_image_best_detection
    (Image_open : string -> exn + ImageClassifier.Image)
    (self : ImageClassifier.ImageClassifierService) (yolo : ImageClassifier.YOLO)
    (image_bytes : string) (image : ImageClassifier.Image) (w : World)
    (class_names : list string)
    (box : nat * Q) (boxes : list (nat * Q)) (rest : list ImageClassifier.Results) :
  ImageClassifier.model self = Some yolo ->
  Image_open image_bytes = inr image ->
  yolo image (env w) (S (step w))
  = inr (ImageClassifier.mkResults class_names (box :: boxes) :: rest) ->
  (forall b, In b (box :: boxes) -> (fst b < length class_names)%nat) ->
  exists pose confidence scores cls,
    result_of (ImageClassifier.classify_image Image_open self image_bytes) w
    = inr [ ("pose", Py.Str pose); ("confidence", Py.Float confidence);
            ("all_scores", Py.Dict (ImageClassifier.float_items scores));
            ("detections_count", Py.Int (Z.of_nat (length (box :: boxes))));
            ("processing_time",
             Py.Float (epoch (clock (env w) (S (S (step w)))) - epoch (clock (env w) (step w)))) ]
    /\ In (cls, confidence) (box :: boxes)
    /\ nth_error class_names cls = Some pose
    /\ (forall b, In b (box :: boxes) -> (snd b <= confidence)%Q)
    /\ Py.keys scores
       = Py.keys (fold_left (fun d n => Py.set d n 0.0%Q) class_names []).
Proof.
  intros Hmodel Hopen Hyolo Hvalid.
  destruct (argmax_from_spec (box :: boxes) box boxes [box] 1 0 (snd box))
    as [Hlt Hmax]; try reflexivity; [lia | |].
  { intros x [<- | []]. apply Qle_refl. }
  set (best_idx := ImageClassifier.argmax_from 1 0 (snd box) boxes) in *.
  set (best := nth best_idx (box :: boxes) box) in *.
  assert (Hbest : In best (box :: boxes)) by (apply nth_In; exact Hlt).
  destruct (nth_error class_names (fst best)) as [pose|] eqn:En;
    [|apply nth_error_None in En; specialize (Hvalid best Hbest); lia].
  destruct (best_scores_succeeds class_names (box :: boxes)
              (fold_left (fun d n => Py.set d n 0.0%Q) class_names []) Hvalid)
    as (scores & Hkeys & Hrun).
  { intros n Hn. apply zero_scores_keys. left. exact Hn. }
  exists pose, (snd best), scores, (fst best).
  split; [|split; [|split; [|split]]].
  - unfold result_of, ImageClassifier.classify_image, time_time, bind, observe, try_except,
      lift, ret.
    rewrite Hmodel. cbn [fst snd env step with_step]. rewrite Hopen.
    cbn [fst snd env step with_step]. rewrite Hyolo.
    cbn [tl]. fold best_idx. fold best.
    unfold ImageClassifier.class_name, bind, raise, ret. rewrite En.
    rewrite Hrun. reflexivity.
  - destruct best. exact Hbest.
  - exact En.
  - exact Hmax.
  - exact Hkeys.
Qed.

Lemma classify_image_best_detection_witness :
  let yolo : ImageClassifier.YOLO :=
    fun _ _ _ => inr [ImageClassifier.mkResults ["lying"; "standing"; "sitting"]
                        [(1%nat, 0.4%Q); (2%nat, 0.9%Q); (1%nat, 0.6%Q)]] in
  exists rest,
    result_of (ImageClassifier.classify_image Sample.gif_only
                 (ImageClassifier.mkImageClassifierService (Some yolo)
                    ["lying"; "standing"; "sitting"]) "GIF89a") Sample.w0
    = inr (("pose", Py.Str "sitting") :: ("confidence", Py.Float 0.9) :: rest).
Proof.
  cbv zeta.
  destruct (classify_image_best_detection Sample.gif_only
              (ImageClassifier.mkImageClassifierService
                 (Some (fun _ _ _ => inr [ImageClassifier.mkResults
                                            ["lying"; "standing"; "sitting"]
                                            [(1%nat, 0.4%Q); (2%nat, 0.9%Q); (1%nat, 0.6%Q)]]))
                 ["lying"; "standing"; "sitting"])
              (fun _ _ _ => inr [ImageClassifier.mkResults ["lying"; "standing"; "sitting"]
                                   [(1%nat, 0.4%Q); (2%nat, 0.9%Q); (1%nat, 0.6%Q)]])
              "GIF89a" (ImageClassifier.mkImage "GIF" "GIF89a") Sample.w0
              ["lying"; "standing"; "sitting"]
              (1%nat, 0.4%Q) [(2%nat, 0.9%Q); (1%nat, 0.6%Q)] [] eq_refl eq_refl eq_refl)
    as (pose & confidence & scores & cls & Hresult & _).
  - intros b [<- | [<- | [<- | []]]]; cbn; lia.
  - eexists. vm_compute. reflexivity.
Defined.

Lemma save_input_file_run (blob_url : string -> string -> string)
    (self : BlobStorage.BlobStorageService) (file_name file_content ctype : string)
    (w : World) :
  BlobStorage.has_client self = true ->
  BlobStorage.save_input_file blob_url self file_name file_content ctype w =
    let blob_name :=
      BlobStorage.input_blob_name (strftime_Ymd_HMS (utc (next_instant w))) file_name in
    let w' := with_step (S (S (step w))) w in
    match faults (env w) (S (step w)) with
    | Some _ => (inr None, w')
    | None =>
        (inr (Some (blob_url (BlobStorage.container_name self) blob_name)),
         with_blobs (<[(BlobStorage.container_name self, blob_name) :=
                         mkBlob (Bytes file_content) ctype]> (blobs w)) w')
    end.
Proof.
  intros Hc. unfold BlobStorage.save_input_file, next_instant. rewrite Hc. cbn [negb].
  unfold try_except, bind, utcnow, BlobStorage.upload_blob, bind, observe, ret, raise.
  cbn [env step with_step fst snd]. cbv zeta.
  destruct (faults (env w) (S (step w))) as [msg|]; [reflexivity|].
  unfold with_step; cbn [env step blobs USERS_DB tasks].
  match goal with |- context [blobs w !! ?k] => destruct (blobs w !! k) end; reflexivity.
Qed.

(** The background task of the image route stores the image under
    [inputs/], always typed [image/jpeg], and then the request log with
    the URL of that blob.  When the upload of the image fails, the log
    is still written, with a null [image_url]. *)
Theorem save_image_to_blob_outcomes
    (blob_url : string -> string -> string) (blob_service : BlobStorage.BlobStorageService)
    (t : ImageEndpoints.ImageTask) (w : World) :
  let container := BlobStorage.container_name blob_service in
  let file_name :=
    ImageEndpoints.it_request_id t ++ "_" ++ ImageEndpoints.fmt (ImageEndpoints.it_filename t) in
  let input_name :=
    BlobStorage.input_blob_name (strftime_Ymd_HMS (utc (next_instant w))) file_name in
  let log_name :=
    BlobStorage.log_blob_name (strftime_Ymd (utc (clock (env w) (3 + step w))))
                              (ImageEndpoints.it_request_id t) in
  let document image_url :=
    [ ("request_id", Py.Str (ImageEndpoints.it_request_id t));
      ("endpoint", Py.Str "image_classification");
      ("filename", Schemas.opt_str (ImageEndpoints.it_filename t));
      ("image_url", image_url);
      ("result", Py.Dict (ImageEndpoints.it_result t));
      ("timestamp", Py.Str (isoformat (utc (clock (env w) (2 + step w)))));
      ("logged_at", Py.Str (isoformat (utc (clock (env w) (4 + step w))))) ] in
  let w' := world_after (ImageEndpoints.save_image_to_blob blob_url blob_service t) w in
  BlobStorage.has_client blob_service = true ->
  faults (env w) (5 + step w) = None ->
  result_of (ImageEndpoints.save_image_to_blob blob_url blob_service t) w = inr tt
  /\ (faults (env w) (1 + step w) = None ->
      blobs w'
      = <[(container, log_name) :=
            mkBlob (Json (document (Py.Str (blob_url container input_name))))
                   "application/json"]>
          (<[(container, input_name) :=
               mkBlob (Bytes (ImageEndpoints.it_image_bytes t)) "image/jpeg"]> (blobs w)))
  /\ (faults (env w) (1 + step w) <> None ->
      blobs w'
      = <[(container, log_name) := mkBlob (Json (document Py.None_)) "application/json"]>
          (blobs w)).
Proof.
  cbv zeta. intros Hc Hlog. cbn [plus] in *.
  unfold result_of, world_after, ImageEndpoints.save_image_to_blob.
  rewrite bind_run, (save_input_file_run _ _ _ _ _ _ Hc). cbv zeta.
  destruct (faults (env w) (S (step w))) as [msg|] eqn:Hin.
  - unfold bind, utcnow, observe, ret. cbn [fst snd env step with_step].
    rewrite (save_request_log_run _ _ _ _ Hc). cbv zeta.
    cbn [env step with_step]. rewrite Hlog. cbn [fst snd blobs with_blobs with_step].
    split; [reflexivity|]. split; [discriminate|]. intros _. reflexivity.
  - unfold bind, utcnow, observe, ret. cbn [fst snd env step with_step with_blobs].
    rewrite (save_request_log_run _ _ _ _ Hc). cbv zeta.
    cbn [env step with_step with_blobs]. rewrite Hlog.
    cbn [fst snd blobs with_blobs with_step].
    split; [reflexivity|]. split; [intros _; reflexivity | congruence].
Qed.

Lemma save_image_to_blob_outcomes_witness :
  let t := ImageEndpoints.mkImageTask "r-7" "bytes" (Some "cat.png") [] in
  let w' := world_after (ImageEndpoints.save_image_to_blob (fun c b => c ++ "/" ++ b)
                           Sample.blob_service t) Sample.w0 in
  blobs w' !! ("ai-api-logs", "inputs/20240115_100000_r-7_cat.png")
  = Some (mkBlob (Bytes "bytes") "image/jpeg").
Proof.
  cbv zeta.
  destruct (save_image_to_blob_outcomes (fun c b => c ++ "/" ++ b) Sample.blob_service
              (ImageEndpoints.mkImageTask "r-7" "bytes" (Some "cat.png") []) Sample.w0
              eq_refl eq_refl) as (_ & Hstored & _).
  rewrite (Hstored eq_refl). vm_compute. reflexivity.
Defined.

Lemma mock_classification_shape (w : World) :
  exists pose c scores,
    ImageClassifier._mock_classification ImageClassifier.unloaded w
    = (inr [ ("pose", Py.Str pose); ("confidence", Py.Float c);
             ("all_scores", Py.Dict scores); ("detections_count", Py.Int 1);
             ("processing_time", Py.Float 0.15);
             ("message", Py.Str "Using mock classification (model not loaded)") ],
       with_step (4 + step w) w)
    /\ In pose ["lying"; "standing"; "sitting"]
    /\ Py.keys scores = ["lying"; "standing"; "sitting"].
Proof.
  unfold ImageClassifier._mock_classification, ImageClassifier.unloaded, random_choice,
    bind, observe, ret.
  cbn [ImageClassifier.classes length fst snd env step with_step].
  pose proof (below_three (entropy (env w) (step w))) as Hi. cbv zeta in Hi.
  destruct Hi as [-> | [-> | ->]];
    cbn [nth]; rewrite random_uniform_run;
    cbn [ImageClassifier.mock_scores String.eqb Ascii.eqb Bool.eqb
         env step with_step fst snd Py.set];
    do 2 (rewrite bind_run, random_uniform_run;
          cbn [env step with_step fst snd Py.set String.eqb Ascii.eqb Bool.eqb]);
    unfold ret; do 3 eexists;
    (split; [reflexivity|]); (split; [cbn; tauto | reflexivity]).
Qed.

(** An upload declared as an image, with no model loaded, is always
    answered 200: the body names the file and the request id, reports
    one detection with one of the three poses, scores for exactly the
    three classes, and the note that the classification is a mock. *)
Theorem pose_route_without_model
    (settings : Settings) (blob_url : string -> string -> string)
    (Image_open : string -> exn + ImageClassifier.Image)
    (blob_service : BlobStorage.BlobStorageService)
    (image : ImageEndpoints.UploadFile) (ctype : string) (w : World) :
  ImageEndpoints.upload_content_type image = Some ctype ->
  String.prefix "image/" ctype = true ->
  exists pose confidence scores,
    fst (ImageEndpoints.serve_pose settings blob_url Image_open ImageClassifier.unloaded
           blob_service image w)
    = App.mkJSONResponse 200
        [ ("filename", Schemas.opt_str (ImageEndpoints.filename image));
          ("pose", Py.Str pose); ("confidence", Py.Float confidence);
          ("all_scores", Py.Dict scores); ("detections_count", Py.Int 1);
          ("processing_time", Py.Float 0.15);
          ("request_id", Py.Str (uuids (env w) (step w)));
          ("message", Py.Str "Using mock classification (model not loaded)") ]
    /\ In pose ["lying"; "standing"; "sitting"]
    /\ Py.keys scores = ["lying"; "standing"; "sitting"].
Proof.
  intros Hctype Himage.
  destruct (mock_classification_shape (with_step (S (S (step w))) w))
    as (pose & c & scores & Hmock & Hpose & Hkeys).
  exists pose, c, scores. split; [|split; assumption].
  unfold ImageEndpoints.serve_pose, ImageEndpoints.classify_human_pose,
    ImageEndpoints.pose_body, AIEndpoints.log_event_to_insights,
    ImageClassifier.classify_image, uuid4, time_time, bind, observe, try_except, ret.
  rewrite Hctype. cbn [fst snd]. rewrite Himage. cbn [negb fst snd env step with_step].
  change (ImageClassifier.model ImageClassifier.unloaded) with (@None ImageClassifier.YOLO).
  cbv iota beta.
  change (with_step (S (S (step w))) (with_step (S (step w)) w))
    with (with_step (S (S (step w))) w).
  rewrite Hmock. reflexivity.
Qed.

Lemma pose_route_without_model_witness :
  App.status_code
    (fst (ImageEndpoints.serve_pose Sample.production (fun c b => c ++ "/" ++ b) Sample.gif_only
            ImageClassifier.unloaded Sample.blob_service
            (ImageEndpoints.mkUploadFile (Some "cat.png") (Some "image/png") "bytes")
            Sample.w0)) = 200%nat.
Proof.
  destruct (pose_route_without_model Sample.production (fun c b => c ++ "/" ++ b) Sample.gif_only
              Sample.blob_service
              (ImageEndpoints.mkUploadFile (Some "cat.png") (Some "image/png") "bytes")
              "image/png" Sample.w0 eq_refl eq_refl) as (pose & c & scores & H & _).
  rewrite H. reflexivity.
Defined.

(** With no backend client the chat route always answers 200 with the
    fixed mock sentence, the model name [mock] and zero tokens, echoing
    the prompt and carrying the fresh request id. *)
Theorem chat_route_without_backend
    (settings : Settings) (blob_service : BlobStorage.BlobStorageService)
    (request : Schemas.OpenAIRequest) (w : World) :
  exists processing_time,
    fst (App.serve settings blob_service Schemas.chat_response_dict
           (AIEndpoints.chat_completion settings (AIService.mkAzureAIService None) request) w)
    = App.mkJSONResponse 200
        [ ("prompt", Py.Str (Schemas.prompt request));
          ("response", Py.Str "Azure OpenAI is not configured. This is a mock response.");
          ("model", Py.Str "mock"); ("tokens_used", Py.Int 0);
          ("processing_time", Py.Float processing_time);
          ("request_id", Py.Str (uuids (env w) (step w))) ].
Proof.
  eexists.
  unfold App.serve, AIEndpoints.chat_completion, AIEndpoints.chat_body,
    AIEndpoints.log_event_to_insights, AIEndpoints.add_task, AIService.chat_completion,
    uuid4, time_time, bind, observe, try_except, ret.
  cbn [AIService.client fst snd env step with_step with_tasks]. reflexivity.
Qed.
